(** * Proposal generator: extraction, enhancement and rebuilding of slide decks

    A shallow embedding of [src.py] (a Streamlit script that reads a .pptx
    file with python-pptx, asks a chat model for an improved outline and
    renders a new deck), followed by the properties stated about it.

    Layout of the development:
    - Python values: strings as lists of code points, JSON values as
      [json.loads] produces them, exceptions, truthiness, iteration;
    - a state-and-exception monad in which the script's functions are
      written in the order of the source;
    - the python-pptx object model, as far as the script touches it;
    - [extract_ppt_text], [generate_improved_json], [json_to_ppt] and the
      script's top level ([main]);
    - the vocabulary of the specification, the rendering in closed form
      and sample data;
    - lemmas and theorems: the stated properties with what they rest on,
      then further properties of the same functions.

    What lies outside the script is kept abstract or modelled at the
    level of its documented interface:
    - the chat service, the JSON parser and serialiser, [str()] of
      exceptions and of compound values, the name of the temporary file
      and the parsing of the uploaded bytes are parameters of a run
      ([Runtime], [Env], [UploadedFile]);
    - python-pptx is modelled by the objects it exposes: presentations,
      slides, shapes, text frames, paragraphs. Assigning to
      [text_frame.text] makes one paragraph per line, assigning to
      [paragraph.text] turns a line feed into a line break, a new shape
      has one empty paragraph, [Presentation()] is the default template.
      The XML behind the objects, and with it the escaping of control
      characters in run text, is not modelled. *)

From Stdlib Require Import String Ascii QArith Qround ZifyBool.
From stdpp Require Import base tactics numbers option list.

Set Warnings "-register-all".

Local Open Scope Z_scope.
Local Open Scope list_scope.

(** ** Python strings *)

(** A Python [str] is a sequence of Unicode code points. *)
Definition pystr : Type := list N.

Fixpoint bytes_of_string (s : string) : list N :=
  match s with
  | EmptyString => []
  | String a s' => N_of_ascii a :: bytes_of_string s'
  end.

(** String literals of this file are UTF-8 encoded, like the source file;
    [utf8_decode] turns the bytes of a literal into code points. *)
Fixpoint utf8_decode (bs : list N) : pystr :=
  match bs with
  | [] => []
  | b0 :: r0 =>
    if (b0 <? 0x80)%N then b0 :: utf8_decode r0
    else match r0 with
    | [] => [b0]
    | b1 :: r1 =>
      if (b0 <? 0xE0)%N
      then ((b0 - 0xC0) * 0x40 + (b1 - 0x80))%N :: utf8_decode r1
      else match r1 with
      | [] => [b0; b1]
      | b2 :: r2 =>
        if (b0 <? 0xF0)%N
        then ((b0 - 0xE0) * 0x1000 + (b1 - 0x80) * 0x40 + (b2 - 0x80))%N
               :: utf8_decode r2
        else match r2 with
        | [] => [b0; b1; b2]
        | b3 :: r3 =>
          ((b0 - 0xF0) * 0x40000 + (b1 - 0x80) * 0x1000
           + (b2 - 0x80) * 0x40 + (b3 - 0x80))%N :: utf8_decode r3
        end
      end
    end
  end.

Definition py (s : string) : pystr := utf8_decode (bytes_of_string s).

Definition LF : N := 10.
Definition VT : N := 11.

(** [str.isspace] on one code point: the characters [str.strip()] removes. *)
Definition isspace (c : N) : bool :=
  ((9 <=? c) && (c <=? 13) || (28 <=? c) && (c <=? 32)
   || (c =? 0x85) || (c =? 0xA0) || (c =? 0x1680)
   || (0x2000 <=? c) && (c <=? 0x200A)
   || (c =? 0x2028) || (c =? 0x2029) || (c =? 0x202F)
   || (c =? 0x205F) || (c =? 0x3000))%N.

Fixpoint lstrip (s : pystr) : pystr :=
  match s with
  | [] => []
  | c :: s' => if isspace c then lstrip s' else s
  end.

Definition rstrip (s : pystr) : pystr := reverse (lstrip (reverse s)).

(** [s.strip()] *)
Definition strip (s : pystr) : pystr := rstrip (lstrip s).

(** [s.split(sep)] for a one-character separator: never the empty list. *)
Fixpoint split_on (sep : N) (s : pystr) : list pystr :=
  match s with
  | [] => [[]]
  | c :: s' =>
    if (c =? sep)%N then [] :: split_on sep s'
    else match split_on sep s' with
         | l :: ls => (c :: l) :: ls
         | [] => [[c]]
         end
  end.

(** [sep.join(parts)] *)
Fixpoint join (sep : pystr) (parts : list pystr) : pystr :=
  match parts with
  | [] => []
  | [p] => p
  | p :: rest => p ++ sep ++ join sep rest
  end.

(** Decimal digits of a non-negative number, most significant first, with
    fuel bounding the number of digits. *)
Fixpoint digits_fuel (fuel : nat) (n : N) (acc : pystr) : pystr :=
  match fuel with
  | O => acc
  | S fuel' =>
    let acc' := (48 + n mod 10)%N :: acc in
    if (n <? 10)%N then acc' else digits_fuel fuel' (n / 10)%N acc'
  end.

(** The decimal notation of an integer. *)
Definition decimal (z : Z) : pystr :=
  let n := Z.to_N (Z.abs z) in
  let ds := digits_fuel (S (N.to_nat (N.log2 n))) n [] in
  if z <? 0 then 45%N :: ds else ds.

(** ** Python values produced by [json.loads] *)

(** A Python [float]: a dyadic number, an infinity or a NaN. *)
Inductive pyfloat : Type :=
| FFinite (m e : Z)
| FInf (negative : bool)
| FNaN.

(** A [dict] keeps its keys in insertion order; keys are unique. *)
Inductive json : Type :=
| JNull
| JBool (b : bool)
| JInt (z : Z)
| JFloat (f : pyfloat)
| JStr (s : pystr)
| JList (l : list json)
| JDict (d : list (pystr * json)).

Inductive exn : Type :=
| AttributeError
| TypeError
| KeyError
| IndexError
| ValueError
| OSError
| OtherException (name : pystr).

(** What a call gives: a value or a raised exception (a subclass of
    [Exception]). *)
Inductive result (A : Type) : Type :=
| Returns (a : A)
| Raises (e : exn).
Arguments Returns {A} a.
Arguments Raises {A} e.

(** How a computation of the script ends: as a call does, or by
    Streamlit's [st.stop()], which ends the script run and is not an
    [Exception]. *)
Inductive outcome (A : Type) : Type :=
| Ok (a : A)
| Raise (e : exn)
| Stop.
Arguments Ok {A} a.
Arguments Raise {A} e.
Arguments Stop {A}.

(** [bool(v)] *)
Definition truthy (v : json) : bool :=
  match v with
  | JNull => false
  | JBool b => b
  | JInt z => negb (z =? 0)
  | JFloat (FFinite m _) => negb (m =? 0)
  | JFloat _ => true
  | JStr s => negb (bool_decide (s = []))
  | JList l => negb (bool_decide (length l = 0%nat))
  | JDict d => negb (bool_decide (length d = 0%nat))
  end.

Fixpoint assoc (k : pystr) (d : list (pystr * json)) : option json :=
  match d with
  | [] => None
  | (k', v) :: d' => if bool_decide (k' = k) then Some v else assoc k d'
  end.

(** [v.get(key, default)]: only a [dict] has the method. *)
Definition py_get (v : json) (key : pystr) (dflt : json) : result json :=
  match v with
  | JDict d => Returns (default dflt (assoc key d))
  | _ => Raises AttributeError
  end.

(** [for x in v]: the items a [for] loop visits, or [TypeError] when [v] is
    not iterable. A [dict] yields its keys, a [str] its characters. *)
Definition py_iter (v : json) : result (list json) :=
  match v with
  | JList l => Returns l
  | JDict d => Returns (map (fun kv => JStr (fst kv)) d)
  | JStr s => Returns (map (fun c => JStr [c]) s)
  | _ => Raises TypeError
  end.

(** [v[key]] for a string key. *)
Definition py_getitem (v : json) (key : pystr) : result json :=
  match v with
  | JDict d => match assoc key d with
               | Some x => Returns x
               | None => Raises KeyError
               end
  | _ => Raises TypeError
  end.

(** [str(z)] for a Python [int]: the decimal notation, unless it has more
    digits than [sys.get_int_max_str_digits()] allows (4300 by default,
    the sign not counted), which is a [ValueError]. *)
Definition int_max_str_digits : nat := 4300.

Definition str_int (z : Z) : result pystr :=
  if (length (decimal (Z.abs z)) <=? int_max_str_digits)%nat
  then Returns (decimal z)
  else Raises ValueError.

(** What the Python runtime and its standard library contribute and this
    development leaves open: [str()] of a float, list or dict (which fails
    where an integer inside is too long to convert), [str()] of an
    exception, and the [json] module. *)
Record Runtime : Type := {
  str_compound : json -> result pystr;
  str_exn : exn -> pystr;
  json_loads : pystr -> result json;
  json_dumps_indent2 : json -> pystr
}.

(** [str(v)], as an f-string field [{v}] formats it. *)
Definition py_str (rt : Runtime) (v : json) : result pystr :=
  match v with
  | JStr s => Returns s
  | JNull => Returns (py "None")
  | JBool true => Returns (py "True")
  | JBool false => Returns (py "False")
  | JInt z => str_int z
  | _ => str_compound rt v
  end.

(** ** State and exceptions *)

(** A computation over a mutable state [S]: the state reached when an
    exception is raised is kept, as Python keeps side effects. *)
Definition M (S A : Type) : Type := S -> outcome A * S.

Definition ret {S A} (a : A) : M S A := fun s => (Ok a, s).

Definition bind {S A B} (m : M S A) (k : A -> M S B) : M S B :=
  fun s =>
    match m s with
    | (Ok a, s') => k a s'
    | (Raise e, s') => (Raise e, s')
    | (Stop, s') => (Stop, s')
    end.

Declare Scope py_scope.
Delimit Scope py_scope with py_m.
Notation "x <- c ;; k" := (bind c (fun x => k))
  (at level 100, c at next level, right associativity) : py_scope.
Notation "c ;; k" := (bind c (fun _ => k))
  (at level 100, right associativity) : py_scope.
Local Open Scope py_scope.

Definition get_state {S} : M S S := fun s => (Ok s, s).
Definition modify {S} (f : S -> S) : M S unit := fun s => (Ok tt, f s).
Definition raise {S A} (e : exn) : M S A := fun s => (Raise e, s).

(** A call that does not touch the state. *)
Definition lift {S A} (r : result A) : M S A :=
  fun s =>
    match r with
    | Returns a => (Ok a, s)
    | Raises e => (Raise e, s)
    end.

(** [for x in xs: body x] *)
Fixpoint for_each {S A} (xs : list A) (body : A -> M S unit) : M S unit :=
  match xs with
  | [] => ret tt
  | x :: xs' => body x ;; for_each xs' body
  end.

(** [try: body  except Exception as e: handler e]. [st.stop()] is not an
    [Exception] and passes through. *)
Definition try_except {S A} (body : M S A) (handler : exn -> M S A) : M S A :=
  fun s =>
    match body s with
    | (Raise e, s') => handler e s'
    | r => r
    end.

(** Run [m] on a local object that starts as [init]; hand back the object
    as [m] leaves it. The enclosing state is not touched. *)
Definition with_local {S L A} (init : L) (m : M L A) : M S L :=
  fun s =>
    match m init with
    | (Ok _, l) => (Ok l, s)
    | (Raise e, _) => (Raise e, s)
    | (Stop, _) => (Stop, s)
    end.

(** Run a computation on a component of the state. *)
Definition zoom {S T A} (proj : S -> T) (inj : T -> S -> S) (m : M T A)
  : M S A :=
  fun s => let (r, t) := m (proj s) in (r, inj t s).

(** ** The python-pptx object model *)

Inductive RGB : Type := RGBColor (r g b : N).

(** Lengths are English Metric Units, as python-pptx stores them:
    [Inches(x)] is [int(x * 914400)]. The script passes decimal fractions
    with one digit; for these the product in floating point truncates to
    the same integer as the exact product. *)
Definition Inches (q : Q) : Z := Qfloor (q * 914400).
Definition Pt (n : Z) : Z := n * 12700.

(** A fill inherits from the layout or the style until it is given a
    type: no fill ([a:noFill], which python-pptx reports as
    [MSO_FILL.BACKGROUND]), or, by [solid()], a solid fill, whose colour
    is set afterwards. *)
Inductive Fill : Type :=
| FillInherit
| FillBackground
| FillSolid (fore_color : option RGB).

Record Font : Type := {
  font_size : option Z;
  font_bold : option bool;
  font_color : option RGB
}.

Definition default_font : Font :=
  {| font_size := None; font_bold := None; font_color := None |}.

(** The text of a paragraph is what [paragraph.text] returns: its runs
    concatenated, a line break read as a vertical tab. *)
Record Paragraph : Type := {
  p_text : pystr;
  p_font : Font;
  p_level : Z
}.

Definition empty_paragraph : Paragraph :=
  {| p_text := []; p_font := default_font; p_level := 0 |}.

Record TextFrame : Type := {
  paragraphs : list Paragraph;
  word_wrap : option bool
}.

(** The text frame of a shape that has just been created: one empty
    paragraph. A text box starts with wrapping off, other shapes inherit
    the setting. *)
Definition new_text_frame (wrap : option bool) : TextFrame :=
  {| paragraphs := [empty_paragraph]; word_wrap := wrap |}.

Inductive MSO_SHAPE : Type :=
| RECTANGLE
| ROUNDED_RECTANGLE
| OTHER_AUTO_SHAPE (id : N).

Inductive SpKind : Type :=
| AutoShape (shape_type : MSO_SHAPE)
| TextBox
| Placeholder (idx : nat).

(** A [p:sp] element: the shapes that carry a text frame. The title of a
    slide is its placeholder of index 0, which is such a shape. *)
Record Sp : Type := {
  sp_kind : SpKind;
  sp_left : Z;
  sp_top : Z;
  sp_width : Z;
  sp_height : Z;
  sp_fill : Fill;
  text_frame : TextFrame
}.

Definition sp_with_fill (f : Fill) (sp : Sp) : Sp :=
  {| sp_kind := sp_kind sp; sp_left := sp_left sp; sp_top := sp_top sp;
     sp_width := sp_width sp; sp_height := sp_height sp;
     sp_fill := f; text_frame := text_frame sp |}.

Definition sp_with_text_frame (tf : TextFrame) (sp : Sp) : Sp :=
  {| sp_kind := sp_kind sp; sp_left := sp_left sp; sp_top := sp_top sp;
     sp_width := sp_width sp; sp_height := sp_height sp;
     sp_fill := sp_fill sp; text_frame := tf |}.

(** The members of [slide.shapes]. Pictures, graphic frames (tables and
    charts), group shapes and connectors answer [has_text_frame] with
    [False]; the members of a group are not members of [slide.shapes]. *)
Inductive Shape : Type :=
| ShapeSp (sp : Sp)
| Picture
| GraphicFrame (has_chart : bool)
| GroupShape (members : list Shape)
| Connector.

Record Slide : Type := {
  background : Fill;
  shapes : list Shape
}.

(** A slide layout, by the indices of the placeholders a new slide
    inherits from it. *)
Record SlideLayout : Type := {
  layout_name : pystr;
  layout_placeholders : list nat
}.

Record Presentation : Type := {
  slide_width : Z;
  slide_height : Z;
  slide_layouts : list SlideLayout;
  slides : list Slide
}.

(** [Presentation()]: the default template, 10 x 7.5 inches, with its
    eleven layouts and no slide. The script uses layout 0 (title and
    subtitle placeholders) and layout 6 (no placeholder). *)
Definition default_template : Presentation :=
  {| slide_width := 9144000;
     slide_height := 6858000;
     slide_layouts :=
       [ {| layout_name := py "Title Slide"; layout_placeholders := [0; 1]%nat |};
         {| layout_name := py "Title and Content"; layout_placeholders := [0; 1]%nat |};
         {| layout_name := py "Section Header"; layout_placeholders := [0; 1]%nat |};
         {| layout_name := py "Two Content"; layout_placeholders := [0; 1; 2]%nat |};
         {| layout_name := py "Comparison"; layout_placeholders := [0; 1; 2; 3; 4]%nat |};
         {| layout_name := py "Title Only"; layout_placeholders := [0]%nat |};
         {| layout_name := py "Blank"; layout_placeholders := [] |};
         {| layout_name := py "Content with Caption"; layout_placeholders := [0; 1; 2]%nat |};
         {| layout_name := py "Picture with Caption"; layout_placeholders := [0; 1; 2]%nat |};
         {| layout_name := py "Title and Vertical Text"; layout_placeholders := [0; 1]%nat |};
         {| layout_name := py "Vertical Title and Text"; layout_placeholders := [0; 1]%nat |} ];
     slides := [] |}.

Definition slide_with_background (f : Fill) (sl : Slide) : Slide :=
  {| background := f; shapes := shapes sl |}.

Definition slide_with_shapes (shs : list Shape) (sl : Slide) : Slide :=
  {| background := background sl; shapes := shs |}.

Definition prs_with_slides (sls : list Slide) (prs : Presentation)
  : Presentation :=
  {| slide_width := slide_width prs; slide_height := slide_height prs;
     slide_layouts := slide_layouts prs; slides := sls |}.

Definition has_text_frame (sh : Shape) : bool :=
  match sh with
  | ShapeSp _ => true
  | _ => false
  end.

(** [text_frame.text] and [shape.text], read: the paragraphs joined by a
    line feed. *)
Definition text_frame_text (tf : TextFrame) : pystr :=
  join [LF] (map p_text (paragraphs tf)).

Definition sp_text (sp : Sp) : pystr := text_frame_text (text_frame sp).

(** The first placeholder of index [idx] among [shs], with its position
    (counted from [pos]) in the shape collection. *)
Fixpoint find_placeholder (idx : nat) (shs : list Shape) (pos : nat)
  : option (nat * Sp) :=
  match shs with
  | [] => None
  | ShapeSp sp :: rest =>
    match sp_kind sp with
    | Placeholder i =>
      if (i =? idx)%nat then Some (pos, sp)
      else find_placeholder idx rest (S pos)
    | _ => find_placeholder idx rest (S pos)
    end
  | _ :: rest => find_placeholder idx rest (S pos)
  end.

(** [slide.shapes.title]: the title placeholder, or [None]. *)
Definition shapes_title (shs : list Shape) : option (nat * Sp) :=
  find_placeholder 0 shs 0.

(** *** Proxies

    python-pptx hands out proxy objects for the parts of a presentation; a
    change made through a proxy is a change of the presentation. A proxy
    is modelled by the position of its target: a slide by its index, a
    shape by slide and position in [slide.shapes], a paragraph by shape and
    position in [text_frame.paragraphs]. Positions handed out by the
    [add_] operations below stay valid, since nothing is ever removed. *)

Definition slide_ref : Type := nat.
Definition shape_ref : Type := nat * nat.
Definition para_ref : Type := shape_ref * nat.

Inductive fill_ref : Type :=
| BackgroundFill (sl : slide_ref)
| ShapeFill (sh : shape_ref).

Definition on_sp (f : Sp -> Sp) (sh : Shape) : Shape :=
  match sh with
  | ShapeSp sp => ShapeSp (f sp)
  | other => other
  end.

Definition alter_slide (sl : slide_ref) (f : Slide -> Slide)
  : M Presentation unit :=
  modify (fun prs => prs_with_slides (alter f sl (slides prs)) prs).

Definition alter_sp (sh : shape_ref) (f : Sp -> Sp) : M Presentation unit :=
  alter_slide (fst sh)
    (fun sl => slide_with_shapes (alter (on_sp f) (snd sh) (shapes sl)) sl).

Definition alter_text_frame (sh : shape_ref) (f : TextFrame -> TextFrame)
  : M Presentation unit :=
  alter_sp sh (fun sp => sp_with_text_frame (f (text_frame sp)) sp).

Definition alter_paragraph (p : para_ref) (f : Paragraph -> Paragraph)
  : M Presentation unit :=
  alter_text_frame (fst p)
    (fun tf => {| paragraphs := alter f (snd p) (paragraphs tf);
                  word_wrap := word_wrap tf |}).

(** Reading through a proxy. The [None] branches stand for a proxy without
    target, which the operations below never produce. *)
Definition dangling : exn := OtherException (py "ReferenceError").

Definition read_slide (sl : slide_ref) : M Presentation Slide :=
  prs <- get_state ;;
  match slides prs !! sl with
  | Some s => ret s
  | None => raise dangling
  end.

Definition read_sp (sh : shape_ref) : M Presentation Sp :=
  sl <- read_slide (fst sh) ;;
  match shapes sl !! snd sh with
  | Some (ShapeSp sp) => ret sp
  | _ => raise dangling
  end.

(** [prs.slide_layouts[i]] *)
Definition get_slide_layout (i : nat) : M Presentation SlideLayout :=
  prs <- get_state ;;
  match slide_layouts prs !! i with
  | Some l => ret l
  | None => raise IndexError
  end.

Definition new_placeholder (idx : nat) : Shape :=
  ShapeSp {| sp_kind := Placeholder idx; sp_left := 0; sp_top := 0;
             sp_width := 0; sp_height := 0; sp_fill := FillInherit;
             text_frame := new_text_frame None |}.

(** [prs.slides.add_slide(layout)]: a new last slide carrying one empty
    placeholder per placeholder of the layout. *)
Definition add_slide (layout : SlideLayout) : M Presentation slide_ref :=
  prs <- get_state ;;
  modify (prs_with_slides
            (slides prs ++
             [{| background := FillInherit;
                 shapes := map new_placeholder (layout_placeholders layout) |}])) ;;
  ret (length (slides prs)).

(** [slide.shapes.title] as a proxy. *)
Definition title_of (sl : slide_ref) : M Presentation (option shape_ref) :=
  s <- read_slide sl ;;
  ret (match shapes_title (shapes s) with
       | Some (pos, _) => Some (sl, pos)
       | None => None
       end).

(** [slide.placeholders[idx]]: lookup by placeholder index. *)
Definition placeholder_of (sl : slide_ref) (idx : nat)
  : M Presentation shape_ref :=
  s <- read_slide sl ;;
  match find_placeholder idx (shapes s) 0 with
  | Some (pos, _) => ret (sl, pos)
  | None => raise KeyError
  end.

(** A new shape. A text box is created with no fill and with wrapping
    off; an auto shape takes fill and wrapping from its style. *)
Definition new_sp (kind : SpKind) (left top width height : Z) : Shape :=
  ShapeSp {| sp_kind := kind; sp_left := left; sp_top := top;
             sp_width := width; sp_height := height;
             sp_fill := match kind with
                        | TextBox => FillBackground
                        | _ => FillInherit
                        end;
             text_frame :=
               new_text_frame match kind with
                              | TextBox => Some false
                              | _ => None
                              end |}.

Definition append_shape (sl : slide_ref) (sh : Shape)
  : M Presentation shape_ref :=
  s <- read_slide sl ;;
  alter_slide sl (fun s => slide_with_shapes (shapes s ++ [sh]) s) ;;
  ret (sl, length (shapes s)).

(** [slide.shapes.add_shape(shape_type, left, top, width, height)] *)
Definition add_shape (sl : slide_ref) (shape_type : MSO_SHAPE)
    (left top width height : Z) : M Presentation shape_ref :=
  append_shape sl (new_sp (AutoShape shape_type) left top width height).

(** [slide.shapes.add_textbox(left, top, width, height)] *)
Definition add_textbox (sl : slide_ref) (left top width height : Z)
  : M Presentation shape_ref :=
  append_shape sl (new_sp TextBox left top width height).

Definition read_fill (f : fill_ref) : M Presentation Fill :=
  match f with
  | BackgroundFill sl => s <- read_slide sl ;; ret (background s)
  | ShapeFill sh => sp <- read_sp sh ;; ret (sp_fill sp)
  end.

Definition write_fill (f : fill_ref) (v : Fill) : M Presentation unit :=
  match f with
  | BackgroundFill sl => alter_slide sl (slide_with_background v)
  | ShapeFill sh => alter_sp sh (sp_with_fill v)
  end.

(** [fill.solid()]: a solid fill keeps its colour. *)
Definition fill_solid (f : fill_ref) : M Presentation unit :=
  cur <- read_fill f ;;
  match cur with
  | FillSolid c => ret tt
  | _ => write_fill f (FillSolid None)
  end.

(** [fill.fore_color.rgb = c]: only a fill with a type has a foreground
    colour. *)
Definition fill_set_fore_color_rgb (f : fill_ref) (c : RGB)
  : M Presentation unit :=
  cur <- read_fill f ;;
  match cur with
  | FillSolid _ => write_fill f (FillSolid (Some c))
  | _ => raise TypeError
  end.

(** *** Text

    python-pptx (1.0) keeps the text of a paragraph in runs ([a:r]) and
    line breaks ([a:br]). Text appended to a paragraph is cut at line feeds
    and vertical tabs, which become line breaks; each piece in between
    becomes a run, in which python-pptx writes a control character as
    [_xHHHH_] and which lxml refuses when it holds a character XML cannot.
    [p_text] is the text read back: the runs as stored, a line break as a
    vertical tab. *)

Definition break_char (c : N) : bool := ((c =? LF) || (c =? VT))%N.

(** [re.split("\n|\v", text)]: never the empty list. *)
Fixpoint split_breaks (s : pystr) : list pystr :=
  match s with
  | [] => [[]]
  | c :: s' =>
    if break_char c then [] :: split_breaks s'
    else match split_breaks s' with
         | l :: ls => (c :: l) :: ls
         | [] => [[c]]
         end
  end.

(** [_escape_ctrl_chars]: a character matching [[\x00-\x08\x0B-\x1F]] is
    replaced by ["_x%04X_" % ord(c)]. *)
Definition is_ctrl_char (c : N) : bool :=
  ((c <=? 0x08) || (0x0B <=? c) && (c <=? 0x1F))%N.

Definition hex_digit (d : N) : N := (if d <? 10 then 48 + d else 55 + d)%N.

Definition escape_ctrl_char (c : N) : pystr :=
  if is_ctrl_char c
  then py "_x"
       ++ [ hex_digit (c / 0x1000 mod 16); hex_digit (c / 0x100 mod 16);
            hex_digit (c / 0x10 mod 16); hex_digit (c mod 16) ]%N
       ++ py "_"
  else [c].

Definition escape_ctrl_chars (s : pystr) : pystr :=
  flat_map escape_ctrl_char s.

(** What lxml accepts in the text of an element: of the ASCII characters
    tab, line feed, carriage return and those from the space on; of the
    others all but U+FFFE, U+FFFF and the surrogates (which cannot even be
    encoded). *)
Definition xml_char (c : N) : bool :=
  (if c <? 0x80
   then (c =? 0x9) || (c =? 0xA) || (c =? 0xD) || (0x20 <=? c)
   else negb ((c =? 0xFFFE) || (c =? 0xFFFF)
              || (0xD800 <=? c) && (c <=? 0xDFFF)))%N.

(** [r.text = r_str] for a run: the text as stored, or the [ValueError]
    of lxml ([UnicodeEncodeError], a [ValueError], for a surrogate). *)
Definition run_text (r_str : pystr) : result pystr :=
  let t := escape_ctrl_chars r_str in
  if forallb xml_char t then Returns t else Raises ValueError.

(** [CT_TextParagraph.append_text]: a line break before every piece but
    the first, then the piece as a run. Gives the text of the paragraph,
    which was [acc], and the exception that ended the loop, if any; the
    run that failed stays empty. *)
Fixpoint append_runs (pieces : list pystr) (idx : nat) (acc : pystr)
  : pystr * option exn :=
  match pieces with
  | [] => (acc, None)
  | r_str :: rest =>
    let acc := match idx with
               | O => acc
               | S _ => acc ++ [VT]
               end in
    match run_text r_str with
    | Returns t => append_runs rest (S idx) (acc ++ t)
    | Raises e => (acc, Some e)
    end
  end.

Definition append_text (text acc : pystr) : pystr * option exn :=
  append_runs (split_breaks text) 0 acc.

Definition paragraph_of_line (line : pystr) : Paragraph :=
  {| p_text := line; p_font := default_font; p_level := 0 |}.

(** The loop of the [text_frame.text] setter: a new paragraph per line,
    the line appended to it. Gives the paragraphs, which were [acc], and
    the exception that ended the loop, if any. *)
Fixpoint add_lines (lines : list pystr) (acc : list Paragraph)
  : list Paragraph * option exn :=
  match lines with
  | [] => (acc, None)
  | p_str :: rest =>
    match append_text p_str [] with
    | (t, None) => add_lines rest (acc ++ [paragraph_of_line t])
    | (t, Some e) => (acc ++ [paragraph_of_line t], Some e)
    end
  end.

Definition with_paragraphs (ps : list Paragraph) (tf : TextFrame)
  : TextFrame :=
  {| paragraphs := ps; word_wrap := word_wrap tf |}.

(** [text_frame.text = v] and [shape.text = v]: the paragraphs are
    removed, then [v.split("\n")] gives the new ones. What is not a
    [str] has no [split]. *)
Definition set_text (sh : shape_ref) (v : json) : M Presentation unit :=
  alter_text_frame sh (with_paragraphs []) ;;
  match v with
  | JStr s =>
    let (ps, err) := add_lines (split_on LF s) [] in
    alter_text_frame sh (with_paragraphs ps) ;;
    match err with
    | Some e => raise e
    | None => ret tt
    end
  | _ => raise AttributeError
  end.

(** [text_frame.word_wrap = b] *)
Definition set_word_wrap (sh : shape_ref) (b : bool) : M Presentation unit :=
  alter_text_frame sh
    (fun tf => {| paragraphs := paragraphs tf; word_wrap := Some b |}).

(** [text_frame.paragraphs[i]] *)
Definition paragraph_at (sh : shape_ref) (i : nat) : M Presentation para_ref :=
  sp <- read_sp sh ;;
  match paragraphs (text_frame sp) !! i with
  | Some _ => ret (sh, i)
  | None => raise IndexError
  end.

(** [text_frame.add_paragraph()] *)
Definition add_paragraph (sh : shape_ref) : M Presentation para_ref :=
  sp <- read_sp sh ;;
  alter_text_frame sh
    (fun tf => {| paragraphs := paragraphs tf ++ [empty_paragraph];
                  word_wrap := word_wrap tf |}) ;;
  ret (sh, length (paragraphs (text_frame sp))).

Definition with_text (t : pystr) (para : Paragraph) : Paragraph :=
  {| p_text := t; p_font := p_font para; p_level := p_level para |}.

(** [paragraph.text = v]: the content of the paragraph is removed, its
    properties stay, then [v] is appended. [re.split] wants a [str]. *)
Definition set_paragraph_text (p : para_ref) (v : json)
  : M Presentation unit :=
  alter_paragraph p (with_text []) ;;
  match v with
  | JStr s =>
    let (t, err) := append_text s [] in
    alter_paragraph p (with_text t) ;;
    match err with
    | Some e => raise e
    | None => ret tt
    end
  | _ => raise TypeError
  end.

Definition alter_font (p : para_ref) (f : Font -> Font) : M Presentation unit :=
  alter_paragraph p
    (fun para => {| p_text := p_text para; p_font := f (p_font para);
                    p_level := p_level para |}).

(** [paragraph.font.size = v] *)
Definition set_font_size (p : para_ref) (v : Z) : M Presentation unit :=
  alter_font p (fun f => {| font_size := Some v; font_bold := font_bold f;
                            font_color := font_color f |}).

(** [paragraph.font.color.rgb = c] *)
Definition set_font_color_rgb (p : para_ref) (c : RGB) : M Presentation unit :=
  alter_font p (fun f => {| font_size := font_size f; font_bold := font_bold f;
                            font_color := Some c |}).

(** [paragraph.font.bold = b] *)
Definition set_font_bold (p : para_ref) (b : bool) : M Presentation unit :=
  alter_font p (fun f => {| font_size := font_size f; font_bold := Some b;
                            font_color := font_color f |}).

(** [paragraph.level = n] *)
Definition set_level (p : para_ref) (n : Z) : M Presentation unit :=
  alter_paragraph p
    (fun para => {| p_text := p_text para; p_font := p_font para;
                    p_level := n |}).

(** ** Files *)

Inductive FileData : Type :=
| PptxData (prs : Presentation)
| RawData (bytes : list N).

(** The files written so far, most recent first, and the paths that can
    be written. *)
Record FileSystem : Type := {
  fs_files : list (pystr * FileData);
  fs_writable : pystr -> bool
}.

Fixpoint lookup_key {V} (k : pystr) (l : list (pystr * V)) : option V :=
  match l with
  | [] => None
  | (k', v) :: l' => if bool_decide (k' = k) then Some v else lookup_key k l'
  end.

Definition write_file (path : pystr) (data : FileData) (fs : FileSystem)
  : FileSystem :=
  {| fs_files := (path, data) :: fs_files fs; fs_writable := fs_writable fs |}.

(** [prs.save(path)] *)
Definition save (prs : Presentation) (path : pystr) : M FileSystem unit :=
  fs <- get_state ;;
  if fs_writable fs path then modify (write_file path (PptxData prs))
  else raise OSError.

(** [open(path, "rb")], read at once. *)
Definition open_rb (path : pystr) : M FileSystem FileData :=
  fs <- get_state ;;
  match lookup_key path (fs_files fs) with
  | Some data => ret data
  | None => raise OSError
  end.

(** ** Extractor *)

(** The dict [{"heading": ..., "bullet_points": [...]}] built per slide. *)
Record SlideRecord : Type := {
  heading : pystr;
  bullet_points : list pystr
}.

Definition record_json (r : SlideRecord) : json :=
  JDict [ (py "heading", JStr (heading r));
          (py "bullet_points", JList (map JStr (bullet_points r))) ].

(** An uploaded file: its name and what [Presentation(file)] makes of its
    bytes. *)
Record UploadedFile : Type := {
  upload_name : pystr;
  upload_parsed : result Presentation
}.

(** Lines 38-41: the paragraphs of one shape. *)
Definition extract_paragraphs (slide_data : SlideRecord)
    (paras : list Paragraph) : SlideRecord :=
  foldl (fun slide_data para =>
           let text := strip (p_text para) in
           if truthy (JStr text)
           then {| heading := heading slide_data;
                   bullet_points := bullet_points slide_data ++ [text] |}
           else slide_data)
        slide_data paras.

(** Lines 36-41: the shapes of one slide, each with its position; [title]
    is the position of the title shape, if any. Two proxies are equal when
    they stand for the same element. *)
Definition extract_shapes (title : option nat) (slide_data : SlideRecord)
    (shs : list (nat * Shape)) : SlideRecord :=
  foldl (fun slide_data '(pos, shape) =>
           match shape with
           | ShapeSp sp =>
             if negb (bool_decide (title = Some pos))
             then extract_paragraphs slide_data (paragraphs (text_frame sp))
             else slide_data
           | _ => slide_data
           end)
        slide_data shs.

(** Lines 33-41: the record of one slide. *)
Definition extract_slide (slide : Slide) : SlideRecord :=
  let slide_data := {| heading := []; bullet_points := [] |} in
  let title := shapes_title (shapes slide) in
  let slide_data :=
    match title with
    | Some (_, t) => {| heading := strip (sp_text t);
                        bullet_points := bullet_points slide_data |}
    | None => slide_data
    end in
  extract_shapes (fst <$> title) slide_data (imap pair (shapes slide)).

Definition extract_ppt_text (ppt_file : UploadedFile)
  : result (list SlideRecord) :=
  match upload_parsed ppt_file with
  | Returns prs =>
    Returns (foldl (fun content slide => content ++ [extract_slide slide])
                   [] (slides prs))
  | Raises e => Raises e
  end.

(** ** Enhancer *)

Definition quoted (s : string) : pystr := [34%N] ++ py s ++ [34%N].

(** Lines 58-67: the JSON shape shown to the model. *)
Definition example_json_lines : list pystr :=
  [ py "{";
    py "  " ++ quoted "title" ++ py ": " ++ quoted "Title" ++ py ",";
    py "  " ++ quoted "slides" ++ py ": [";
    py "    {";
    py "      " ++ quoted "heading" ++ py ": " ++ quoted "Slide title" ++ py ",";
    py "      " ++ quoted "bullet_points" ++ py ": [" ++ quoted "..."
       ++ py ", " ++ quoted "..." ++ py "],";
    py "      " ++ quoted "chart_type" ++ py ": " ++ quoted "bar"
       ++ py "  # optional";
    py "    }";
    py "  ]";
    py "}" ].

(** The object the example text denotes. *)
Definition example_deck : json :=
  JDict [ (py "title", JStr (py "Title"));
          (py "slides",
           JList [ JDict [ (py "heading", JStr (py "Slide title"));
                           (py "bullet_points",
                            JList [JStr (py "..."); JStr (py "...")]);
                           (py "chart_type", JStr (py "bar")) ] ]) ].

Definition system_prompt : pystr :=
  py "You are a presentation designer. Improve structure of presentation slides and return clean JSON.".

(** Lines 48-68: the user message. [slide_count] is what the slider of
    line 143 returns, an [int] from 3 to 20; [str()] of it is its decimal
    notation. *)
Definition user_prompt (rt : Runtime) (topic : pystr)
    (extracted : list SlideRecord) (slide_count : Z) (style : pystr) : pystr :=
  join [LF]
    ([ [];
       py "Topic: " ++ topic;
       py "Slides to improve:";
       json_dumps_indent2 rt (JList (map record_json extracted));
       [];
       py "Instructions:";
       py "- Target slide count: ~" ++ decimal slide_count;
       py "- Style: " ++ style;
       py "- Add chart_type (bar, pie, line) when appropriate";
       py "- Return only valid JSON like:" ]
     ++ example_json_lines ++ [ [] ]).

Record ChatRequest : Type := {
  model : pystr;
  messages : list (pystr * pystr);
  temperature : Q;
  max_tokens : Z
}.

(** The external service: for a request, an exception or the [content] of
    each choice of the response ([None] when a choice has no text). *)
Definition ChatService : Type := ChatRequest -> result (list (option pystr)).

(** ** What a run of the script shows and does *)

Inductive Component : Type := Extractor | Enhancer | Builder.

Inductive Event : Type :=
| StError (msg : pystr)
| StSuccess (msg : pystr)
| StJson (v : json)
| StSetPageConfig (page_title layout : pystr)
| StTitle (text : pystr)
| StForm (key : pystr)
| StSubheader (text : pystr)
| StFileUploader (label : pystr) (types : list pystr)
| StTextInput (label value : pystr)
| StSlider (label : pystr) (min_value max_value value : Z)
| StFormSubmitButton (label : pystr)
| StSpinner (text : pystr)
| StDownloadButton (label : pystr) (data : FileData) (file_name : pystr)
| LoadDotenv
| Called (c : Component)
| ChatCompletion (req : ChatRequest).

Record App : Type := {
  trace : list Event;
  files : FileSystem
}.

Definition emit (e : Event) : M App unit :=
  modify (fun a => {| trace := trace a ++ [e]; files := files a |}).

Definition on_files {A} (m : M FileSystem A) : M App A :=
  zoom files (fun fs a => {| trace := trace a; files := fs |}) m.

(** Lines 70-78: the arguments of [client.chat.completions.create]. *)
Definition chat_request (system user : pystr) : ChatRequest :=
  {| model := py "gpt-4";
     messages := [ (py "system", system); (py "user", user) ];
     temperature := 0.7;
     max_tokens := 1200 |}.

(** Lines 46-80. *)
Definition generate_improved_json (rt : Runtime) (client : ChatService)
    (topic : pystr) (extracted : list SlideRecord) (slide_count : Z)
    (style : pystr) : M App pystr :=
  let system := system_prompt in
  let user := user_prompt rt topic extracted slide_count style in
  let req := chat_request system user in
  emit (ChatCompletion req) ;;
  choices <- lift (client req) ;;
  match choices with
  | [] => raise IndexError
  | Some content :: _ => ret (strip content)
  | None :: _ => raise AttributeError
  end.

(** ** Builder *)

(** Lines 95-99: background colour (light blue). *)
Definition render_background (slide : slide_ref) : M Presentation unit :=
  let fill := BackgroundFill slide in
  fill_solid fill ;;
  fill_set_fore_color_rgb fill (RGBColor 240 248 255).

(** Lines 101-111: title shape (dark blue box with white text). *)
Definition render_title (slide : slide_ref) (s : json) : M Presentation unit :=
  title_shape <- add_shape slide ROUNDED_RECTANGLE
                   (Inches 0.5) (Inches 0.4) (Inches 9) (Inches 1) ;;
  fill_solid (ShapeFill title_shape) ;;
  fill_set_fore_color_rgb (ShapeFill title_shape) (RGBColor 0 102 204) ;;
  h <- lift (py_get s (py "heading") (JStr [])) ;;
  set_text title_shape h ;;
  title_p <- paragraph_at title_shape 0 ;;
  set_font_size title_p (Pt 28) ;;
  set_font_color_rgb title_p (RGBColor 255 255 255) ;;
  set_font_bold title_p true.

(** Lines 119-122: one bullet point. *)
Definition render_bullet (tf : shape_ref) (bp : json) : M Presentation unit :=
  p <- add_paragraph tf ;;
  set_paragraph_text p bp ;;
  set_font_size p (Pt 18) ;;
  set_level p 0.

(** Lines 113-122: bullet points box. *)
Definition render_bullets (slide : slide_ref) (s : json)
  : M Presentation unit :=
  textbox <- add_textbox slide
               (Inches 0.8) (Inches 1.6) (Inches 8.5) (Inches 4.5) ;;
  let tf := textbox in
  set_word_wrap tf true ;;
  bps <- lift (py_get s (py "bullet_points") (JList [])) ;;
  items <- lift (py_iter bps) ;;
  for_each items (render_bullet tf).

(** Lines 124-133: chart placeholder shape (optional). *)
Definition render_chart (rt : Runtime) (slide : slide_ref) (s : json)
  : M Presentation unit :=
  ct <- lift (py_get s (py "chart_type") JNull) ;;
  if truthy ct then
    chart_box <- add_shape slide RECTANGLE
                   (Inches 5.5) (Inches 5) (Inches 3.5) (Inches 1) ;;
    fill_solid (ShapeFill chart_box) ;;
    fill_set_fore_color_rgb (ShapeFill chart_box) (RGBColor 230 230 230) ;;
    v <- lift (py_getitem s (py "chart_type")) ;;
    shown <- lift (py_str rt v) ;;
    set_text chart_box
      (JStr (py "[" ++ shown ++ py " chart placeholder]")) ;;
    p0 <- paragraph_at chart_box 0 ;;
    set_font_size p0 (Pt 14) ;;
    p0 <- paragraph_at chart_box 0 ;;
    set_font_color_rgb p0 (RGBColor 80 80 80)
  else ret tt.

(** Lines 93-133: one slide record. *)
Definition render_slide (rt : Runtime) (blank_layout : SlideLayout) (s : json)
  : M Presentation unit :=
  slide <- add_slide blank_layout ;;
  render_background slide ;;
  render_title slide s ;;
  render_bullets slide s ;;
  render_chart rt slide s.

(** Lines 87-90: title slide. *)
Definition render_title_slide (content : json) : M Presentation unit :=
  layout0 <- get_slide_layout 0 ;;
  title_slide <- add_slide layout0 ;;
  title <- lift (py_get content (py "title")
                   (JStr (py "Untitled Presentation"))) ;;
  t <- title_of title_slide ;;
  match t with
  | Some t => set_text t title
  | None => raise AttributeError
  end ;;
  subtitle <- placeholder_of title_slide 1 ;;
  set_text subtitle (JStr (py "Enhanced by GPT-4")).

(** Lines 85-133: the deck, built in a new presentation. *)
Definition build_deck (rt : Runtime) (content : json) : M Presentation unit :=
  blank_layout <- get_slide_layout 6 ;;
  render_title_slide content ;;
  sl <- lift (py_get content (py "slides") (JList [])) ;;
  items <- lift (py_iter sl) ;;
  for_each items (render_slide rt blank_layout).

(** Lines 83-136. *)
Definition json_to_ppt (rt : Runtime) (content : json) (output_path : pystr)
  : M FileSystem pystr :=
  prs <- with_local default_template (build_deck rt content) ;;
  save prs output_path ;;
  ret output_path.

(** ** The script's top level *)

(** One run of the script: the request, the configuration, the state of
    the form, and the external collaborators. *)
Record Env : Type := {
  runtime : Runtime;
  query_params : list (pystr * pystr);
  secrets_access_key : option pystr;
  secrets_openai_api_key : option pystr;
  form_ppt_file : option UploadedFile;
  form_topic : pystr;
  form_slide_count : Z;  (* the slider's value, from 3 to 20 *)
  form_style : pystr;
  form_submitted : bool;
  chat_completions_create : pystr -> ChatService;
  named_temporary_file : result pystr
}.

(** [st.secrets[...]]: a missing secret is a [KeyError]. *)
Definition secret (v : option pystr) : M App pystr :=
  match v with
  | Some k => ret k
  | None => raise KeyError
  end.

(** [st.stop()] *)
Definition st_stop {A} : M App A := fun a => (Stop, a).

Definition access_denied_message : pystr :=
  py "🔒 Access Denied: Invalid or missing key in URL.".

Definition missing_upload_message : pystr :=
  py "Please upload a presentation file.".

Definition error_message (rt : Runtime) (e : exn) : pystr :=
  py "❌ Error: " ++ str_exn rt e.

(** [tempfile.NamedTemporaryFile(delete=False, suffix=".pptx")]: an empty
    file under a new name. *)
Definition temporary_file (env : Env) : M App pystr :=
  name <- lift (named_temporary_file env) ;;
  on_files (modify (write_file name (RawData []))) ;;
  ret name.

(** Lines 158-168: the body of the [try]. *)
Definition enhance_and_build (env : Env) (client : ChatService)
    (extracted : list SlideRecord) : M App unit :=
  let rt := runtime env in
  emit (Called Enhancer) ;;
  json_str <- generate_improved_json rt client (form_topic env) extracted
                (form_slide_count env) (form_style env) ;;
  data <- lift (json_loads rt json_str) ;;
  emit (StSuccess (py "✅ JSON structure ready")) ;;
  emit (StJson data) ;;
  emit (StSpinner (py "🛠️ Building modern styled PPTX...")) ;;
  tmp_name <- temporary_file env ;;
  emit (Called Builder) ;;
  pptx_path <- on_files (json_to_ppt rt data tmp_name) ;;
  f <- on_files (open_rb pptx_path) ;;
  emit (StDownloadButton (py "📥 Download Enhanced Presentation") f
          (py "enhanced_presentation.pptx")).

(** Lines 148-171: the form has been submitted. *)
Definition on_submit (env : Env) (client : ChatService) : M App unit :=
  match form_ppt_file env with
  | None => emit (StError missing_upload_message)
  | Some ppt_file =>
    emit (StSpinner (py "🔍 Extracting slides...")) ;;
    emit (Called Extractor) ;;
    extracted <- lift (extract_ppt_text ppt_file) ;;
    emit (StSuccess (py "✅ Slide content extracted")) ;;
    emit (StJson (JList (map record_json extracted))) ;;
    emit (StSpinner (py "🤖 Generating improved version via GPT-4...")) ;;
    try_except (enhance_and_build env client extracted)
      (fun e => emit (StError (error_message (runtime env) e)))
  end.

(** Lines 21-171: the page, shown once access is granted. The widgets
    show their defaults; what they return is the state of the form. *)
Definition page (env : Env) : M App unit :=
  emit LoadDotenv ;;
  api_key <- secret (secrets_openai_api_key env) ;;
  let client := chat_completions_create env api_key in
  emit (StSetPageConfig (py "Modern AI PPT Enhancer") (py "centered")) ;;
  emit (StTitle (py "🎨 AI-Enhanced PowerPoint Generator (Modern Style)")) ;;
  emit (StForm (py "ppt_form")) ;;
  emit (StSubheader (py "Upload & Enhance Presentation")) ;;
  emit (StFileUploader (py "📤 Upload a .pptx file") [py "pptx"]) ;;
  emit (StTextInput (py "🧠 Topic") (py "AI in Healthcare")) ;;
  emit (StSlider (py "🧾 Desired Slide Count") 3 20 6) ;;
  emit (StTextInput (py "🎨 Style") (py "Professional, modern, minimal")) ;;
  emit (StFormSubmitButton (py "✨ Enhance Presentation")) ;;
  let submitted := form_submitted env in
  if submitted then on_submit env client else ret tt.

(** The whole script, top to bottom: the security check of lines 13-19,
    then the page. *)
Definition main (env : Env) : M App unit :=
  let user_key := lookup_key (py "key") (query_params env) in
  required_key <- secret (secrets_access_key env) ;;
  (if negb (bool_decide (user_key = Some required_key))
   then emit (StError access_denied_message) ;; st_stop
   else ret tt) ;;
  page env.

(** A run starts with nothing shown. *)
Definition start (fs : FileSystem) : App := {| trace := []; files := fs |}.

(** ** The shape of the Builder's input

    An EnhancedDeck is a dict whose [title], when present, is a string and
    whose [slides], when present, is a list of slide records; a slide
    record is a dict whose [heading], when present, is a string and whose
    [bullet_points], when present, is a list of strings. Every field may
    be missing; [chart_type] is decorative and may hold any value. *)

Definition is_str (v : json) : bool :=
  match v with
  | JStr _ => true
  | _ => false
  end.

Definition str_or_absent (o : option json) : bool :=
  match o with
  | None => true
  | Some v => is_str v
  end.

Definition record_shaped (s : json) : bool :=
  match s with
  | JDict d =>
    str_or_absent (assoc (py "heading") d)
    && match assoc (py "bullet_points") d with
       | None => true
       | Some (JList l) => forallb is_str l
       | Some _ => false
       end
  | _ => false
  end.

Definition deck_shaped (content : json) : bool :=
  match content with
  | JDict d =>
    str_or_absent (assoc (py "title") d)
    && match assoc (py "slides") d with
       | None => true
       | Some (JList l) => forallb record_shaped l
       | Some _ => false
       end
  | _ => false
  end.

(** The fields of a deck and of a record, as the data model names them. *)
Definition field (v : json) (key : pystr) : option json :=
  match v with
  | JDict d => assoc key d
  | _ => None
  end.

Definition str_value (v : json) : pystr :=
  match v with
  | JStr s => s
  | _ => []
  end.

Definition deck_slides (content : json) : list json :=
  match field content (py "slides") with
  | Some (JList l) => l
  | _ => []
  end.

Definition record_heading (s : json) : pystr :=
  match field s (py "heading") with
  | Some v => str_value v
  | None => []
  end.

Definition record_bullet_points (s : json) : list pystr :=
  match field s (py "bullet_points") with
  | Some (JList l) => map str_value l
  | _ => []
  end.

Definition deck_title (content : json) : pystr :=
  match field content (py "title") with
  | Some v => str_value v
  | None => py "Untitled Presentation"
  end.

(** ** The extraction, as the specification words it *)

(** The non-empty trimmed paragraphs of a text frame. *)
Definition trimmed_paragraphs (tf : TextFrame) : list pystr :=
  filter (fun t => t <> [])
         (map (fun para => strip (p_text para)) (paragraphs tf)).

(** The text frames of the shapes of a slide other than its title shape,
    in document order. *)
Definition non_title_text_frames (slide : Slide) : list TextFrame :=
  omap (fun '(pos, sh) =>
          match sh with
          | ShapeSp sp =>
            if decide (fst <$> shapes_title (shapes slide) = Some pos)
            then None else Some (text_frame sp)
          | _ => None
          end)
       (imap pair (shapes slide)).

Definition spec_heading (slide : Slide) : pystr :=
  match shapes_title (shapes slide) with
  | Some (_, t) => strip (sp_text t)
  | None => []
  end.

Definition spec_bullet_points (slide : Slide) : list pystr :=
  concat (map trimmed_paragraphs (non_title_text_frames slide)).

(** ** Text as python-pptx stores it *)

(** What [paragraph.text] reads after [paragraph.text = s]: line feeds and
    vertical tabs are line breaks, control characters are escaped. *)
Definition line_text (s : pystr) : pystr :=
  flat_map (fun c => if break_char c then [VT] else escape_ctrl_char c) s.

(** What [text_frame.text] reads after [text_frame.text = s]: a line feed
    separates paragraphs, a vertical tab is a line break, control
    characters are escaped. *)
Definition frame_text (s : pystr) : pystr :=
  flat_map (fun c => if break_char c then [c] else escape_ctrl_char c) s.

(** A text that is stored as it is: without control characters other
    than tab, line feed and vertical tab. *)
Definition printable (s : pystr) : bool :=
  forallb (fun c => break_char c || negb (is_ctrl_char c)) s.

(** A text lxml can store: without U+FFFE, U+FFFF and surrogates. *)
Definition xml_storable (c : N) : bool :=
  negb ((c =? 0xFFFE) || (c =? 0xFFFF)
        || (0xD800 <=? c) && (c <=? 0xDFFF))%N.

Definition text_storable (s : pystr) : bool := forallb xml_storable s.

(** ** The rendering, in closed form *)

Definition title_font : Font :=
  {| font_size := Some (Pt 28); font_bold := Some true;
     font_color := Some (RGBColor 255 255 255) |}.

Definition bullet_font : Font :=
  {| font_size := Some (Pt 18); font_bold := None; font_color := None |}.

Definition chart_font : Font :=
  {| font_size := Some (Pt 14); font_bold := None;
     font_color := Some (RGBColor 80 80 80) |}.

(** Paragraphs for the lines of a text, the first one with font [f]. *)
Definition first_formatted (f : Font) (lines : list pystr) : list Paragraph :=
  match lines with
  | l :: ls =>
    {| p_text := l; p_font := f; p_level := 0 |} :: map paragraph_of_line ls
  | [] => []
  end.

Definition title_sp (h : pystr) : Sp :=
  {| sp_kind := AutoShape ROUNDED_RECTANGLE;
     sp_left := Inches 0.5; sp_top := Inches 0.4;
     sp_width := Inches 9; sp_height := Inches 1;
     sp_fill := FillSolid (Some (RGBColor 0 102 204));
     text_frame :=
       {| paragraphs :=
            first_formatted title_font (map line_text (split_on LF h));
          word_wrap := None |} |}.

Definition title_box (h : pystr) : Shape := ShapeSp (title_sp h).

Definition bullet_paragraph (bp : pystr) : Paragraph :=
  {| p_text := line_text bp; p_font := bullet_font; p_level := 0 |}.

Definition text_sp (paras : list Paragraph) : Sp :=
  {| sp_kind := TextBox;
     sp_left := Inches 0.8; sp_top := Inches 1.6;
     sp_width := Inches 8.5; sp_height := Inches 4.5;
     sp_fill := FillBackground;
     text_frame := {| paragraphs := paras; word_wrap := Some true |} |}.

Definition text_box (paras : list Paragraph) : Shape :=
  ShapeSp (text_sp paras).

Definition bullets_box (bps : list pystr) : Shape :=
  text_box (empty_paragraph :: map bullet_paragraph bps).

Definition chart_label (ct : pystr) : pystr :=
  py "[" ++ ct ++ py " chart placeholder]".

Definition chart_sp (ct : pystr) : Sp :=
  {| sp_kind := AutoShape RECTANGLE;
     sp_left := Inches 5.5; sp_top := Inches 5;
     sp_width := Inches 3.5; sp_height := Inches 1;
     sp_fill := FillSolid (Some (RGBColor 230 230 230));
     text_frame :=
       {| paragraphs :=
            first_formatted chart_font
              (map line_text (split_on LF (chart_label ct)));
          word_wrap := None |} |}.

Definition chart_box (ct : pystr) : Shape := ShapeSp (chart_sp ct).

(** The text a chart placeholder shows for a record, if it gets one: when
    [chart_type] holds a value that Python takes for true, [str()] of that
    value. *)
Definition chart_text (rt : Runtime) (s : json) : option pystr :=
  match field s (py "chart_type") with
  | Some v => if truthy v
              then match py_str rt v with
                   | Returns t => Some t
                   | Raises _ => None
                   end
              else None
  | None => None
  end.

Definition chart_shapes (rt : Runtime) (s : json) : list Shape :=
  match chart_text rt s with
  | Some t => [chart_box t]
  | None => []
  end.

Definition placeholder_sp (idx : nat) (t : pystr) : Sp :=
  {| sp_kind := Placeholder idx; sp_left := 0; sp_top := 0;
     sp_width := 0; sp_height := 0; sp_fill := FillInherit;
     text_frame :=
       {| paragraphs :=
            map paragraph_of_line (map line_text (split_on LF t));
          word_wrap := None |} |}.

Definition placeholder_with_text (idx : nat) (t : pystr) : Shape :=
  ShapeSp (placeholder_sp idx t).

Definition rendered_title_slide (content : json) : Slide :=
  {| background := FillInherit;
     shapes := [ placeholder_with_text 0 (deck_title content);
                 placeholder_with_text 1 (py "Enhanced by GPT-4") ] |}.

Definition blank_layout : SlideLayout :=
  {| layout_name := py "Blank"; layout_placeholders := [] |}.

(** ** Predicates on shapes, presentations and runs *)

(** The gray rectangle that stands for a chart. *)
Definition is_chart_placeholder (sp : Sp) : Prop :=
  sp_kind sp = AutoShape RECTANGLE
  /\ sp_fill sp = FillSolid (Some (RGBColor 230 230 230)).

(** A shape lies in the lower-right quarter of the slide when its frame is
    within the slide and starts at or beyond the middle in both
    directions. *)
Definition in_lower_right (prs : Presentation) (sp : Sp) : Prop :=
  slide_width prs <= 2 * sp_left sp
  /\ slide_height prs <= 2 * sp_top sp
  /\ sp_left sp + sp_width sp <= slide_width prs
  /\ sp_top sp + sp_height sp <= slide_height prs.

(** Every shape of every slide is a [p:sp]: no picture, no graphic frame
    (so no chart and no table), no group, no connector. *)
Definition sp_shapes (sl : Slide) : Prop :=
  Forall (fun sh => has_text_frame sh = true) (shapes sl).

Definition sp_only (prs : Presentation) : Prop :=
  Forall sp_shapes (slides prs).

(** From a state where [P] holds, [m] does not end the script run with
    [st.stop()] and leaves a state where [P] holds. *)
Definition safe {S A} (P : S -> Prop) (m : M S A) : Prop :=
  forall s, P s -> fst (m s) <> Stop /\ P (snd (m s)).

Definition is_st_error (e : Event) : bool :=
  match e with
  | StError _ => true
  | _ => false
  end.

Definition is_chat_completion (e : Event) : bool :=
  match e with
  | ChatCompletion _ => true
  | _ => false
  end.

Definition is_called (e : Event) : bool :=
  match e with
  | Called _ => true
  | _ => false
  end.

Definition is_download (e : Event) : bool :=
  match e with
  | StDownloadButton _ _ _ => true
  | _ => false
  end.

Definition count (p : Event -> bool) (t : list Event) : nat :=
  length (List.filter p t).

(** What is shown before the form is evaluated, once access is granted. *)
Definition page_header : list Event :=
  [ LoadDotenv;
    StSetPageConfig (py "Modern AI PPT Enhancer") (py "centered");
    StTitle (py "🎨 AI-Enhanced PowerPoint Generator (Modern Style)");
    StForm (py "ppt_form");
    StSubheader (py "Upload & Enhance Presentation");
    StFileUploader (py "📤 Upload a .pptx file") [py "pptx"];
    StTextInput (py "🧠 Topic") (py "AI in Healthcare");
    StSlider (py "🧾 Desired Slide Count") 3 20 6;
    StTextInput (py "🎨 Style") (py "Professional, modern, minimal");
    StFormSubmitButton (py "✨ Enhance Presentation") ].

(** What is shown once the slides have been extracted. *)
Definition extraction_shown (extracted : list SlideRecord) : list Event :=
  page_header
  ++ [ StSpinner (py "🔍 Extracting slides...");
       Called Extractor;
       StSuccess (py "✅ Slide content extracted");
       StJson (JList (map record_json extracted));
       StSpinner (py "🤖 Generating improved version via GPT-4...") ].

Definition download_button (data : FileData) : Event :=
  StDownloadButton (py "📥 Download Enhanced Presentation") data
    (py "enhanced_presentation.pptx").

(** What has been shown so far starts with the events [pre]. *)
Definition shows_first (pre : list Event) (a : App) : Prop :=
  exists rest, trace a = pre ++ rest.

(** ** Sample data *)

Definition sample_fs : FileSystem :=
  {| fs_files := []; fs_writable := fun _ => true |}.

(** A deck without title whose second record has no field at all. *)
Definition sample_deck : json :=
  JDict [ (py "slides",
           JList [ JDict [ (py "heading", JStr (py "Market"));
                           (py "bullet_points",
                            JList [JStr (py "Size"); JStr (py "Growth")]);
                           (py "chart_type", JStr (py "pie")) ];
                   JDict [] ]) ].

(** A slide with a title, a body placeholder, a picture and a text box. *)
Definition sample_slide : Slide :=
  {| background := FillInherit;
     shapes :=
       [ placeholder_with_text 0 (py "  Roadmap ");
         placeholder_with_text 1 (py "Q1: pilot" ++ [LF] ++ py "   " ++ [LF]
                                  ++ py " Q2: rollout");
         Picture;
         text_box [paragraph_of_line (py "Confidential")] ] |}.

Definition sample_presentation : Presentation :=
  prs_with_slides [sample_slide] default_template.

(** A runtime whose JSON parser rejects every text. *)
Definition sample_runtime : Runtime :=
  {| str_compound := fun _ => Returns (py "...");
     str_exn := fun _ => py "Expecting value: line 1 column 1 (char 0)";
     json_loads := fun _ => Raises ValueError;
     json_dumps_indent2 := fun _ => py "[]" |}.

(** A runtime whose JSON parser reads every text as the example deck. *)
Definition lenient_runtime : Runtime :=
  {| str_compound := str_compound sample_runtime;
     str_exn := str_exn sample_runtime;
     json_loads := fun _ => Returns example_deck;
     json_dumps_indent2 := json_dumps_indent2 sample_runtime |}.

Definition sample_upload : UploadedFile :=
  {| upload_name := py "deck.pptx";
     upload_parsed := Returns sample_presentation |}.

(** A request with the given query parameters and upload; the secret is
    "s3cret" and the model answers with an apology instead of JSON. *)
Definition sample_request (params : list (pystr * pystr))
    (file : option UploadedFile) : Env :=
  {| runtime := sample_runtime;
     query_params := params;
     secrets_access_key := Some (py "s3cret");
     secrets_openai_api_key := Some (py "sk-test");
     form_ppt_file := file;
     form_topic := py "AI in Healthcare";
     form_slide_count := 6;
     form_style := py "Professional, modern, minimal";
     form_submitted := true;
     chat_completions_create :=
       fun _ _ => Returns [Some (py "Sorry, I cannot help with that.")];
     named_temporary_file := Returns (py "/tmp/tmpab12.pptx") |}.

(** A request that succeeds: the reply is read as the example deck. *)
Definition lenient_request : Env :=
  {| runtime := lenient_runtime;
     query_params := [ (py "key", py "s3cret") ];
     secrets_access_key := Some (py "s3cret");
     secrets_openai_api_key := Some (py "sk-test");
     form_ppt_file := Some sample_upload;
     form_topic := py "AI in Healthcare";
     form_slide_count := 6;
     form_style := py "Professional, modern, minimal";
     form_submitted := true;
     chat_completions_create := fun _ _ => Returns [Some (py "{}")];
     named_temporary_file := Returns (py "/tmp/tmpab12.pptx") |}.

(** ** Decimal notation *)




(** ** The text the Extractor returns *)

(** A text without whitespace at either end. *)
Definition stripped (s : pystr) : Prop :=
  (forall c rest, s = c :: rest -> isspace c = false)
  /\ (forall c rest, s = rest ++ [c] -> isspace c = false).

(** The title placeholder, as [find_placeholder 0] recognises it. *)
Definition is_title (sp : Sp) : bool :=
  match sp_kind sp with
  | Placeholder i => (i =? 0)%nat
  | _ => false
  end.

(** The text frames of all text shapes among [shs]. *)
Definition all_text_frames (shs : list Shape) : list TextFrame :=
  omap (fun sh => match sh with
                  | ShapeSp sp => Some (text_frame sp)
                  | _ => None
                  end) shs.

(** The text frames of the shapes other than the first title placeholder,
    without reference to positions. *)
Fixpoint body_text_frames (shs : list Shape) : list TextFrame :=
  match shs with
  | [] => []
  | ShapeSp sp :: rest =>
    if is_title sp then all_text_frames rest
    else text_frame sp :: body_text_frames rest
  | _ :: rest => body_text_frames rest
  end.

(** The shapes that answer [has_text_frame] with [True]. *)
Definition text_shapes (shs : list Shape) : list Shape :=
  List.filter has_text_frame shs.

(** The texts among [ls] that are not blank, trimmed. *)
Definition nonblank_trimmed (ls : list pystr) : list pystr :=
  filter (fun t => t <> []) (map strip ls).

(** ** What the Builder accepts

    The Builder asks less of its input than the data model promises: it
    calls [.get] on the deck and on every record, assigns [title] and
    [heading] as text, and loops over [slides] and [bullet_points] with
    [for], assigning every item as text. It asks more in one respect:
    every text it assigns must be one lxml can store, and [str()] of a
    chart type it shows must succeed. *)

(** A value a [for] loop can visit and that yields strings only: a list of
    strings, any string (its characters), any dict (its keys). *)
Definition strings_iterable (v : json) : bool :=
  match py_iter v with
  | Returns items => forallb is_str items
  | Raises _ => false
  end.

Definition iterated_strings (v : json) : list pystr :=
  match py_iter v with
  | Returns items => map str_value items
  | Raises _ => []
  end.

Definition record_accepted (s : json) : bool :=
  match s with
  | JDict d =>
    str_or_absent (assoc (py "heading") d)
    && match assoc (py "bullet_points") d with
       | None => true
       | Some v => strings_iterable v
       end
  | _ => false
  end.

Definition deck_accepted (content : json) : bool :=
  match content with
  | JDict d =>
    str_or_absent (assoc (py "title") d)
    && match assoc (py "slides") d with
       | None => true
       | Some v => match py_iter v with
                   | Returns items => forallb record_accepted items
                   | Raises _ => false
                   end
       end
  | _ => false
  end.

(** The records the loop of line 92 visits. *)
Definition deck_records (content : json) : list json :=
  match field content (py "slides") with
  | Some v => match py_iter v with
              | Returns items => items
              | Raises _ => []
              end
  | None => []
  end.

(** The texts the loop of line 118 visits. *)
Definition record_bullet_texts (s : json) : list pystr :=
  match field s (py "bullet_points") with
  | Some v => iterated_strings v
  | None => []
  end.

(** A value that can be assigned as text. *)
Definition text_item (v : json) : bool :=
  is_str v && text_storable (str_value v).

(** The loop of line 118 runs to its end: [bullet_points] can be iterated
    and every item assigned as text. *)
Definition bullets_assignable (s : json) : bool :=
  match field s (py "bullet_points") with
  | None => true
  | Some v => match py_iter v with
              | Returns items => forallb text_item items
              | Raises _ => false
              end
  end.

(** The chart type of a record can be shown, if it is to be: [str()] of
    it succeeds with a text that can be stored. *)
Definition chart_storable (rt : Runtime) (s : json) : bool :=
  match field s (py "chart_type") with
  | Some v => if truthy v
              then match py_str rt v with
                   | Returns t => text_storable t
                   | Raises _ => false
                   end
              else true
  | None => true
  end.

(** The texts assigned for a record can be stored. *)
Definition record_storable (rt : Runtime) (s : json) : bool :=
  text_storable (record_heading s)
  && forallb text_storable (record_bullet_texts s)
  && chart_storable rt s.

Definition deck_storable (rt : Runtime) (content : json) : bool :=
  text_storable (deck_title content)
  && forallb (record_storable rt) (deck_records content).

Definition record_builds (rt : Runtime) (s : json) : bool :=
  record_accepted s && record_storable rt s.

(** The inputs of which the Builder makes a deck. *)
Definition deck_builds (rt : Runtime) (content : json) : bool :=
  deck_accepted content && deck_storable rt content.

(** The slide made of a record, and the deck made of an input, when the
    Builder makes one. *)
Definition accepted_slide (rt : Runtime) (s : json) : Slide :=
  {| background := FillSolid (Some (RGBColor 240 248 255));
     shapes := [ title_box (record_heading s);
                 bullets_box (record_bullet_texts s) ]
               ++ chart_shapes rt s |}.

Definition accepted_deck (rt : Runtime) (content : json) : Presentation :=
  prs_with_slides
    (rendered_title_slide content
     :: map (accepted_slide rt) (deck_records content))
    default_template.

(** The exceptions with which the Builder turns down its input:
    [AttributeError] and [TypeError] for a value of the wrong type,
    [ValueError] for a text that cannot be stored, and what [str()] of a
    chart type raises. *)
Definition refusal (rt : Runtime) (e : exn) : Prop :=
  e = AttributeError \/ e = TypeError \/ e = ValueError
  \/ exists v, py_str rt v = Raises e.

Definition refused {A} (rt : Runtime) (o : outcome A) : Prop :=
  exists e, o = Raise e /\ refusal rt e.

(** A shape lies within the slide. *)
Definition within_slide (prs : Presentation) (sp : Sp) : Prop :=
  0 <= sp_left sp /\ 0 <= sp_top sp
  /\ sp_left sp + sp_width sp <= slide_width prs
  /\ sp_top sp + sp_height sp <= slide_height prs.

(** The frame of [inner] lies within the frame of [outer]. *)
Definition within_frame (outer inner : Sp) : Prop :=
  sp_left outer <= sp_left inner /\ sp_top outer <= sp_top inner
  /\ sp_left inner + sp_width inner <= sp_left outer + sp_width outer
  /\ sp_top inner + sp_height inner <= sp_top outer + sp_height outer.

(** The bullet points the Extractor reads from the slide the Builder makes
    of the record [s]: the lines of the heading, the bullet points, the
    label of the chart placeholder. *)
Definition reextracted_bullets (rt : Runtime) (s : json) : list pystr :=
  nonblank_trimmed (map line_text (split_on LF (record_heading s)))
  ++ nonblank_trimmed (map line_text (record_bullet_texts s))
  ++ match chart_text rt s with
     | Some t => nonblank_trimmed (map line_text (split_on LF (chart_label t)))
     | None => []
     end.

(** ** More on runs *)

(** The request the script sends for the records [extracted]. *)
Definition request_of (env : Env) (extracted : list SlideRecord)
  : ChatRequest :=
  chat_request system_prompt
    (user_prompt (runtime env) (form_topic env) extracted
       (form_slide_count env) (form_style env)).

(** What is shown once the reply has been parsed. *)
Definition json_shown (data : json) : list Event :=
  [ StSuccess (py "✅ JSON structure ready");
    StJson data;
    StSpinner (py "🛠️ Building modern styled PPTX...") ].

(** An event that is neither a request to the model, nor the call of the
    Builder, nor a download button. *)
Definition plain_event (e : Event) : Prop :=
  match e with
  | ChatCompletion _ | Called Builder | StDownloadButton _ _ _ => False
  | _ => True
  end.

(** ** More sample data *)

(** An upload that python-pptx cannot read. *)
Definition unreadable_upload : UploadedFile :=
  {| upload_name := py "notes.txt";
     upload_parsed := Raises (OtherException (py "PackageNotFoundError")) |}.

(** A request with the right key in the URL; the secrets, the state of the
    form and the reply of the model vary. *)
Definition request_with (access api : option pystr) (submitted : bool)
    (file : option UploadedFile) (reply : result (list (option pystr)))
  : Env :=
  {| runtime := lenient_runtime;
     query_params := [ (py "key", py "s3cret") ];
     secrets_access_key := access;
     secrets_openai_api_key := api;
     form_ppt_file := file;
     form_topic := py "AI in Healthcare";
     form_slide_count := 6;
     form_style := py "Professional, modern, minimal";
     form_submitted := submitted;
     chat_completions_create := fun _ _ => reply;
     named_temporary_file := Returns (py "/tmp/tmpab12.pptx") |}.

(** A deck whose texts hold control characters: a carriage return in the
    title, in a bullet point and in the chart type, a file separator in the
    heading and as a bullet point. *)
Definition control_deck : json :=
  JDict [ (py "title", JStr (py "A" ++ [13%N] ++ py "B"));
          (py "slides",
           JList [ JDict [ (py "heading", JStr (py "a" ++ [28%N] ++ py "b"));
                           (py "bullet_points",
                            JList [ JStr [28%N];
                                    JStr (py "x" ++ [13%N] ++ py "y") ]);
                           (py "chart_type",
                            JStr (py "p" ++ [13%N] ++ py "ie")) ] ]) ].

(** A deck with one record that has the given field only. *)
Definition one_field_deck (key : pystr) (v : json) : json :=
  JDict [ (py "slides", JList [ JDict [ (key, v) ] ]) ].

(** A text that holds U+FFFE, which XML cannot store. *)
Definition unstorable_text : pystr := py "Q3 " ++ [65534%N] ++ py " plan".

(** A deck whose record has a string where a list of bullet points is
    expected. *)
Definition string_bullets_deck : json :=
  JDict [ (py "slides",
           JList [ JDict [ (py "heading", JStr (py "Plan"));
                           (py "bullet_points", JStr (py "ab")) ] ]) ].

(** * Properties *)

(** ** Strings *)

Lemma split_on_nonempty sep s : exists l ls, split_on sep s = l :: ls.
Proof.
  induction s as [|c s IH]; simpl; [eauto|].
  destruct (c =? sep)%N; [eauto|].
  destruct IH as (l & ls & ->). eauto.
Qed.

Lemma join_cons_cons sep p q rest :
  join sep (p :: q :: rest) = p ++ sep ++ join sep (q :: rest).
Proof. reflexivity. Qed.

(** Splitting a text into lines and joining the lines gives the text. *)
Lemma join_split sep s : join [sep] (split_on sep s) = s.
Proof.
  induction s as [|c s IH]; [reflexivity|].
  simpl. destruct (N.eqb_spec c sep) as [->|Hne].
  - destruct (split_on_nonempty sep s) as (l & ls & E).
    rewrite E in *. by rewrite join_cons_cons, IH.
  - destruct (split_on_nonempty sep s) as (l & ls & E).
    rewrite E in *. destruct ls as [|q ls].
    + simpl in *. by rewrite IH.
    + rewrite join_cons_cons in *. by rewrite <- IH.
Qed.

Lemma join_app sep l1 l2 :
  l1 <> [] -> l2 <> [] ->
  join sep (l1 ++ l2) = join sep l1 ++ sep ++ join sep l2.
Proof.
  intros H1 H2. induction l1 as [|p [|q l1] IH]; [done| |].
  - destruct l2; [done|]. reflexivity.
  - change (join sep ((p :: q :: l1) ++ l2))
      with (p ++ sep ++ join sep ((q :: l1) ++ l2)).
    rewrite IH by done. rewrite join_cons_cons. by rewrite <- !app_assoc.
Qed.

Lemma lstrip_spec s :
  exists pre,
    s = pre ++ lstrip s
    /\ Forall (fun c => isspace c = true) pre
    /\ (forall c rest, lstrip s = c :: rest -> isspace c = false).
Proof.
  induction s as [|c s (pre & E & Hpre & Hhd)]; simpl.
  - exists []. by repeat split.
  - destruct (isspace c) eqn:Hc.
    + exists (c :: pre). split; [simpl; by f_equal|].
      split; [by constructor|done].
    + exists []. split; [done|]. split; [done|]. by intros ? ? [= <- <-].
Qed.

(** [strip] removes exactly the whitespace around a text: what it drops
    on either side is whitespace, and what it keeps neither starts nor
    ends with whitespace. *)
Lemma strip_spec s :
  exists pre post,
    s = pre ++ strip s ++ post
    /\ Forall (fun c => isspace c = true) pre
    /\ Forall (fun c => isspace c = true) post
    /\ (forall c rest, strip s = c :: rest -> isspace c = false)
    /\ (forall c rest, strip s = rest ++ [c] -> isspace c = false).
Proof.
  unfold strip, rstrip.
  destruct (lstrip_spec s) as (pre & E1 & Hpre & Hhd).
  destruct (lstrip_spec (reverse (lstrip s))) as (post & E2 & Hpost & Hlast).
  assert (lstrip s = reverse (lstrip (reverse (lstrip s))) ++ reverse post)
    as E3 by (by rewrite <- reverse_app, <- E2, reverse_involutive).
  exists pre, (reverse post). split; [|split; [done|split; [|split]]].
  - by rewrite <- E3.
  - by apply Forall_reverse.
  - intros c rest Hs. rewrite Hs in E3.
    by apply (Hhd c (rest ++ reverse post)).
  - intros c rest Hs. apply (Hlast c (reverse rest)).
    apply (f_equal reverse) in Hs.
    by rewrite reverse_involutive, reverse_app in Hs.
Qed.

(** *** Text as stored *)

Lemma forallb_split_on (P : N -> bool) sep s :
  P sep = true ->
  forallb (forallb P) (split_on sep s) = forallb P s.
Proof.
  intros Hsep. induction s as [|c s IH]; [reflexivity|].
  simpl. destruct (N.eqb_spec c sep) as [->|Hne].
  - simpl. by rewrite IH, Hsep.
  - destruct (split_on_nonempty sep s) as (l & ls & E).
    rewrite E in *. simpl in *. rewrite <- IH.
    by destruct (P c), (forallb P l).
Qed.

Lemma split_breaks_nonempty s : exists l ls, split_breaks s = l :: ls.
Proof.
  induction s as [|c s IH]; simpl; [eauto|].
  destruct (break_char c); [eauto|].
  destruct IH as (l & ls & ->). eauto.
Qed.

(** The control characters are the 32 first code points but tab and line
    feed; however one is escaped, lxml takes the escape. *)
Lemma escape_ctrl_char_xml c :
  is_ctrl_char c = true -> forallb xml_char (escape_ctrl_char c) = true.
Proof.
  intros Hc. assert (c < 32)%N as Hlt.
  { unfold is_ctrl_char in Hc. lia. }
  assert (exists n, (n < 32)%nat /\ c = N.of_nat n) as (n & Hn & ->).
  { exists (N.to_nat c). split; [lia|by rewrite N2Nat.id]. }
  clear Hc Hlt.
  do 32 (destruct n as [|n]; [by vm_compute|]). lia.
Qed.

Lemma xml_char_storable c :
  is_ctrl_char c = false -> xml_char c = xml_storable c || break_char c.
Proof.
  unfold is_ctrl_char, xml_char, xml_storable, break_char, LF, VT.
  intros Hc. destruct (c <? 0x80)%N eqn:E; lia.
Qed.

Lemma escape_ctrl_char_storable c :
  forallb xml_char (escape_ctrl_char c) = xml_storable c.
Proof.
  destruct (is_ctrl_char c) eqn:Hc.
  - rewrite escape_ctrl_char_xml by done.
    unfold is_ctrl_char in Hc. unfold xml_storable. lia.
  - unfold escape_ctrl_char. rewrite Hc. simpl.
    rewrite xml_char_storable by done.
    unfold break_char, xml_storable, LF, VT. lia.
Qed.

Lemma escape_ctrl_chars_storable r :
  forallb xml_char (escape_ctrl_chars r) = text_storable r.
Proof.
  induction r as [|c r IH]; [reflexivity|].
  unfold escape_ctrl_chars, text_storable in *. simpl.
  by rewrite forallb_app, escape_ctrl_char_storable, IH.
Qed.

Lemma run_text_spec r :
  run_text r
  = if text_storable r then Returns (escape_ctrl_chars r)
    else Raises ValueError.
Proof. unfold run_text. by rewrite escape_ctrl_chars_storable. Qed.

Lemma text_storable_app s t :
  text_storable (s ++ t) = text_storable s && text_storable t.
Proof. apply forallb_app. Qed.

Lemma line_text_cons c s :
  line_text (c :: s)
  = (if break_char c then [VT] else escape_ctrl_char c) ++ line_text s.
Proof. reflexivity. Qed.

Lemma escape_ctrl_chars_app s t :
  escape_ctrl_chars (s ++ t) = escape_ctrl_chars s ++ escape_ctrl_chars t.
Proof. apply flat_map_app. Qed.

(** The runs and breaks of a text that can be stored read back as
    [line_text]. *)
Lemma append_runs_storable s : forall pre idx acc,
  text_storable pre = true -> text_storable s = true ->
  append_runs (match split_breaks s with
               | l :: ls => (pre ++ l) :: ls
               | [] => [pre]
               end) idx acc
  = ((match idx with
      | O => acc
      | S _ => acc ++ [VT]
      end) ++ escape_ctrl_chars pre ++ line_text s, None).
Proof.
  induction s as [|c s IH]; intros pre idx acc Hpre Hs.
  - simpl. rewrite app_nil_r, run_text_spec, Hpre. by rewrite app_nil_r.
  - apply andb_prop in Hs as [Hc Hs]. rewrite line_text_cons.
    cbn [split_breaks]. destruct (break_char c).
    + rewrite app_nil_r. cbn [append_runs]. rewrite run_text_spec, Hpre.
      destruct (split_breaks_nonempty s) as (l & ls & E).
      specialize (IH [] (S idx)
                    ((match idx with
                      | O => acc
                      | S _ => acc ++ [VT]
                      end) ++ escape_ctrl_chars pre) eq_refl Hs).
      rewrite E in *. cbn [app] in IH. refine (eq_trans IH _).
      by rewrite <- !app_assoc.
    + destruct (split_breaks_nonempty s) as (l & ls & E).
      specialize (IH (pre ++ [c]) idx acc).
      rewrite E in *. rewrite <- app_assoc in IH. cbn [app] in IH.
      refine (eq_trans (IH _ Hs) _).
      * rewrite text_storable_app, Hpre. simpl. by rewrite Hc.
      * rewrite escape_ctrl_chars_app. unfold escape_ctrl_chars at 2.
        cbn [flat_map]. by rewrite app_nil_r, <- !app_assoc.
Qed.

Lemma append_text_storable s acc :
  text_storable s = true -> append_text s acc = (acc ++ line_text s, None).
Proof.
  intros Hs. unfold append_text.
  pose proof (append_runs_storable s [] 0 acc eq_refl Hs) as H.
  destruct (split_breaks_nonempty s) as (l & ls & E). rewrite E in *.
  exact H.
Qed.

Lemma append_runs_unstorable s : forall pre idx acc,
  text_storable pre && text_storable s = false ->
  exists t,
    append_runs (match split_breaks s with
                 | l :: ls => (pre ++ l) :: ls
                 | [] => [pre]
                 end) idx acc
    = (t, Some ValueError).
Proof.
  induction s as [|c s IH]; intros pre idx acc Hbad.
  - simpl in *. rewrite app_nil_r, run_text_spec.
    rewrite andb_true_r in Hbad. rewrite Hbad. eauto.
  - cbn [split_breaks]. destruct (break_char c) eqn:Hb.
    + rewrite app_nil_r. cbn [append_runs]. rewrite run_text_spec.
      destruct (text_storable pre); [|by eauto].
      assert (text_storable s = false) as Hs.
      { simpl in Hbad. apply andb_false_iff in Hbad as [Hc|Hs]; [|done].
        unfold break_char, LF, VT in Hb. unfold xml_storable in Hc. lia. }
      destruct (split_breaks_nonempty s) as (l & ls & E).
      specialize (IH [] (S idx)
                    ((match idx with
                      | O => acc
                      | S _ => acc ++ [VT]
                      end) ++ escape_ctrl_chars pre)).
      rewrite E in *. cbn [app] in IH. apply IH. by rewrite Hs.
    + destruct (split_breaks_nonempty s) as (l & ls & E).
      specialize (IH (pre ++ [c]) idx acc).
      rewrite E in *. rewrite <- app_assoc in IH. cbn [app] in IH.
      apply IH. rewrite text_storable_app. simpl in *.
      by destruct (text_storable pre), (xml_storable c).
Qed.

Lemma append_text_unstorable s acc :
  text_storable s = false ->
  exists t, append_text s acc = (t, Some ValueError).
Proof.
  intros Hs. unfold append_text.
  pose proof (append_runs_unstorable s [] 0 acc) as H.
  destruct (split_breaks_nonempty s) as (l & ls & E). rewrite E in *.
  apply H. by rewrite Hs.
Qed.

Lemma add_lines_storable lines : forall acc,
  forallb text_storable lines = true ->
  add_lines lines acc
  = (acc ++ map paragraph_of_line (map line_text lines), None).
Proof.
  induction lines as [|l lines IH]; intros acc Hs; simpl.
  - by rewrite app_nil_r.
  - apply andb_prop in Hs as [Hl Hs].
    rewrite append_text_storable by done. rewrite IH by done.
    by rewrite <- app_assoc.
Qed.

Lemma add_lines_unstorable lines : forall acc,
  forallb text_storable lines = false ->
  exists ps, add_lines lines acc = (ps, Some ValueError).
Proof.
  induction lines as [|l lines IH]; intros acc Hs; [done|]. simpl in *.
  destruct (text_storable l) eqn:Hl.
  - rewrite append_text_storable by done. by apply IH.
  - destruct (append_text_unstorable l [] Hl) as [t ->]. eauto.
Qed.

Lemma text_storable_lines s :
  forallb text_storable (split_on LF s) = text_storable s.
Proof. exact (forallb_split_on xml_storable LF s eq_refl). Qed.

(** Assigning a text to a text frame: the paragraphs when the text can be
    stored, [ValueError] when it cannot. *)
Lemma add_lines_text s :
  text_storable s = true ->
  add_lines (split_on LF s) []
  = (map paragraph_of_line (map line_text (split_on LF s)), None).
Proof.
  intros Hs. apply add_lines_storable. by rewrite text_storable_lines.
Qed.

Lemma add_lines_text_unstorable s :
  text_storable s = false ->
  exists ps, add_lines (split_on LF s) [] = (ps, Some ValueError).
Proof.
  intros Hs. apply add_lines_unstorable. by rewrite text_storable_lines.
Qed.

(** The paragraphs of a text, joined again, are the text as stored. *)
Lemma join_line_text s :
  join [LF] (map line_text (split_on LF s)) = frame_text s.
Proof.
  induction s as [|c s IH]; [reflexivity|].
  cbn [split_on frame_text flat_map]. fold (frame_text s).
  destruct (split_on_nonempty LF s) as (l & ls & E). rewrite E in *.
  destruct (N.eqb_spec c LF) as [->|Hne].
  - cbn [map]. rewrite join_cons_cons. cbn [map] in IH. by rewrite IH.
  - cbn [map]. rewrite line_text_cons.
    assert ((if break_char c then [VT] else escape_ctrl_char c)
            = (if break_char c then [c] else escape_ctrl_char c)) as ->.
    { unfold break_char. destruct (N.eqb_spec c LF); [done|].
      by destruct (N.eqb_spec c VT) as [->|]. }
    rewrite <- IH. cbn [map]. destruct (map line_text ls) as [|q qs].
    + reflexivity.
    + rewrite !join_cons_cons. by rewrite <- app_assoc.
Qed.

Lemma frame_text_app s t : frame_text (s ++ t) = frame_text s ++ frame_text t.
Proof. apply flat_map_app. Qed.

(** A text without control characters is stored as it is. *)
Lemma frame_text_printable s : printable s = true -> frame_text s = s.
Proof.
  induction s as [|c s IH]; [reflexivity|].
  intros [Hc Hs]%andb_prop. cbn [frame_text flat_map]. fold (frame_text s).
  rewrite IH by done. unfold escape_ctrl_char.
  destruct (break_char c); [done|]. simpl in Hc.
  by destruct (is_ctrl_char c).
Qed.

Lemma line_text_printable s :
  printable s = true -> forallb (fun c => negb (break_char c)) s = true ->
  line_text s = s.
Proof.
  induction s as [|c s IH]; [reflexivity|].
  intros [Hc Hs]%andb_prop [Hb Hbs]%andb_prop. rewrite line_text_cons.
  rewrite IH by done. unfold escape_ctrl_char.
  destruct (break_char c); [done|]. simpl in Hc.
  by destruct (is_ctrl_char c).
Qed.

Lemma map_p_text_lines ls : map p_text (map paragraph_of_line ls) = ls.
Proof. induction ls as [|l ls IH]; simpl; [done|]. by rewrite IH. Qed.

Lemma map_p_text_first_formatted f lines :
  map p_text (first_formatted f lines) = lines.
Proof.
  destruct lines as [|l ls]; simpl; [done|]. by rewrite map_p_text_lines.
Qed.

(** A text assigned to a text frame reads back as stored, however the
    first paragraph is formatted afterwards. *)
Lemma text_first_formatted f t w :
  text_frame_text
    {| paragraphs := first_formatted f (map line_text (split_on LF t));
       word_wrap := w |}
  = frame_text t.
Proof.
  unfold text_frame_text. cbn [paragraphs].
  rewrite map_p_text_first_formatted. apply join_line_text.
Qed.

Lemma text_lines t w :
  text_frame_text
    {| paragraphs := map paragraph_of_line (map line_text (split_on LF t));
       word_wrap := w |}
  = frame_text t.
Proof.
  unfold text_frame_text. cbn [paragraphs].
  rewrite map_p_text_lines. apply join_line_text.
Qed.

(** ** The monad *)

Lemma bind_ok {S A B} (m : M S A) (k : A -> M S B) s a s' :
  m s = (Ok a, s') -> bind m k s = k a s'.
Proof. unfold bind. by intros ->. Qed.

Lemma bind_ret {S A B} (a : A) (k : A -> M S B) : bind (ret a) k = k a.
Proof. reflexivity. Qed.

Lemma bind_lift_ok {S A B} (a : A) (k : A -> M S B) s :
  bind (lift (Returns a)) k s = k a s.
Proof. reflexivity. Qed.

Section Safe.
Context {S : Type} (P : S -> Prop).

Lemma safe_ret {A} (a : A) : safe P (ret a).
Proof. by intros s Hs. Qed.

Lemma safe_raise {A} e : safe P (@raise S A e).
Proof. by intros s Hs. Qed.

Lemma safe_lift {A} (r : result A) : safe P (lift r).
Proof. intros s Hs. by destruct r. Qed.

Lemma safe_get_state : safe P get_state.
Proof. by intros s Hs. Qed.

Lemma safe_modify f : (forall s, P s -> P (f s)) -> safe P (modify f).
Proof. intros Hf s Hs. split; [done|]. by apply Hf. Qed.

Lemma safe_bind {A B} (m : M S A) (k : A -> M S B) :
  safe P m -> (forall a, safe P (k a)) -> safe P (bind m k).
Proof.
  intros Hm Hk s Hs. unfold bind.
  destruct (Hm s Hs) as [Hne HP].
  destruct (m s) as [[a|e|] s']; simpl in *; [by apply Hk|done|done].
Qed.

Lemma safe_for_each {A} (xs : list A) (body : A -> M S unit) :
  (forall x, safe P (body x)) -> safe P (for_each xs body).
Proof.
  intros Hb. induction xs as [|x xs IH]; simpl.
  - apply safe_ret.
  - apply safe_bind; [apply Hb|]. intros _. apply IH.
Qed.

Lemma safe_try_except {A} (body : M S A) handler :
  safe P body -> (forall e, safe P (handler e)) ->
  safe P (try_except body handler).
Proof.
  intros Hb Hh s Hs. unfold try_except.
  destruct (Hb s Hs) as [Hne HP].
  destruct (body s) as [[a|e|] s']; simpl in *; [done|by apply Hh|done].
Qed.

Lemma safe_with_local {L A} (Q : L -> Prop) init (m : M L A) :
  safe Q m -> Q init -> safe P (with_local init m).
Proof.
  intros Hm Hi s Hs. unfold with_local.
  destruct (Hm init Hi) as [Hne _]. by destruct (m init) as [[a|e|] l].
Qed.

Lemma safe_zoom {T A} (Q : T -> Prop) (proj : S -> T) inj (m : M T A) :
  safe Q m -> (forall s, P s -> Q (proj s)) ->
  (forall s t, P s -> Q t -> P (inj t s)) -> safe P (zoom proj inj m).
Proof.
  intros Hm Hp Hi s Hs. unfold zoom.
  destruct (Hm (proj s) (Hp s Hs)) as [Hne HQ].
  destruct (m (proj s)) as [r t]; simpl in *. split; [done|]. by apply Hi.
Qed.
End Safe.

(** ** Extractor *)

Lemma foldl_snoc_map {A B} (f : A -> B) (l : list A) (acc : list B) :
  foldl (fun content x => content ++ [f x]) acc l = acc ++ map f l.
Proof.
  revert acc. induction l as [|x l IH]; intros acc; simpl.
  - by rewrite app_nil_r.
  - rewrite IH. by rewrite <- app_assoc.
Qed.

Lemma extract_ppt_text_parsed f prs :
  upload_parsed f = Returns prs ->
  extract_ppt_text f = Returns (map extract_slide (slides prs)).
Proof.
  intros H. unfold extract_ppt_text. rewrite H. by rewrite foldl_snoc_map.
Qed.

Lemma extract_paragraphs_spec sd paras :
  extract_paragraphs sd paras
  = {| heading := heading sd;
       bullet_points :=
         bullet_points sd
         ++ filter (fun t => t <> [])
                   (map (fun para => strip (p_text para)) paras) |}.
Proof.
  unfold extract_paragraphs. revert sd.
  induction paras as [|p paras IH]; intros sd; simpl.
  - rewrite app_nil_r. by destruct sd.
  - rewrite IH. rewrite filter_cons. unfold truthy.
    case_decide as Hne.
    + rewrite bool_decide_eq_false_2 by done. simpl. by rewrite <- app_assoc.
    + by rewrite Hne.
Qed.

Lemma extract_shapes_spec title sd (shs : list (nat * Shape)) :
  extract_shapes title sd shs
  = {| heading := heading sd;
       bullet_points :=
         bullet_points sd
         ++ concat (map trimmed_paragraphs
              (omap (fun '(pos, sh) =>
                       match sh with
                       | ShapeSp sp =>
                         if decide (title = Some pos) then None
                         else Some (text_frame sp)
                       | _ => None
                       end) shs)) |}.
Proof.
  unfold extract_shapes. revert sd.
  induction shs as [|[pos sh] shs IH]; intros sd; simpl.
  - rewrite app_nil_r. by destruct sd.
  - rewrite IH. clear IH. destruct sh as [sp| | | |]; simpl; try done.
    destruct (decide (title = Some pos)) as [E|E].
    + by rewrite bool_decide_eq_true_2.
    + rewrite bool_decide_eq_false_2 by done. simpl.
      rewrite extract_paragraphs_spec. simpl. by rewrite <- app_assoc.
Qed.

(** The loops of the Extractor compute what the specification words. *)
Lemma extract_slide_spec slide :
  extract_slide slide
  = {| heading := spec_heading slide;
       bullet_points := spec_bullet_points slide |}.
Proof.
  unfold extract_slide, spec_heading, spec_bullet_points,
    non_title_text_frames.
  rewrite extract_shapes_spec.
  destruct (shapes_title (shapes slide)) as [[pos t]|]; reflexivity.
Qed.

Lemma find_placeholder_no_text idx shs pos :
  Forall (fun sh => has_text_frame sh = false) shs ->
  find_placeholder idx shs pos = None.
Proof.
  intros H. revert pos.
  induction H as [|sh shs Hsh _ IH]; intros pos; [done|].
  destruct sh; simpl in *; try done; apply IH.
Qed.

Lemma omap_no_text (g : nat -> Sp -> option TextFrame)
    (shs : list (nat * Shape)) :
  Forall (fun ps => has_text_frame (snd ps) = false) shs ->
  omap (fun '(pos, sh) =>
          match sh with
          | ShapeSp sp => g pos sp
          | _ => None
          end) shs = [].
Proof.
  induction 1 as [|[pos sh] shs Hsh _ IH]; [done|].
  simpl. destruct sh; simpl in *; try done.
Qed.

Lemma Forall_imap_snd {A} (P : A -> Prop) (l : list A) (n : nat) :
  Forall P l ->
  Forall (fun ps => P (snd ps)) (imap (fun i x => ((n + i)%nat, x)) l).
Proof.
  intros H. revert n.
  induction H as [|x l Hx _ IH]; intros n; simpl; [done|].
  constructor; [done|].
  rewrite (imap_ext _ (fun i x => ((S n + i)%nat, x))); [apply IH|].
  intros; simpl. f_equal. lia.
Qed.

Lemma extract_slide_no_text slide :
  Forall (fun sh => has_text_frame sh = false) (shapes slide) ->
  extract_slide slide = {| heading := []; bullet_points := [] |}.
Proof.
  intros H. rewrite extract_slide_spec.
  unfold spec_heading, spec_bullet_points, non_title_text_frames,
    shapes_title.
  rewrite find_placeholder_no_text by done.
  cbn [fmap option_fmap option_map].
  rewrite omap_no_text; [done|].
  exact (Forall_imap_snd (fun sh => has_text_frame sh = false)
           (shapes slide) 0 H).
Qed.

(** C2. For every parsed presentation with N slides the Extractor returns
    N records, the i-th record being the record of the i-th slide. *)
Theorem extractor_one_record_per_slide name prs :
  exists recs,
    extract_ppt_text {| upload_name := name; upload_parsed := Returns prs |}
    = Returns recs
    /\ length recs = length (slides prs)
    /\ forall i, recs !! i = extract_slide <$> slides prs !! i.
Proof.
  exists (map extract_slide (slides prs)).
  split; [by apply extract_ppt_text_parsed|].
  split; [apply length_map|].
  intros i. apply list_lookup_fmap.
Qed.

(** C3. The record of a slide has the trimmed text of the title shape as
    heading (the empty string without title shape) and, as bullet points,
    the non-empty trimmed paragraphs of the other shapes that carry a text
    frame, in document order; a slide without any text shape gives an
    empty heading and no bullet point. *)
Theorem extractor_heading_and_bullets name prs i slide :
  slides prs !! i = Some slide ->
  exists recs r,
    extract_ppt_text {| upload_name := name; upload_parsed := Returns prs |}
    = Returns recs
    /\ recs !! i = Some r
    /\ heading r = match shapes_title (shapes slide) with
                   | Some (_, t) => strip (sp_text t)
                   | None => []
                   end
    /\ bullet_points r
       = concat (map trimmed_paragraphs (non_title_text_frames slide))
    /\ (Forall (fun sh => has_text_frame sh = false) (shapes slide) ->
        heading r = [] /\ bullet_points r = []).
Proof.
  intros Hi. exists (map extract_slide (slides prs)), (extract_slide slide).
  split; [by apply extract_ppt_text_parsed|].
  split; [by rewrite list_lookup_fmap, Hi|].
  rewrite extract_slide_spec. cbn [heading bullet_points].
  split; [done|]. split; [done|].
  intros H. pose proof (extract_slide_no_text slide H) as E.
  rewrite extract_slide_spec in E. injection E as E1 E2.
  split; [exact E1|exact E2].
Qed.

Example extract_sample_slide :
  extract_slide sample_slide
  = {| heading := py "Roadmap";
       bullet_points :=
         [py "Q1: pilot"; py "Q2: rollout"; py "Confidential"] |}.
Proof. reflexivity. Qed.

(** ** Builder: what it makes of its input *)

Lemma alter_last {A} (f : A -> A) (l : list A) x :
  alter f (length l) (l ++ [x]) = l ++ [f x].
Proof. rewrite alter_app_r_alt by lia. by rewrite Nat.sub_diag. Qed.

Lemma is_str_list l :
  forallb is_str l = true -> l = map JStr (map str_value l).
Proof.
  induction l as [|v l IH]; simpl; [done|].
  intros [Hv Hl]%andb_prop. destruct v; try done. simpl. by rewrite <- IH.
Qed.

Lemma truthy_str ct : truthy (JStr ct) = true <-> ct <> [].
Proof.
  unfold truthy. case_bool_decide; simpl; split; intros; congruence.
Qed.

Lemma for_each_app {S A} (l1 l2 : list A) (body : A -> M S unit) s :
  for_each (l1 ++ l2) body s
  = match for_each l1 body s with
    | (Ok _, s') => for_each l2 body s'
    | r => r
    end.
Proof.
  revert s. induction l1 as [|x l1 IH]; intros s; [done|].
  simpl. unfold bind. destruct (body x s) as [[[]|e|] s']; [apply IH|done..].
Qed.

Lemma bind_raise {S A B} (m : M S A) (k : A -> M S B) s e :
  fst (m s) = Raise e -> fst (bind m k s) = Raise e.
Proof.
  unfold bind. destruct (m s) as [[a|e'|] s']; simpl; intros H;
    simplify_eq; done.
Qed.

Lemma bind_refused {S A B} rt (m : M S A) (k : A -> M S B) s :
  refused rt (fst (m s)) -> refused rt (fst (bind m k s)).
Proof.
  intros (e & He & Hr). exists e. split; [by apply bind_raise|done].
Qed.

Lemma refused_raise {A} rt e :
  refusal rt e -> refused rt (@Raise A e).
Proof. intros He. by exists e. Qed.

(** The text a chart placeholder shows, and when there is none. *)
Lemma chart_text_cases rt s :
  (exists v t, field s (py "chart_type") = Some v /\ truthy v = true
               /\ py_str rt v = Returns t /\ chart_text rt s = Some t)
  \/ ((forall v, field s (py "chart_type") = Some v ->
         truthy v = false \/ exists e, py_str rt v = Raises e)
      /\ chart_text rt s = None).
Proof.
  unfold chart_text.
  destruct (field s (py "chart_type")) as [v|];
    [|right; split; [by intros ? [=]|reflexivity]].
  destruct (truthy v) eqn:Hv;
    [|right; split; [intros ? [= <-]; by left|reflexivity]].
  destruct (py_str rt v) as [t|e] eqn:Hstr.
  - left. by exists v, t.
  - right. split; [|reflexivity]. intros ? [= <-]. right. by exists e.
Qed.

(** The first item of a loop that cannot be assigned as text, and the
    first record of which no slide can be made. *)
Lemma first_bad_item items :
  forallb text_item items = false ->
  exists good bad rest,
    items = map JStr good ++ bad :: rest
    /\ forallb text_storable good = true /\ text_item bad = false.
Proof.
  induction items as [|v items IH]; [done|]. simpl.
  destruct (text_item v) eqn:Hv; simpl.
  - intros (good & bad & rest & -> & Hgood & Hbad)%IH.
    unfold text_item in Hv. destruct v; try done.
    exists (s :: good), bad, rest. simpl in *. by rewrite Hv, Hgood.
  - intros _. by exists [], v, items.
Qed.

Lemma first_bad_record rt items :
  forallb (record_builds rt) items = false ->
  exists good bad rest,
    items = good ++ bad :: rest
    /\ forallb (record_builds rt) good = true
    /\ record_builds rt bad = false.
Proof.
  induction items as [|v items IH]; [done|]. simpl.
  destruct (record_builds rt v) eqn:Hv; simpl.
  - intros (good & bad & rest & -> & Hgood & Hbad)%IH.
    exists (v :: good), bad, rest. simpl. by rewrite Hv, Hgood.
  - intros _. by exists [], v, items.
Qed.

Lemma text_items_strings items :
  forallb text_item items
  = forallb is_str items && forallb text_storable (map str_value items).
Proof.
  induction items as [|v items IH]; [reflexivity|]. simpl. rewrite IH.
  unfold text_item.
  by destruct (is_str v), (text_storable (str_value v)),
    (forallb is_str items).
Qed.

(** The operations of python-pptx, unfolded. *)
Ltac unfold_ops :=
  unfold add_shape, add_textbox, append_shape, fill_solid,
    fill_set_fore_color_rgb, read_fill, write_fill, set_text,
    paragraph_at, set_font_size, set_font_color_rgb, set_font_bold,
    alter_font, set_word_wrap, add_paragraph, set_paragraph_text,
    set_level, alter_paragraph, alter_text_frame, alter_sp, read_sp,
    lift, bind, ret, raise.

(** A run that ends with one of the exceptions of a refusal. *)
Ltac refuse_with tac :=
  eexists; split; [reflexivity|]; tac.

(** The operations of one loop iteration act on the slide added last:
    the state is [prs_with_slides (L ++ [c]) p], the slide is [length L]. *)
Section LastSlide.
Context (p : Presentation).

Lemma read_slide_last L c :
  read_slide (length L) (prs_with_slides (L ++ [c]) p)
  = (Ok c, prs_with_slides (L ++ [c]) p).
Proof.
  unfold read_slide, bind, get_state; simpl.
  by rewrite list_lookup_middle.
Qed.

Lemma alter_slide_last L c f :
  alter_slide (length L) f (prs_with_slides (L ++ [c]) p)
  = (Ok tt, prs_with_slides (L ++ [f c]) p).
Proof.
  unfold alter_slide, modify, prs_with_slides; simpl.
  by rewrite alter_last.
Qed.

Lemma add_slide_last L layout :
  add_slide layout (prs_with_slides L p)
  = (Ok (length L),
     prs_with_slides
       (L ++ [{| background := FillInherit;
                 shapes := map new_placeholder
                             (layout_placeholders layout) |}]) p).
Proof. reflexivity. Qed.

Ltac exec :=
  repeat (rewrite ?read_slide_last, ?alter_slide_last;
          cbn -[read_slide alter_slide prs_with_slides split_on
                add_lines append_text line_text Inches Pt py]).

Lemma render_background_last L shs :
  render_background (length L)
    (prs_with_slides
       (L ++ [{| background := FillInherit; shapes := shs |}]) p)
  = (Ok tt,
     prs_with_slides
       (L ++ [{| background := FillSolid (Some (RGBColor 240 248 255));
                 shapes := shs |}]) p).
Proof. unfold render_background. unfold_ops. exec. reflexivity. Qed.

Lemma render_title_last L bg d :
  str_or_absent (assoc (py "heading") d) = true ->
  text_storable (record_heading (JDict d)) = true ->
  render_title (length L) (JDict d)
    (prs_with_slides (L ++ [{| background := bg; shapes := [] |}]) p)
  = (Ok tt,
     prs_with_slides
       (L ++ [{| background := bg;
                 shapes := [title_box (record_heading (JDict d))] |}]) p).
Proof.
  intros Hh.
  unfold render_title, record_heading, field, title_box, title_sp, py_get.
  assert (exists hd,
            default (JStr []) (assoc (py "heading") d) = JStr hd
            /\ match assoc (py "heading") d with
               | Some v => str_value v
               | None => []
               end = hd) as (hd & -> & ->).
  { destruct (assoc (py "heading") d) as [[]|]; try done; simpl; eauto. }
  intros Hs. destruct (split_on_nonempty LF hd) as (l & ls & E). rewrite E.
  unfold_ops. exec. rewrite (add_lines_text hd Hs), E. exec. reflexivity.
Qed.

Lemma render_title_refused rt L bg s :
  match s with
  | JDict d =>
    str_or_absent (assoc (py "heading") d)
    && text_storable (record_heading s) = false
  | _ => True
  end ->
  refused rt
    (fst (render_title (length L) s
            (prs_with_slides (L ++ [{| background := bg; shapes := [] |}]) p))).
Proof.
  intros Hs. unfold render_title, py_get.
  destruct s as [| | | | | |d];
    try (unfold_ops; exec; refuse_with ltac:(by left)).
  unfold record_heading, field in Hs.
  destruct (assoc (py "heading") d) as [[| | | |h| |]|]; try done;
    try (unfold_ops; exec; refuse_with ltac:(by left)).
  simpl in Hs.
  destruct (add_lines_text_unstorable h Hs) as [ps Hps].
  unfold_ops. exec. rewrite Hps. exec. refuse_with ltac:(by right; right; left).
Qed.

Lemma render_bullet_last L bg t P bp :
  text_storable bp = true ->
  render_bullet (length L, 1%nat) (JStr bp)
    (prs_with_slides
       (L ++ [{| background := bg; shapes := [t; text_box P] |}]) p)
  = (Ok tt,
     prs_with_slides
       (L ++ [{| background := bg;
                 shapes := [t; text_box (P ++ [bullet_paragraph bp])] |}])
       p).
Proof.
  intros Hs. unfold render_bullet, text_box, text_sp. unfold_ops. exec.
  rewrite (append_text_storable bp [] Hs). exec.
  rewrite !alter_last. reflexivity.
Qed.

Lemma render_bullet_refused rt L bg t P bp :
  text_item bp = false ->
  refused rt
    (fst (render_bullet (length L, 1%nat) bp
            (prs_with_slides
               (L ++ [{| background := bg; shapes := [t; text_box P] |}])
               p))).
Proof.
  intros Hbp. unfold render_bullet, text_box, text_sp.
  destruct bp as [| | | |b| |]; try done;
    try (unfold_ops; exec; refuse_with ltac:(by right; left)).
  unfold text_item in Hbp. simpl in Hbp.
  destruct (append_text_unstorable b [] Hbp) as [t' Ht].
  unfold_ops. exec. rewrite Ht. exec. refuse_with ltac:(by right; right; left).
Qed.

Lemma render_bullets_loop L bg t bl : forall P,
  forallb text_storable bl = true ->
  for_each (map JStr bl) (render_bullet (length L, 1%nat))
    (prs_with_slides
       (L ++ [{| background := bg; shapes := [t; text_box P] |}]) p)
  = (Ok tt,
     prs_with_slides
       (L ++ [{| background := bg;
                 shapes := [t; text_box (P ++ map bullet_paragraph bl)] |}])
       p).
Proof.
  induction bl as [|bp bl IH]; intros P Hs; simpl.
  - by rewrite app_nil_r.
  - apply andb_prop in Hs as [Hbp Hs].
    unfold bind at 1. rewrite render_bullet_last by done.
    rewrite IH by done. by rewrite <- app_assoc.
Qed.

Lemma render_bullets_accepted L bg t d :
  bullets_assignable (JDict d) = true ->
  render_bullets (length L) (JDict d)
    (prs_with_slides (L ++ [{| background := bg; shapes := [t] |}]) p)
  = (Ok tt,
     prs_with_slides
       (L ++ [{| background := bg;
                 shapes :=
                   [t; bullets_box (record_bullet_texts (JDict d))] |}])
       p).
Proof.
  unfold bullets_assignable. intros Hb.
  unfold render_bullets, record_bullet_texts, field, py_get in *.
  assert (exists bl,
            py_iter (default (JList []) (assoc (py "bullet_points") d))
            = Returns (map JStr bl)
            /\ forallb text_storable bl = true
            /\ match assoc (py "bullet_points") d with
               | Some v => iterated_strings v
               | None => []
               end = bl) as (bl & Hiter & Hbl & <-).
  { unfold iterated_strings.
    destruct (assoc (py "bullet_points") d) as [v|];
      cbn [default from_option id]; [|by exists []].
    destruct (py_iter v) as [items|]; [|done].
    rewrite text_items_strings in Hb. apply andb_prop in Hb as [Hstr Hsto].
    eexists. split; [|done]. f_equal. by apply is_str_list. }
  unfold bind at 1. unfold add_textbox, append_shape. unfold_ops. exec.
  change (ShapeSp _) with (text_box [empty_paragraph]) at 1.
  rewrite Hiter. exec.
  unfold slide_with_shapes; cbn [background shapes].
  rewrite render_bullets_loop by done. reflexivity.
Qed.

Lemma render_bullets_refused rt L bg t d :
  bullets_assignable (JDict d) = false ->
  refused rt
    (fst (render_bullets (length L) (JDict d)
            (prs_with_slides (L ++ [{| background := bg; shapes := [t] |}])
               p))).
Proof.
  unfold bullets_assignable, field. intros Hv.
  destruct (assoc (py "bullet_points") d) as [v|] eqn:Hd; [|done].
  unfold render_bullets, py_get. rewrite Hd.
  cbn [default from_option id].
  unfold bind at 1. unfold add_textbox, append_shape. unfold_ops. exec.
  change (ShapeSp _) with (text_box [empty_paragraph]) at 1.
  destruct (py_iter v) as [items|e] eqn:Hiter.
  - destruct (first_bad_item items Hv)
      as (good & bad & rest & -> & Hgood & Hbad).
    exec. unfold slide_with_shapes; cbn [background shapes].
    rewrite for_each_app, render_bullets_loop by done. cbn [for_each].
    by apply bind_refused, render_bullet_refused.
  - destruct v; cbn [py_iter] in Hiter; try done; injection Hiter as <-;
      exec; refuse_with ltac:(by right; left).
Qed.

Lemma render_chart_last rt L bg t b d :
  chart_storable rt (JDict d) = true ->
  render_chart rt (length L) (JDict d)
    (prs_with_slides (L ++ [{| background := bg; shapes := [t; b] |}]) p)
  = (Ok tt,
     prs_with_slides
       (L ++ [{| background := bg;
                 shapes := [t; b] ++ chart_shapes rt (JDict d) |}]) p).
Proof.
  unfold chart_storable, render_chart, chart_shapes, chart_text, field,
    py_get, py_getitem.
  destruct (assoc (py "chart_type") d) as [v|]; [|reflexivity].
  unfold lift at 1. unfold bind at 1.
  cbn [default from_option id].
  destruct (truthy v); [|reflexivity].
  destruct (py_str rt v) as [ct|e] eqn:Hstr; [|done]. intros Hs.
  unfold chart_box, chart_sp, chart_label.
  assert (text_storable (py "[" ++ ct ++ py " chart placeholder]") = true)
    as Hlabel by (by rewrite !text_storable_app, Hs).
  destruct (split_on_nonempty LF (py "[" ++ ct ++ py " chart placeholder]"))
    as (l & ls & E).
  unfold_ops. exec. rewrite Hstr. exec.
  rewrite (add_lines_text _ Hlabel), E. exec. reflexivity.
Qed.

Lemma render_chart_refused rt L bg t b d :
  chart_storable rt (JDict d) = false ->
  refused rt
    (fst (render_chart rt (length L) (JDict d)
            (prs_with_slides
               (L ++ [{| background := bg; shapes := [t; b] |}]) p))).
Proof.
  unfold chart_storable, render_chart, field, py_get, py_getitem.
  destruct (assoc (py "chart_type") d) as [v|]; [|done].
  unfold lift at 1. unfold bind at 1.
  cbn [default from_option id].
  destruct (truthy v); [|done].
  destruct (py_str rt v) as [ct|e] eqn:Hstr.
  - intros Hs.
    assert (text_storable (py "[" ++ ct ++ py " chart placeholder]") = false)
      as Hlabel by (by rewrite !text_storable_app, Hs).
    destruct (add_lines_text_unstorable _ Hlabel) as [ps Hps].
    unfold_ops. exec. rewrite Hstr. exec. rewrite Hps. exec.
    refuse_with ltac:(by right; right; left).
  - intros _. unfold_ops. exec. rewrite Hstr. exec.
    refuse_with ltac:(right; right; right; by exists v).
Qed.

Lemma bullets_assignable_spec s :
  bullets_assignable s
  = match field s (py "bullet_points") with
    | None => true
    | Some v => strings_iterable v
    end && forallb text_storable (record_bullet_texts s).
Proof.
  unfold bullets_assignable, record_bullet_texts, strings_iterable,
    iterated_strings.
  destruct (field s (py "bullet_points")) as [v|]; [|reflexivity].
  destruct (py_iter v) as [items|]; [|reflexivity].
  apply text_items_strings.
Qed.

(** What makes a record build: each of the three parts of its slide. *)
Lemma record_builds_spec rt s :
  record_builds rt s
  = match s with
    | JDict d =>
      (str_or_absent (assoc (py "heading") d)
       && text_storable (record_heading s))
      && bullets_assignable s && chart_storable rt s
    | _ => false
    end.
Proof.
  unfold record_builds, record_accepted, record_storable.
  destruct s as [| | | | | |d]; try reflexivity.
  rewrite bullets_assignable_spec. cbn [field].
  destruct (str_or_absent (assoc (py "heading") d)),
    (text_storable (record_heading (JDict d))),
    (match assoc (py "bullet_points") d with
     | Some v => strings_iterable v
     | None => true
     end),
    (forallb text_storable (record_bullet_texts (JDict d)));
    reflexivity.
Qed.

Lemma render_slide_accepted rt L s :
  record_builds rt s = true ->
  render_slide rt blank_layout s (prs_with_slides L p)
  = (Ok tt, prs_with_slides (L ++ [accepted_slide rt s]) p).
Proof.
  rewrite record_builds_spec. destruct s as [| | | | | |d]; try done.
  intros [[[Hh Hs]%andb_prop Hb]%andb_prop Hc]%andb_prop.
  unfold render_slide.
  rewrite (bind_ok _ _ _ _ _ (add_slide_last _ _)).
  cbn [map layout_placeholders blank_layout].
  rewrite (bind_ok _ _ _ _ _ (render_background_last _ _)).
  rewrite (bind_ok _ _ _ _ _ (render_title_last _ _ _ Hh Hs)).
  rewrite (bind_ok _ _ _ _ _ (render_bullets_accepted _ _ _ _ Hb)).
  by rewrite render_chart_last.
Qed.

Lemma render_slide_refused rt L s :
  record_builds rt s = false ->
  refused rt (fst (render_slide rt blank_layout s (prs_with_slides L p))).
Proof.
  rewrite record_builds_spec. intros Hs. unfold render_slide.
  rewrite (bind_ok _ _ _ _ _ (add_slide_last _ _)).
  cbn [map layout_placeholders blank_layout].
  rewrite (bind_ok _ _ _ _ _ (render_background_last _ _)).
  destruct s as [| | | | | |d];
    try by apply bind_refused, render_title_refused.
  destruct (str_or_absent (assoc (py "heading") d)
            && text_storable (record_heading (JDict d))) eqn:Hh;
    [|by apply bind_refused, render_title_refused].
  apply andb_prop in Hh as [Hh Hhs].
  rewrite (bind_ok _ _ _ _ _ (render_title_last _ _ _ Hh Hhs)).
  destruct (bullets_assignable (JDict d)) eqn:Hb;
    [|by apply bind_refused, render_bullets_refused].
  rewrite (bind_ok _ _ _ _ _ (render_bullets_accepted _ _ _ _ Hb)).
  by apply render_chart_refused.
Qed.

Lemma render_slides_accepted rt l : forall L,
  forallb (record_builds rt) l = true ->
  for_each l (render_slide rt blank_layout) (prs_with_slides L p)
  = (Ok tt, prs_with_slides (L ++ map (accepted_slide rt) l) p).
Proof.
  induction l as [|s l IH]; intros L; simpl.
  - intros _. by rewrite app_nil_r.
  - intros [Hs Hl]%andb_prop.
    rewrite (bind_ok _ _ _ _ _ (render_slide_accepted rt L s Hs)).
    rewrite IH by done. by rewrite <- app_assoc.
Qed.

Lemma render_slides_refused rt l L :
  forallb (record_builds rt) l = false ->
  refused rt
    (fst (for_each l (render_slide rt blank_layout) (prs_with_slides L p))).
Proof.
  intros (good & bad & rest & -> & Hgood & Hbad)%first_bad_record.
  rewrite for_each_app, render_slides_accepted by done.
  cbn [for_each]. by apply bind_refused, render_slide_refused.
Qed.
End LastSlide.

Lemma render_title_slide_accepted d :
  str_or_absent (assoc (py "title") d) = true ->
  text_storable (deck_title (JDict d)) = true ->
  render_title_slide (JDict d) default_template
  = (Ok tt,
     prs_with_slides [rendered_title_slide (JDict d)] default_template).
Proof.
  intros Ht.
  unfold render_title_slide, rendered_title_slide, deck_title, field, py_get.
  assert (exists t,
            default (JStr (py "Untitled Presentation"))
              (assoc (py "title") d) = JStr t
            /\ match assoc (py "title") d with
               | Some v => str_value v
               | None => py "Untitled Presentation"
               end = t) as (t & -> & ->).
  { destruct (assoc (py "title") d) as [[]|]; try done; simpl; eauto. }
  intros Hs. unfold get_slide_layout, add_slide, title_of, placeholder_of.
  unfold_ops.
  cbn -[split_on add_lines line_text py].
  rewrite (add_lines_text t Hs).
  cbn -[split_on add_lines line_text py].
  rewrite (add_lines_text (py "Enhanced by GPT-4") eq_refl).
  reflexivity.
Qed.

Lemma render_title_slide_refused rt content :
  match content with
  | JDict d =>
    str_or_absent (assoc (py "title") d)
    && text_storable (deck_title content) = false
  | _ => True
  end ->
  refused rt (fst (render_title_slide content default_template)).
Proof.
  intros Hc. unfold render_title_slide, py_get.
  destruct content as [| | | | | |d]; try refuse_with ltac:(by left).
  unfold deck_title, field in Hc.
  destruct (assoc (py "title") d) as [[| | | |t| |]|]; try done;
    try refuse_with ltac:(by left).
  simpl in Hc. destruct (add_lines_text_unstorable t Hc) as [ps Hps].
  unfold get_slide_layout, add_slide, title_of, placeholder_of.
  unfold_ops. cbn -[split_on add_lines line_text py]. rewrite Hps.
  refuse_with ltac:(by right; right; left).
Qed.

Lemma deck_builds_spec rt content :
  deck_builds rt content
  = match content with
    | JDict d =>
      (str_or_absent (assoc (py "title") d)
       && text_storable (deck_title content))
      && match assoc (py "slides") d with
         | None => true
         | Some v => match py_iter v with
                     | Returns items => forallb (record_builds rt) items
                     | Raises _ => false
                     end
         end
    | _ => false
    end.
Proof.
  unfold deck_builds, deck_accepted, deck_storable, deck_records.
  destruct content as [| | | | | |d]; try reflexivity. cbn [field].
  assert (forall items,
            forallb (record_builds rt) items
            = forallb record_accepted items
              && forallb (record_storable rt) items) as Hall.
  { induction items as [|s items IH]; [reflexivity|]. simpl. rewrite IH.
    unfold record_builds.
    by destruct (record_accepted s), (record_storable rt s),
      (forallb record_accepted items). }
  destruct (str_or_absent (assoc (py "title") d)),
    (text_storable (deck_title (JDict d)));
    destruct (assoc (py "slides") d) as [v|]; try reflexivity;
    destruct (py_iter v) as [items|]; rewrite ?Hall; try reflexivity;
    by destruct (forallb record_accepted items).
Qed.

Lemma forallb_lookup {A} (f : A -> bool) (l : list A) i x :
  forallb f l = true -> l !! i = Some x -> f x = true.
Proof.
  revert i. induction l as [|y l IH]; intros i; [done|]. simpl.
  intros [Hy Hl]%andb_prop. destruct i as [|i]; simpl.
  - by intros [= <-].
  - by apply IH.
Qed.

(** Every record of a deck that builds builds. *)
Lemma deck_builds_record rt content i s :
  deck_builds rt content = true ->
  deck_records content !! i = Some s ->
  record_builds rt s = true.
Proof.
  rewrite deck_builds_spec. destruct content as [| | | | | |d]; try done.
  intros [_ Hc]%andb_prop. unfold deck_records, field.
  destruct (assoc (py "slides") d) as [v|]; [|done].
  destruct (py_iter v) as [items|]; [|done].
  by apply forallb_lookup.
Qed.

Lemma build_deck_accepted rt content :
  deck_builds rt content = true ->
  build_deck rt content default_template = (Ok tt, accepted_deck rt content).
Proof.
  rewrite deck_builds_spec. destruct content as [| | | | | |d]; try done.
  intros [[Ht Hts]%andb_prop Hs]%andb_prop.
  unfold build_deck, accepted_deck, deck_records, field.
  rewrite (bind_ok (get_slide_layout 6) _ default_template _ _ eq_refl).
  rewrite (bind_ok _ _ _ _ _ (render_title_slide_accepted d Ht Hts)).
  unfold py_get.
  destruct (assoc (py "slides") d) as [v|]; cbn [default from_option id];
    [|reflexivity].
  rewrite bind_lift_ok. destruct (py_iter v) as [items|]; [|done].
  rewrite bind_lift_ok.
  by rewrite (render_slides_accepted default_template rt _ [_] Hs).
Qed.

Lemma build_deck_refused rt content :
  deck_builds rt content = false ->
  refused rt (fst (build_deck rt content default_template)).
Proof.
  rewrite deck_builds_spec. intros Hc. unfold build_deck.
  rewrite (bind_ok (get_slide_layout 6) _ default_template _ _ eq_refl).
  destruct content as [| | | | | |d];
    try by apply bind_refused, render_title_slide_refused.
  destruct (str_or_absent (assoc (py "title") d)
            && text_storable (deck_title (JDict d))) eqn:Ht;
    [|by apply bind_refused, render_title_slide_refused].
  apply andb_prop in Ht as [Ht Hts].
  rewrite (bind_ok _ _ _ _ _ (render_title_slide_accepted d Ht Hts)).
  unfold py_get. cbn [andb] in Hc.
  destruct (assoc (py "slides") d) as [v|]; [|done].
  cbn [default from_option id]. rewrite bind_lift_ok.
  destruct (py_iter v) as [items|e] eqn:Hiter.
  - rewrite bind_lift_ok.
    apply (render_slides_refused default_template rt items [_] Hc).
  - exists e. split; [reflexivity|]. right. left.
    destruct v; cbn [py_iter] in Hiter; try done; by injection Hiter as <-.
Qed.

Lemma json_to_ppt_accepted rt content path fs :
  deck_builds rt content = true ->
  fs_writable fs path = true ->
  json_to_ppt rt content path fs
  = (Ok path, write_file path (PptxData (accepted_deck rt content)) fs).
Proof.
  intros Hc Hw. unfold json_to_ppt, with_local, bind at 1.
  rewrite build_deck_accepted by done.
  unfold save, bind, get_state, modify, ret. by rewrite Hw.
Qed.

Lemma json_to_ppt_unwritable rt content path fs :
  deck_builds rt content = true ->
  fs_writable fs path = false ->
  json_to_ppt rt content path fs = (Raise OSError, fs).
Proof.
  intros Hc Hw. unfold json_to_ppt, with_local, bind at 1.
  rewrite build_deck_accepted by done.
  unfold save, bind, get_state, raise. by rewrite Hw.
Qed.

Lemma json_to_ppt_refused rt content path fs :
  deck_builds rt content = false ->
  exists e, json_to_ppt rt content path fs = (Raise e, fs) /\ refusal rt e.
Proof.
  intros Hc. unfold json_to_ppt, with_local, bind at 1.
  destruct (build_deck_refused rt content Hc) as (e & H & He).
  destruct (build_deck rt content default_template) as [o prs].
  simpl in H. subst o. by exists e.
Qed.

(** A deck that was saved is the one made of an input that builds. *)
Lemma json_to_ppt_ok_inv rt content path fs out fs' :
  json_to_ppt rt content path fs = (Ok out, fs') ->
  deck_builds rt content = true
  /\ fs_writable fs path = true
  /\ out = path
  /\ fs' = write_file path (PptxData (accepted_deck rt content)) fs.
Proof.
  intros Hrun.
  destruct (deck_builds rt content) eqn:Hc.
  - destruct (fs_writable fs path) eqn:Hw.
    + rewrite json_to_ppt_accepted in Hrun by done. by simplify_eq.
    + rewrite json_to_ppt_unwritable in Hrun by done. done.
  - destruct (json_to_ppt_refused rt content path fs Hc) as (e & H & _).
    rewrite H in Hrun. done.
Qed.

Lemma record_shaped_accepted s :
  record_shaped s = true ->
  record_accepted s = true /\ record_bullet_texts s = record_bullet_points s.
Proof.
  destruct s as [| | | | | |d]; try done.
  unfold record_shaped, record_accepted, record_bullet_texts,
    record_bullet_points, field.
  intros [-> Hb]%andb_prop.
  destruct (assoc (py "bullet_points") d) as [[]|]; done.
Qed.

Lemma records_shaped_accepted l :
  forallb record_shaped l = true -> forallb record_accepted l = true.
Proof.
  induction l as [|s l IH]; [done|]. simpl.
  intros [[Hs _]%record_shaped_accepted Hl%IH]%andb_prop.
  by rewrite Hs, Hl.
Qed.

(** Every deck-shaped value is accepted, and its records are the items of
    [slides]. The converse fails: the bullet points of an accepted record
    may be a string or a dict. *)
Lemma deck_shaped_accepted content :
  deck_shaped content = true ->
  deck_accepted content = true
  /\ deck_records content = deck_slides content
  /\ forallb record_shaped (deck_slides content) = true.
Proof.
  destruct content as [| | | | | |d]; try done.
  unfold deck_shaped, deck_accepted, deck_records, deck_slides, field.
  intros [-> Hs]%andb_prop.
  destruct (assoc (py "slides") d) as [[]|]; try done.
  cbn [py_iter andb]. by rewrite records_shaped_accepted.
Qed.

Lemma accepted_deck_lookup rt content i :
  slides (accepted_deck rt content) !! S i
  = accepted_slide rt <$> deck_records content !! i.
Proof.
  unfold accepted_deck. cbn [slides prs_with_slides].
  by rewrite <- list_lookup_fmap.
Qed.

Lemma accepted_deck_length rt content :
  length (slides (accepted_deck rt content))
  = S (length (deck_records content)).
Proof.
  unfold accepted_deck. cbn [slides prs_with_slides length].
  by rewrite length_map.
Qed.

Lemma accepted_deck_slide rt content i slide :
  slides (accepted_deck rt content) !! S i = Some slide ->
  exists s, deck_records content !! i = Some s /\ slide = accepted_slide rt s.
Proof.
  rewrite accepted_deck_lookup.
  destruct (deck_records content !! i) as [s|]; [|done].
  intros [= <-]. eauto.
Qed.

Lemma first_formatted_lookup f lines :
  (forall para,
     first_formatted f lines !! 0%nat = Some para ->
     p_font para = f /\ p_level para = 0)
  /\ forall k para,
       first_formatted f lines !! S k = Some para ->
       p_font para = default_font /\ p_level para = 0.
Proof.
  destruct lines as [|l ls]; [done|].
  split; [by intros para [= <-]|]. intros k para.
  change (first_formatted f (l :: ls) !! S k)
    with ((paragraph_of_line <$> ls) !! k).
  rewrite list_lookup_fmap. destruct (ls !! k); [|done]. by intros [= <-].
Qed.

Lemma accepted_slide_shapes rt s k sh :
  shapes (accepted_slide rt s) !! k = Some sh ->
  (k = 0%nat /\ sh = title_box (record_heading s))
  \/ (k = 1%nat /\ sh = bullets_box (record_bullet_texts s))
  \/ (k = 2%nat /\ exists v t, field s (py "chart_type") = Some v
                              /\ truthy v = true
                              /\ py_str rt v = Returns t
                              /\ sh = chart_box t).
Proof.
  unfold accepted_slide, chart_shapes. cbn [shapes].
  destruct k as [|[|k]]; cbn [lookup list_lookup app].
  - intros [= <-]. by left.
  - intros [= <-]. right. by left.
  - intros Hk. right. right.
    destruct (chart_text_cases rt s) as [(v & t & Hf & Hv & Hstr & E)|[_ E]];
      rewrite E in *; [|done].
    destruct k; [|done]. injection Hk as <-. split; [done|]. by exists v, t.
Qed.

Lemma title_box_not_chart h sp :
  title_box h = ShapeSp sp -> ~ is_chart_placeholder sp.
Proof. unfold title_box. by intros [= <-] [? _]. Qed.

Lemma text_box_not_chart paras sp :
  text_box paras = ShapeSp sp -> ~ is_chart_placeholder sp.
Proof. unfold text_box. by intros [= <-] [? _]. Qed.

Lemma chart_box_is_chart ct sp :
  chart_box ct = ShapeSp sp ->
  is_chart_placeholder sp /\ sp_text sp = frame_text (chart_label ct).
Proof.
  unfold chart_box. intros [= <-]. split; [by split|].
  unfold sp_text, chart_sp. cbn [text_frame]. apply text_first_formatted.
Qed.

Lemma chart_box_lower_right rt content ct sp :
  chart_box ct = ShapeSp sp -> in_lower_right (accepted_deck rt content) sp.
Proof. unfold chart_box. intros [= <-]. by repeat split. Qed.

(** ** Builder: what holds for every input *)

Lemma safe_alter_slide sl f :
  (forall s, sp_shapes s -> sp_shapes (f s)) -> safe sp_only (alter_slide sl f).
Proof.
  intros Hf. apply safe_modify. intros prs Hprs. unfold sp_only in *.
  cbn [slides prs_with_slides]. apply Forall_alter; [done|].
  intros x _ Hx. by apply Hf.
Qed.

Lemma safe_background_fill sl f :
  safe sp_only (alter_slide sl (slide_with_background f)).
Proof. apply safe_alter_slide. by intros s Hs. Qed.

Lemma safe_read_slide sl : safe sp_only (read_slide sl).
Proof.
  unfold read_slide. apply safe_bind; [apply safe_get_state|]. intros prs.
  destruct (slides prs !! sl); [apply safe_ret|apply safe_raise].
Qed.

Lemma safe_read_sp sh : safe sp_only (read_sp sh).
Proof.
  unfold read_sp. apply safe_bind; [apply safe_read_slide|]. intros sl.
  destruct (shapes sl !! sh.2) as [[]|];
    first [apply safe_ret|apply safe_raise].
Qed.

Lemma safe_alter_sp sh f : safe sp_only (alter_sp sh f).
Proof.
  unfold alter_sp. apply safe_alter_slide. intros s Hs.
  unfold sp_shapes in *. cbn [shapes slide_with_shapes].
  apply Forall_alter; [done|]. intros x _ Hx. by destruct x.
Qed.

Lemma safe_append_shape sl kind l t w h :
  safe sp_only (append_shape sl (new_sp kind l t w h)).
Proof.
  unfold append_shape. apply safe_bind; [apply safe_read_slide|]. intros s.
  apply safe_bind; [|intros; apply safe_ret].
  apply safe_alter_slide. intros s' Hs'. unfold sp_shapes in *.
  cbn [shapes slide_with_shapes]. apply Forall_app. split; [done|].
  by repeat constructor.
Qed.

Lemma safe_add_slide layout : safe sp_only (add_slide layout).
Proof.
  intros prs Hprs. split; [done|].
  unfold sp_only in *. cbn. apply Forall_app. split; [done|].
  constructor; [|done]. unfold sp_shapes. cbn.
  induction (layout_placeholders layout); by constructor.
Qed.

Ltac safe_step :=
  first
    [ apply safe_ret | apply safe_raise | apply safe_lift
    | apply safe_get_state | apply safe_read_slide | apply safe_read_sp
    | apply safe_alter_sp | apply safe_append_shape | apply safe_add_slide
    | apply safe_background_fill
    | apply safe_for_each; intros ?
    | apply safe_bind; [|intros ?]
    | match goal with
      | |- safe _ (match ?x with _ => _ end) => destruct x
      | |- safe _ (if ?x then _ else _) => destruct x
      | |- safe _ (let _ := _ in _) => cbv zeta
      end ].

Ltac safe_ops :=
  unfold render_title_slide, render_slide, render_background, render_title,
    render_bullets, render_bullet, render_chart, get_slide_layout,
    title_of, placeholder_of, add_shape, add_textbox, fill_solid,
    fill_set_fore_color_rgb, read_fill, write_fill, set_text, paragraph_at,
    set_font_size, set_font_color_rgb, set_font_bold, alter_font,
    set_word_wrap, add_paragraph, set_paragraph_text, set_level,
    alter_paragraph, alter_text_frame;
  repeat safe_step.

(** Whatever the input, the Builder never stops the script and only ever
    puts [p:sp] shapes on its slides. *)
Lemma safe_build_deck rt content : safe sp_only (build_deck rt content).
Proof. unfold build_deck. safe_ops. Qed.

Lemma sp_only_default_template : sp_only default_template.
Proof. constructor. Qed.

Lemma json_to_ppt_never_stops rt content path :
  safe (fun _ => True) (json_to_ppt rt content path).
Proof.
  unfold json_to_ppt. apply safe_bind.
  - eapply safe_with_local;
      [apply safe_build_deck|apply sp_only_default_template].
  - intros prs. unfold save. repeat safe_step.
Qed.

Lemma json_to_ppt_sp_only rt content path fs p fs' :
  json_to_ppt rt content path fs = (Ok p, fs') ->
  exists prs, fs' = write_file path (PptxData prs) fs /\ sp_only prs.
Proof.
  unfold json_to_ppt, with_local, bind at 1.
  destruct (safe_build_deck rt content default_template
              sp_only_default_template) as [_ Hsp].
  destruct (build_deck rt content default_template) as [[[]|e|] prs];
    simpl in *; try done.
  unfold save, bind, get_state, modify, ret, raise.
  destruct (fs_writable fs path); [|done].
  intros [= <- <-]. eauto.
Qed.

(** What is not deck-shaped makes the Builder raise before any file is
    written: a reply that is a list, a deck whose [slides] is [null], a
    title that is a number, a bullet point that is a number. So does a
    text that cannot be stored, here a heading that holds U+FFFF. *)
Example builder_rejects_list :
  json_to_ppt sample_runtime (JList []) (py "out.pptx") sample_fs
  = (Raise AttributeError, sample_fs).
Proof. reflexivity. Qed.

Example builder_rejects_null_slides :
  json_to_ppt sample_runtime (JDict [(py "slides", JNull)]) (py "out.pptx")
    sample_fs
  = (Raise TypeError, sample_fs).
Proof. reflexivity. Qed.

Example builder_rejects_number_title :
  json_to_ppt sample_runtime (JDict [(py "title", JInt 2024)])
    (py "out.pptx") sample_fs
  = (Raise AttributeError, sample_fs).
Proof. reflexivity. Qed.

Example builder_rejects_number_bullet :
  json_to_ppt sample_runtime
    (JDict [(py "slides",
             JList [JDict [(py "bullet_points", JList [JInt 1])]])])
    (py "out.pptx") sample_fs
  = (Raise TypeError, sample_fs).
Proof. reflexivity. Qed.

Example builder_rejects_noncharacter :
  json_to_ppt sample_runtime
    (JDict [(py "slides", JList [JDict [(py "heading", JStr [65535%N])]])])
    (py "out.pptx") sample_fs
  = (Raise ValueError, sample_fs).
Proof. reflexivity. Qed.

(** A path that cannot be written makes saving fail. *)
Example builder_cannot_save :
  json_to_ppt sample_runtime example_deck (py "out.pptx")
    {| fs_files := []; fs_writable := fun _ => false |}
  = (Raise OSError, {| fs_files := []; fs_writable := fun _ => false |}).
Proof. reflexivity. Qed.

Lemma user_prompt_embeds_example rt topic extracted n style :
  exists pre post,
    user_prompt rt topic extracted n style
    = pre ++ join [LF] example_json_lines ++ post.
Proof.
  unfold user_prompt.
  rewrite join_app by done. rewrite (join_app _ example_json_lines) by done.
  eexists _, _. rewrite <- app_assoc. reflexivity.
Qed.

(** ** Builder: the stated properties *)

(** A text is read back as it was assigned exactly when it holds no
    control character that is written as an escape. *)
Lemma frame_text_length s :
  (length s <= length (frame_text s))%nat
  /\ (length (frame_text s) = length s -> printable s = true).
Proof.
  induction s as [|c s [IHle IHeq]]; [done|].
  cbn [frame_text flat_map printable forallb]. fold (frame_text s).
  fold (printable s). rewrite length_app. unfold escape_ctrl_char.
  destruct (break_char c); cbn [length orb];
    [split; [lia|]; intros; apply IHeq; lia|].
  destruct (is_ctrl_char c); cbn [length negb orb andb app].
  - rewrite !length_app. cbn [length]. split; [lia|]. intros. lia.
  - split; [lia|]. intros. apply IHeq. lia.
Qed.

Lemma frame_text_fixed s : frame_text s = s <-> printable s = true.
Proof.
  split; [|apply frame_text_printable].
  intros E. apply frame_text_length. by rewrite E.
Qed.

(** A deck-shaped object whose texts can be stored builds, and its records
    are the items of [slides]. *)
Lemma deck_shaped_builds rt content :
  deck_shaped content = true ->
  deck_storable rt content = true ->
  deck_builds rt content = true
  /\ deck_records content = deck_slides content.
Proof.
  intros (Ha & Hr & _)%deck_shaped_accepted Hs.
  unfold deck_builds. by rewrite Ha, Hs.
Qed.

(** C1, as amended. For a deck-shaped object whose texts can be stored the
    saved presentation has one slide more than the deck has records: a
    title slide, then one slide per record in record order, whose first
    shape is the dark-blue rounded rectangle. Its text is the record's
    heading (the empty string without heading) with every control
    character written as an escape: the heading itself exactly when it
    holds none. *)
Theorem builder_slide_count_and_headings rt content path fs :
  deck_shaped content = true ->
  deck_storable rt content = true ->
  fs_writable fs path = true ->
  exists prs,
    json_to_ppt rt content path fs
    = (Ok path, write_file path (PptxData prs) fs)
    /\ length (slides prs) = (1 + length (deck_slides content))%nat
    /\ (exists ts, slides prs !! 0%nat = Some ts
                   /\ is_Some (shapes_title (shapes ts)))
    /\ forall i s, deck_slides content !! i = Some s ->
         exists slide sp,
           slides prs !! S i = Some slide
           /\ shapes_title (shapes slide) = None
           /\ shapes slide !! 0%nat = Some (ShapeSp sp)
           /\ sp_kind sp = AutoShape ROUNDED_RECTANGLE
           /\ sp_fill sp = FillSolid (Some (RGBColor 0 102 204))
           /\ sp_text sp
              = frame_text (default [] (str_value <$> field s (py "heading")))
           /\ (sp_text sp = default [] (str_value <$> field s (py "heading"))
               <-> printable
                     (default [] (str_value <$> field s (py "heading")))
                   = true).
Proof.
  intros Hc Hst Hw.
  destruct (deck_shaped_builds rt content Hc Hst) as [Hb Hr].
  exists (accepted_deck rt content).
  split; [by apply json_to_ppt_accepted|].
  split; [by rewrite accepted_deck_length, Hr|].
  split; [eexists; split; [reflexivity|]; by eexists|].
  intros i s Hs. rewrite accepted_deck_lookup, Hr, Hs.
  cbn [fmap option_fmap option_map].
  eexists _, _. split; [reflexivity|].
  cbn [accepted_slide shapes app lookup list_lookup title_box].
  split; [unfold chart_shapes; by destruct (chart_text rt s)|].
  split; [reflexivity|]. split; [reflexivity|]. split; [reflexivity|].
  assert (sp_text (title_sp (record_heading s))
          = frame_text (default [] (str_value <$> field s (py "heading"))))
    as E.
  { unfold sp_text, title_sp. cbn [text_frame]. rewrite text_first_formatted.
    unfold record_heading. by destruct (field s (py "heading")). }
  split; [exact E|]. rewrite E. apply frame_text_fixed.
Qed.

(** C6. The example shown to the model, fed to the Builder, gives a
    presentation of two slides: one more than the example has records.
    The text of the example is part of every instruction sent. *)
Theorem example_deck_builds rt path fs :
  fs_writable fs path = true ->
  exists prs,
    json_to_ppt rt example_deck path fs
    = (Ok path, write_file path (PptxData prs) fs)
    /\ length (deck_slides example_deck) = 1%nat
    /\ length (slides prs) = (1 + length (deck_slides example_deck))%nat
    /\ length (slides prs) = 2%nat
    /\ forall topic extracted n style,
         exists pre post,
           user_prompt rt topic extracted n style
           = pre ++ join [LF] example_json_lines ++ post.
Proof.
  intros Hw. exists (accepted_deck rt example_deck).
  split; [by apply json_to_ppt_accepted|].
  split; [reflexivity|]. split; [reflexivity|]. split; [reflexivity|].
  intros. apply user_prompt_embeds_example.
Qed.

(** C7, as amended. Whatever the input, a saved presentation holds no
    graphic frame, hence no chart. For an input of which the Builder makes
    a deck, the slide of a record has a gray rectangle exactly when the
    record has a [chart_type] that is not empty (a value Python takes for
    true; for a string: not the empty string); the rectangle lies in the
    lower-right quarter and reads "[<chart_type> chart placeholder]", the
    value formatted as an f-string does, a string as itself, with every
    control character written as an escape: that very text exactly when
    the formatted value holds none. *)
Theorem chart_placeholder_iff_chart_type rt content path fs :
  (forall p fs',
     json_to_ppt rt content path fs = (Ok p, fs') ->
     exists prs, fs' = write_file path (PptxData prs) fs /\ sp_only prs)
  /\ (forall ct, truthy (JStr ct) = true <-> ct <> [])
  /\ (forall ct, py_str rt (JStr ct) = Returns ct)
  /\ (deck_builds rt content = true ->
      fs_writable fs path = true ->
      exists prs,
        json_to_ppt rt content path fs
        = (Ok path, write_file path (PptxData prs) fs)
        /\ forall i s, deck_records content !! i = Some s ->
             exists slide,
               slides prs !! S i = Some slide
               /\ ((exists v, field s (py "chart_type") = Some v
                              /\ truthy v = true)
                   <-> (exists k sp, shapes slide !! k = Some (ShapeSp sp)
                                     /\ is_chart_placeholder sp))
               /\ forall k sp,
                    shapes slide !! k = Some (ShapeSp sp) ->
                    is_chart_placeholder sp ->
                    in_lower_right prs sp
                    /\ exists v t,
                         field s (py "chart_type") = Some v
                         /\ py_str rt v = Returns t
                         /\ sp_text sp
                            = frame_text
                                (py "[" ++ t ++ py " chart placeholder]")
                         /\ (sp_text sp
                             = py "[" ++ t ++ py " chart placeholder]"
                             <-> printable t = true)).
Proof.
  split; [intros p fs'; apply json_to_ppt_sp_only|].
  split; [apply truthy_str|]. split; [reflexivity|].
  intros Hc Hw. exists (accepted_deck rt content).
  split; [by apply json_to_ppt_accepted|].
  intros i s Hs. exists (accepted_slide rt s).
  split; [by rewrite accepted_deck_lookup, Hs|].
  assert (forall k sp,
            shapes (accepted_slide rt s) !! k = Some (ShapeSp sp) ->
            is_chart_placeholder sp ->
            exists v t, field s (py "chart_type") = Some v
                        /\ truthy v = true
                        /\ py_str rt v = Returns t
                        /\ chart_box t = ShapeSp sp) as Hinv.
  { intros k sp Hk Hsp.
    destruct (accepted_slide_shapes rt s k _ Hk)
      as [[_ E]|[[_ E]|[_ (v & t & Hf & Hv & Hstr & E)]]].
    - by destruct (title_box_not_chart _ _ (eq_sym E)).
    - by destruct (text_box_not_chart _ _ (eq_sym E)).
    - by exists v, t. }
  pose proof (deck_builds_record rt content i s Hc Hs) as Hrec.
  split; [split|].
  - intros (v & Hf & Hv).
    destruct (chart_text_cases rt s)
      as [(v' & t & Hf' & _ & _ & E)|[Hnone _]].
    + exists 2%nat. unfold accepted_slide, chart_shapes. cbn [shapes].
      rewrite E. eexists. split; [reflexivity|]. by split.
    + destruct (Hnone v Hf) as [?|[e He]]; [congruence|].
      rewrite record_builds_spec in Hrec.
      destruct s as [| | | | | |d]; try done.
      apply andb_prop in Hrec as [_ Hrec]. unfold chart_storable in Hrec.
      by rewrite Hf, Hv, He in Hrec.
  - intros (k & sp & Hk & Hsp).
    destruct (Hinv k sp Hk Hsp) as (v & t & Hf & Hv & _). eauto.
  - intros k sp Hk Hsp.
    destruct (Hinv k sp Hk Hsp) as (v & t & Hf & Hv & Hstr & E).
    split; [by apply (chart_box_lower_right rt content t)|].
    exists v, t. split; [done|]. split; [done|].
    apply chart_box_is_chart in E as [_ E]. split; [exact E|].
    rewrite E. unfold chart_label. rewrite frame_text_fixed.
    unfold printable. rewrite !forallb_app. cbn [py forallb].
    change (forallb _ (py "[")) with true.
    change (forallb _ (py " chart placeholder]")) with true.
    by rewrite andb_true_r.
Qed.

(** C8, as amended. For an input of which the Builder makes a deck, the
    title of the title slide reads as the deck's [title], or "Untitled
    Presentation" without one, with every control character written as
    an escape (the title itself exactly when it holds none), and the
    subtitle placeholder reads "Enhanced by GPT-4". A missing field does
    not make the Builder fail: an object without [title] and [slides]
    builds, and so does the slide of a record without [heading],
    [bullet_points] and [chart_type]. Without [slides] there is only the
    title slide; without [heading] the title box is empty; without
    [bullet_points] the text box has its initial paragraph only. *)
Theorem title_slide_and_fallbacks rt content path fs :
  (forall d,
     assoc (py "title") d = None -> assoc (py "slides") d = None ->
     deck_builds rt (JDict d) = true)
  /\ (forall d,
        assoc (py "heading") d = None ->
        assoc (py "bullet_points") d = None ->
        assoc (py "chart_type") d = None ->
        record_builds rt (JDict d) = true)
  /\ (deck_builds rt content = true ->
      fs_writable fs path = true ->
      exists prs ts title subtitle,
        json_to_ppt rt content path fs
        = (Ok path, write_file path (PptxData prs) fs)
        /\ slides prs !! 0%nat = Some ts
        /\ shapes_title (shapes ts) = Some (0%nat, title)
        /\ sp_text title
           = frame_text
               (default (py "Untitled Presentation")
                  (str_value <$> field content (py "title")))
        /\ (sp_text title
            = default (py "Untitled Presentation")
                (str_value <$> field content (py "title"))
            <-> printable
                  (default (py "Untitled Presentation")
                     (str_value <$> field content (py "title")))
                = true)
        /\ find_placeholder 1 (shapes ts) 0 = Some (1%nat, subtitle)
        /\ sp_text subtitle = py "Enhanced by GPT-4"
        /\ (field content (py "slides") = None ->
            length (slides prs) = 1%nat)
        /\ forall i s, deck_records content !! i = Some s ->
             exists slide,
               slides prs !! S i = Some slide
               /\ (field s (py "heading") = None ->
                   exists sp, shapes slide !! 0%nat = Some (ShapeSp sp)
                              /\ sp_text sp = [])
               /\ (field s (py "bullet_points") = None ->
                   exists sp, shapes slide !! 1%nat = Some (ShapeSp sp)
                              /\ paragraphs (text_frame sp)
                                 = [empty_paragraph])).
Proof.
  split.
  { intros d Ht Hs. rewrite deck_builds_spec. unfold deck_title, field.
    by rewrite Ht, Hs. }
  split.
  { intros d Hh Hb Hc. rewrite record_builds_spec.
    unfold record_heading, bullets_assignable, chart_storable, field.
    by rewrite Hh, Hb, Hc. }
  intros Hc Hw.
  exists (accepted_deck rt content), (rendered_title_slide content),
    (placeholder_sp 0 (deck_title content)),
    (placeholder_sp 1 (py "Enhanced by GPT-4")).
  split; [by apply json_to_ppt_accepted|].
  split; [reflexivity|]. split; [reflexivity|].
  assert (sp_text (placeholder_sp 0 (deck_title content))
          = frame_text
              (default (py "Untitled Presentation")
                 (str_value <$> field content (py "title")))) as E.
  { unfold sp_text, placeholder_sp. cbn [text_frame]. rewrite text_lines.
    unfold deck_title.
    destruct (field content (py "title"));
      cbn [fmap option_fmap option_map default from_option id];
      reflexivity. }
  split; [exact E|].
  split; [rewrite E; apply frame_text_fixed|].
  split; [reflexivity|].
  split; [unfold sp_text, placeholder_sp; cbn [text_frame]; apply text_lines|].
  split.
  { intros Hs. rewrite accepted_deck_length. unfold deck_records.
    by rewrite Hs. }
  intros i s Hs. exists (accepted_slide rt s).
  split; [by rewrite accepted_deck_lookup, Hs|].
  split.
  - intros Hh. exists (title_sp (record_heading s)). split; [reflexivity|].
    unfold sp_text, title_sp. cbn [text_frame]. rewrite text_first_formatted.
    unfold record_heading. by rewrite Hh.
  - intros Hb. eexists. split; [reflexivity|].
    unfold text_sp. cbn [text_frame paragraphs].
    unfold record_bullet_texts. by rewrite Hb.
Qed.

(** C10. Whenever the Builder returns, the second shape of the slide of
    every record is the text box; its paragraphs are an empty paragraph
    followed by one paragraph per bullet point, in order: one more
    paragraph than there are bullet points, the first of them blank. The
    paragraph of a bullet point holds its text with a line break for
    every line feed and vertical tab and an escape for every other
    control character. The Builder does return for every input that
    builds, given a path it can write. *)
Theorem bullet_box_paragraphs rt content path fs :
  (deck_builds rt content = true ->
   fs_writable fs path = true ->
   json_to_ppt rt content path fs
   = (Ok path, write_file path (PptxData (accepted_deck rt content)) fs))
  /\ forall out fs',
       json_to_ppt rt content path fs = (Ok out, fs') ->
       exists prs,
         fs' = write_file path (PptxData prs) fs
         /\ length (slides prs) = S (length (deck_records content))
         /\ forall i s, deck_records content !! i = Some s ->
              exists slide box,
                slides prs !! S i = Some slide
                /\ shapes slide !! 1%nat = Some (ShapeSp box)
                /\ sp_kind box = TextBox
                /\ paragraphs (text_frame box)
                   = empty_paragraph
                     :: map bullet_paragraph (record_bullet_texts s)
                /\ length (paragraphs (text_frame box))
                   = (length (record_bullet_texts s) + 1)%nat
                /\ p_text <$> paragraphs (text_frame box) !! 0%nat
                   = Some []
                /\ forall k,
                     p_text <$> paragraphs (text_frame box) !! S k
                     = line_text <$> record_bullet_texts s !! k.
Proof.
  split; [apply json_to_ppt_accepted|].
  intros out fs' (_ & _ & _ & ->)%json_to_ppt_ok_inv.
  exists (accepted_deck rt content). split; [reflexivity|].
  split; [apply accepted_deck_length|].
  intros i s Hs.
  exists (accepted_slide rt s),
    (text_sp (empty_paragraph :: map bullet_paragraph (record_bullet_texts s))).
  split; [by rewrite accepted_deck_lookup, Hs|].
  split; [reflexivity|]. split; [reflexivity|]. split; [reflexivity|].
  cbn [text_sp text_frame paragraphs].
  split; [cbn [length]; rewrite length_map; lia|].
  split; [reflexivity|].
  intros k.
  change (p_text <$> (bullet_paragraph <$> record_bullet_texts s) !! k
          = line_text <$> record_bullet_texts s !! k).
  rewrite list_lookup_fmap.
  by destruct (record_bullet_texts s !! k).
Qed.

(** ** The script *)

Lemma main_denied env fs k :
  secrets_access_key env = Some k ->
  lookup_key (py "key") (query_params env) <> Some k ->
  main env (start fs)
  = (Stop, {| trace := [StError access_denied_message]; files := fs |}).
Proof.
  intros Hk Hne. unfold main. rewrite Hk. cbn [secret]. rewrite bind_ret.
  rewrite bool_decide_eq_false_2 by done. reflexivity.
Qed.

(** The script once the guard has let the request through. *)
Lemma main_granted env fs k :
  secrets_access_key env = Some k ->
  lookup_key (py "key") (query_params env) = Some k ->
  main env (start fs) = page env (start fs).
Proof.
  intros Hk He. unfold main. rewrite Hk, He. cbn [secret]. rewrite bind_ret.
  rewrite bool_decide_eq_true_2 by done. reflexivity.
Qed.

Lemma main_missing_upload env fs k api :
  secrets_access_key env = Some k ->
  lookup_key (py "key") (query_params env) = Some k ->
  secrets_openai_api_key env = Some api ->
  form_submitted env = true ->
  form_ppt_file env = None ->
  main env (start fs)
  = (Ok tt, {| trace := page_header ++ [StError missing_upload_message];
               files := fs |}).
Proof.
  intros Hk He Ha Hs Hf. rewrite (main_granted env fs k Hk He).
  unfold page, on_submit. rewrite Ha, Hs, Hf. reflexivity.
Qed.

Lemma main_extracted env fs k api f prs :
  secrets_access_key env = Some k ->
  lookup_key (py "key") (query_params env) = Some k ->
  secrets_openai_api_key env = Some api ->
  form_submitted env = true ->
  form_ppt_file env = Some f ->
  upload_parsed f = Returns prs ->
  main env (start fs)
  = try_except
      (enhance_and_build env (chat_completions_create env api)
         (map extract_slide (slides prs)))
      (fun e => emit (StError (error_message (runtime env) e)))
      {| trace := extraction_shown (map extract_slide (slides prs));
         files := fs |}.
Proof.
  intros Hk He Ha Hs Hf Hp. rewrite (main_granted env fs k Hk He).
  unfold page, on_submit. rewrite Ha, Hs, Hf.
  rewrite (extract_ppt_text_parsed f prs Hp). reflexivity.
Qed.

(** Properties of the trace that every step of the script keeps: those
    that survive one more event and do not depend on the files. *)
Section AppSafe.
Context (P : App -> Prop).
Hypothesis P_emit :
  forall a e, P a -> P {| trace := trace a ++ [e]; files := files a |}.
Hypothesis P_files :
  forall a fs', P a -> P {| trace := trace a; files := fs' |}.

Lemma safe_emit e : safe P (emit e).
Proof. apply safe_modify. intros a Ha. by apply P_emit. Qed.

Lemma safe_on_files {A} (m : M FileSystem A) :
  safe (fun _ => True) m -> safe P (on_files m).
Proof.
  intros Hm. eapply safe_zoom; [exact Hm|done|].
  intros a fs' Ha _. by apply P_files.
Qed.

Lemma safe_secret v : safe P (secret v).
Proof. destruct v; [apply safe_ret|apply safe_raise]. Qed.

Ltac app_step :=
  first
    [ apply safe_ret | apply safe_raise | apply safe_lift
    | apply safe_emit | apply safe_secret
    | apply safe_bind; [|intros ?]
    | match goal with
      | |- safe _ (match ?x with _ => _ end) => destruct x
      | |- safe _ (let _ := _ in _) => cbv zeta
      end ].

Lemma safe_temporary_file env : safe P (temporary_file env).
Proof.
  unfold temporary_file. repeat app_step.
  apply safe_on_files. by apply safe_modify.
Qed.

Lemma safe_generate_improved_json rt client topic extracted n style :
  safe P (generate_improved_json rt client topic extracted n style).
Proof. unfold generate_improved_json. repeat app_step. Qed.

Lemma safe_open_rb path : safe (fun _ : FileSystem => True) (open_rb path).
Proof. unfold open_rb. repeat safe_step. Qed.

Lemma safe_enhance_and_build env client extracted :
  safe P (enhance_and_build env client extracted).
Proof.
  unfold enhance_and_build.
  repeat first
    [ apply safe_generate_improved_json | apply safe_temporary_file
    | apply safe_on_files | apply json_to_ppt_never_stops
    | apply safe_open_rb | app_step ].
Qed.

Lemma safe_on_submit env client : safe P (on_submit env client).
Proof.
  unfold on_submit. destruct (form_ppt_file env) as [f|]; [|apply safe_emit].
  repeat first
    [ apply safe_try_except; [apply safe_enhance_and_build|intros ?]
    | app_step ].
Qed.
End AppSafe.

Lemma shows_first_emit pre a e :
  shows_first pre a ->
  shows_first pre {| trace := trace a ++ [e]; files := files a |}.
Proof.
  intros [rest H]. exists (rest ++ [e]). simpl. by rewrite H, app_assoc.
Qed.

Lemma shows_first_files pre a fs' :
  shows_first pre a -> shows_first pre {| trace := trace a; files := fs' |}.
Proof. by intros [rest H]; exists rest. Qed.

Lemma safe_page_rest env api pre :
  safe (shows_first pre)
    (emit (StSetPageConfig (py "Modern AI PPT Enhancer") (py "centered")) ;;
     emit (StTitle (py "🎨 AI-Enhanced PowerPoint Generator (Modern Style)")) ;;
     emit (StForm (py "ppt_form")) ;;
     emit (StSubheader (py "Upload & Enhance Presentation")) ;;
     emit (StFileUploader (py "📤 Upload a .pptx file") [py "pptx"]) ;;
     emit (StTextInput (py "🧠 Topic") (py "AI in Healthcare")) ;;
     emit (StSlider (py "🧾 Desired Slide Count") 3 20 6) ;;
     emit (StTextInput (py "🎨 Style") (py "Professional, modern, minimal")) ;;
     emit (StFormSubmitButton (py "✨ Enhance Presentation")) ;;
     if form_submitted env
     then on_submit env (chat_completions_create env api)
     else ret tt).
Proof.
  repeat (apply safe_bind;
          [apply safe_emit; apply shows_first_emit|intros _]).
  destruct (form_submitted env); [|apply safe_ret].
  apply safe_on_submit; [apply shows_first_emit|apply shows_first_files].
Qed.

(** Past the guard the script is never stopped, and what it shows starts
    with the loading of the environment. *)
Lemma main_granted_safe env fs k :
  secrets_access_key env = Some k ->
  lookup_key (py "key") (query_params env) = Some k ->
  fst (main env (start fs)) <> Stop
  /\ shows_first [LoadDotenv] (snd (main env (start fs))).
Proof.
  intros Hk He. rewrite (main_granted env fs k Hk He). unfold page.
  rewrite (bind_ok (emit LoadDotenv) _ (start fs) tt
             {| trace := [LoadDotenv]; files := fs |} eq_refl).
  apply (safe_bind (shows_first [LoadDotenv])).
  - apply safe_secret.
  - intros api. apply safe_page_rest.
  - by exists [].
Qed.

(** With a file submitted, the Extractor is called. *)
Lemma main_calls_extractor env fs k api f :
  secrets_access_key env = Some k ->
  lookup_key (py "key") (query_params env) = Some k ->
  secrets_openai_api_key env = Some api ->
  form_submitted env = true ->
  form_ppt_file env = Some f ->
  shows_first
    (page_header ++ [StSpinner (py "🔍 Extracting slides..."); Called Extractor])
    (snd (main env (start fs))).
Proof.
  intros Hk He Ha Hs Hf. rewrite (main_granted env fs k Hk He).
  unfold page, on_submit. rewrite Ha, Hs, Hf.
  match goal with
  | |- shows_first ?pre _ =>
    change (shows_first pre
              (snd ((extracted <- lift (extract_ppt_text f) ;;
                     emit (StSuccess (py "✅ Slide content extracted")) ;;
                     emit (StJson (JList (map record_json extracted))) ;;
                     emit (StSpinner
                             (py "🤖 Generating improved version via GPT-4...")) ;;
                     try_except
                       (enhance_and_build env (chat_completions_create env api)
                          extracted)
                       (fun e => emit (StError (error_message (runtime env) e))))
                      {| trace := pre; files := fs |})));
    apply (safe_bind (shows_first pre))
  end.
  - apply safe_lift.
  - intros extracted.
    repeat (apply safe_bind;
            [apply safe_emit; apply shows_first_emit|intros _]).
    apply safe_try_except.
    + apply safe_enhance_and_build;
        [apply shows_first_emit|apply shows_first_files].
    + intros e. apply safe_emit, shows_first_emit.
  - exists []. by rewrite app_nil_r.
Qed.

(** ** The script: the stated properties *)

(** C4. With a configured secret, the run ends at the guard, showing the
    access-denied message and nothing else (no component is called),
    exactly when the [key] parameter is missing or differs from the
    secret; with the right key the run is not stopped and goes on, and
    with a file submitted the Extractor is called. *)
Theorem access_guard env fs k :
  secrets_access_key env = Some k ->
  (lookup_key (py "key") (query_params env) <> Some k
   <-> main env (start fs)
       = (Stop, {| trace := [StError access_denied_message]; files := fs |}))
  /\ (lookup_key (py "key") (query_params env) <> Some k ->
      count is_called (trace (snd (main env (start fs)))) = 0%nat)
  /\ (lookup_key (py "key") (query_params env) = Some k ->
      fst (main env (start fs)) <> Stop
      /\ (exists rest, trace (snd (main env (start fs))) = LoadDotenv :: rest)
      /\ forall api f,
           secrets_openai_api_key env = Some api ->
           form_submitted env = true ->
           form_ppt_file env = Some f ->
           In (Called Extractor) (trace (snd (main env (start fs))))).
Proof.
  intros Hk. split; [split|split].
  - by apply (main_denied env fs k).
  - intros Hrun He.
    destruct (main_granted_safe env fs k Hk He) as [Hne _].
    by rewrite Hrun in Hne.
  - intros Hne. by rewrite (main_denied env fs k Hk Hne).
  - intros He.
    destruct (main_granted_safe env fs k Hk He) as [Hne Hfirst].
    split; [done|]. split; [exact Hfirst|].
    intros api f Ha Hs Hf.
    destruct (main_calls_extractor env fs k api f Hk He Ha Hs Hf)
      as [rest ->].
    apply in_or_app. left. apply in_or_app. right. right. by left.
Qed.

(** C9. A submission without file shows the page and one error asking for
    a file; no file is touched, no component is called, no request is
    sent. *)
Theorem missing_upload_reported env fs k api :
  secrets_access_key env = Some k ->
  lookup_key (py "key") (query_params env) = Some k ->
  secrets_openai_api_key env = Some api ->
  form_submitted env = true ->
  form_ppt_file env = None ->
  exists a,
    main env (start fs) = (Ok tt, a)
    /\ trace a = page_header ++ [StError missing_upload_message]
    /\ files a = fs
    /\ count is_called (trace a) = 0%nat
    /\ count is_chat_completion (trace a) = 0%nat
    /\ count is_download (trace a) = 0%nat.
Proof.
  intros Hk He Ha Hs Hf. eexists. split.
  - by apply (main_missing_upload env fs k api).
  - by repeat split.
Qed.

Ltac run_app := cbv beta iota zeta; cbn [trace files fst snd].

Ltac same_call :=
  repeat first
    [ progress simplify_eq
    | match goal with
      | H1 : ?x = _, H2 : ?x = _ |- _ => rewrite H1 in H2
      end ].

(** C5. Once the slides are extracted, the run always ends normally,
    whatever the service, the JSON parser, the temporary file and the
    Builder do. Exactly one request is sent. Either the download button is
    the last thing shown and no error is, or exactly one error is shown,
    last, with the message of the exception, and no download button. A
    failing request, a reply that is not JSON and a failing Builder each
    end in that error. *)
Theorem failures_caught_and_reported env fs k api f prs :
  secrets_access_key env = Some k ->
  lookup_key (py "key") (query_params env) = Some k ->
  secrets_openai_api_key env = Some api ->
  form_submitted env = true ->
  form_ppt_file env = Some f ->
  upload_parsed f = Returns prs ->
  let rt := runtime env in
  let client := chat_completions_create env api in
  let req :=
    chat_request system_prompt
      (user_prompt rt (form_topic env) (map extract_slide (slides prs))
         (form_slide_count env) (form_style env)) in
  exists a,
    main env (start fs) = (Ok tt, a)
    /\ count is_chat_completion (trace a) = 1%nat
    /\ ((count is_st_error (trace a) = 0%nat
         /\ exists data, last (trace a) = Some (download_button data))
        \/ (count is_st_error (trace a) = 1%nat
            /\ count is_download (trace a) = 0%nat
            /\ exists e, last (trace a) = Some (StError (error_message rt e))))
    /\ (forall e, client req = Raises e ->
          last (trace a) = Some (StError (error_message rt e)))
    /\ (forall c cs e,
          client req = Returns (Some c :: cs) ->
          json_loads rt (strip c) = Raises e ->
          last (trace a) = Some (StError (error_message rt e)))
    /\ (forall c cs data name e fs',
          client req = Returns (Some c :: cs) ->
          json_loads rt (strip c) = Returns data ->
          named_temporary_file env = Returns name ->
          json_to_ppt rt data name (write_file name (RawData []) fs)
          = (Raise e, fs') ->
          last (trace a) = Some (StError (error_message rt e))).
Proof.
  intros Hk He Ha Hs Hf Hp rt client req.
  rewrite (main_extracted env fs k api f prs Hk He Ha Hs Hf Hp).
  unfold enhance_and_build, generate_improved_json, temporary_file, on_files,
    zoom, open_rb, emit, modify, get_state, lift, raise, ret, bind,
    try_except.
  fold rt. fold client. cbv zeta. fold req.
  destruct (client req) as [[|[c|] cs]|e] eqn:Hc; run_app.
  2: destruct (json_loads rt (strip c)) as [data|e] eqn:Hj; run_app.
  2: destruct (named_temporary_file env) as [name|e] eqn:Ht; run_app.
  2: destruct (json_to_ppt rt data name (write_file name (RawData []) fs))
       as [[p|e|] fs'] eqn:Hb; run_app.
  2: destruct (lookup_key p (fs_files fs')) as [file|] eqn:Hl; run_app.
  all: try (eexists; split; [reflexivity|]; cbn [trace];
            split; [reflexivity|];
            split; [first [left; split; [reflexivity|]; eexists; reflexivity
                          |right; split; [reflexivity|];
                           split; [reflexivity|]; eexists; reflexivity]|];
            split; [|split]; intros; same_call; reflexivity).
  exfalso.
  pose proof (json_to_ppt_never_stops rt data name
                (write_file name (RawData []) fs) I) as [Hne _].
  by rewrite Hb in Hne.
Qed.

(** ** Instances *)

Lemma extractor_heading_and_bullets_witness :
  slides sample_presentation !! 0%nat = Some sample_slide
  /\ exists recs r,
       extract_ppt_text sample_upload = Returns recs
       /\ recs !! 0%nat = Some r
       /\ heading r = py "Roadmap"
       /\ bullet_points r
          = [py "Q1: pilot"; py "Q2: rollout"; py "Confidential"].
Proof.
  split; [reflexivity|].
  destruct (extractor_heading_and_bullets (py "deck.pptx")
              sample_presentation 0 sample_slide eq_refl)
    as (recs & r & Hrun & Hr & Hh & Hb & _).
  exists recs, r. split; [exact Hrun|]. split; [exact Hr|].
  split; [rewrite Hh; reflexivity|rewrite Hb; reflexivity].
Defined.

(** C1 as stated fails. A deck-shaped object whose heading holds a file
    separator gives a title box that reads "a_x001C_b", not the heading;
    one whose heading holds U+FFFE gives no presentation at all: the
    Builder raises [ValueError]. *)
Lemma heading_escaped_or_refused :
  deck_shaped control_deck = true
  /\ (exists prs slide sp,
        json_to_ppt sample_runtime control_deck (py "out.pptx") sample_fs
        = (Ok (py "out.pptx"),
           write_file (py "out.pptx") (PptxData prs) sample_fs)
        /\ slides prs !! 1%nat = Some slide
        /\ shapes slide !! 0%nat = Some (ShapeSp sp)
        /\ sp_fill sp = FillSolid (Some (RGBColor 0 102 204))
        /\ sp_text sp = py "a_x001C_b"
        /\ sp_text sp <> py "a" ++ [28%N] ++ py "b")
  /\ deck_shaped (one_field_deck (py "heading") (JStr unstorable_text)) = true
  /\ json_to_ppt sample_runtime
       (one_field_deck (py "heading") (JStr unstorable_text))
       (py "out.pptx") sample_fs
     = (Raise ValueError, sample_fs).
Proof.
  split; [reflexivity|]. split; [|split; vm_compute; reflexivity].
  eexists _, _, _.
  split; [apply json_to_ppt_accepted; vm_compute; reflexivity|].
  split; [reflexivity|]. split; [reflexivity|]. split; [reflexivity|].
  split; [vm_compute; reflexivity|]. vm_compute. discriminate.
Qed.

Lemma builder_slide_count_and_headings_witness :
  deck_shaped control_deck = true
  /\ deck_storable sample_runtime control_deck = true
  /\ fs_writable sample_fs (py "out.pptx") = true
  /\ exists prs slide sp,
       json_to_ppt sample_runtime control_deck (py "out.pptx") sample_fs
       = (Ok (py "out.pptx"),
          write_file (py "out.pptx") (PptxData prs) sample_fs)
       /\ length (slides prs) = 2%nat
       /\ slides prs !! 1%nat = Some slide
       /\ shapes slide !! 0%nat = Some (ShapeSp sp)
       /\ sp_text sp = py "a_x001C_b".
Proof.
  split; [reflexivity|]. split; [reflexivity|]. split; [reflexivity|].
  destruct (builder_slide_count_and_headings sample_runtime control_deck
              (py "out.pptx") sample_fs eq_refl eq_refl eq_refl)
    as (prs & Hrun & Hlen & _ & Hslides).
  destruct (Hslides 0%nat _ eq_refl)
    as (slide & sp & Hslide & _ & Hsp & _ & _ & Htext & _).
  exists prs, slide, sp. split; [exact Hrun|]. split; [exact Hlen|].
  split; [exact Hslide|]. split; [exact Hsp|].
  rewrite Htext. reflexivity.
Defined.

Lemma example_deck_builds_witness :
  fs_writable sample_fs (py "out.pptx") = true
  /\ exists prs,
       json_to_ppt sample_runtime example_deck (py "out.pptx") sample_fs
       = (Ok (py "out.pptx"),
          write_file (py "out.pptx") (PptxData prs) sample_fs)
       /\ length (slides prs) = 2%nat.
Proof.
  split; [reflexivity|].
  destruct (example_deck_builds sample_runtime (py "out.pptx") sample_fs
              eq_refl)
    as (prs & Hrun & _ & _ & Hlen & _).
  exists prs. split; [exact Hrun|exact Hlen].
Defined.

(** C7 as stated fails. A chart type that holds a carriage return gives a
    gray rectangle that reads "[p_x000D_ie chart placeholder]", not the
    label with the chart type substituted; a chart type that is not empty
    and holds U+FFFE gives no rectangle and no presentation: the Builder
    raises [ValueError]. *)
Lemma chart_label_escaped_or_refused :
  (exists prs slide sp,
     json_to_ppt sample_runtime control_deck (py "out.pptx") sample_fs
     = (Ok (py "out.pptx"),
        write_file (py "out.pptx") (PptxData prs) sample_fs)
     /\ slides prs !! 1%nat = Some slide
     /\ shapes slide !! 2%nat = Some (ShapeSp sp)
     /\ is_chart_placeholder sp
     /\ sp_text sp = py "[p_x000D_ie chart placeholder]"
     /\ sp_text sp
        <> py "[" ++ py "p" ++ [13%N] ++ py "ie" ++ py " chart placeholder]")
  /\ truthy (JStr unstorable_text) = true
  /\ json_to_ppt sample_runtime
       (one_field_deck (py "chart_type") (JStr unstorable_text))
       (py "out.pptx") sample_fs
     = (Raise ValueError, sample_fs).
Proof.
  split; [|split; vm_compute; reflexivity].
  eexists _, _, _.
  split; [apply json_to_ppt_accepted; vm_compute; reflexivity|].
  split; [reflexivity|]. split; [reflexivity|]. split; [by split|].
  split; [vm_compute; reflexivity|]. vm_compute. discriminate.
Qed.

Lemma chart_placeholder_iff_chart_type_witness :
  deck_builds sample_runtime sample_deck = true
  /\ fs_writable sample_fs (py "out.pptx") = true
  /\ exists prs slide,
       json_to_ppt sample_runtime sample_deck (py "out.pptx") sample_fs
       = (Ok (py "out.pptx"),
          write_file (py "out.pptx") (PptxData prs) sample_fs)
       /\ slides prs !! 1%nat = Some slide
       /\ exists k sp, shapes slide !! k = Some (ShapeSp sp)
                       /\ is_chart_placeholder sp
                       /\ sp_text sp = py "[pie chart placeholder]".
Proof.
  split; [reflexivity|]. split; [reflexivity|].
  destruct (chart_placeholder_iff_chart_type sample_runtime sample_deck
              (py "out.pptx") sample_fs) as (_ & _ & _ & H).
  destruct (H eq_refl eq_refl) as (prs & Hrun & Hslides).
  destruct (Hslides 0%nat _ eq_refl) as (slide & Hslide & Hiff & Hlabel).
  exists prs, slide. split; [exact Hrun|]. split; [exact Hslide|].
  destruct (proj1 Hiff) as (k & sp & Hk & Hsp).
  { exists (JStr (py "pie")). split; reflexivity. }
  exists k, sp. split; [exact Hk|]. split; [exact Hsp|].
  destruct (Hlabel k sp Hk Hsp) as (_ & v & t & Hv & Ht & _ & Htext).
  injection Hv as <-. injection Ht as <-. apply Htext. reflexivity.
Defined.

(** C8 as stated fails. A title that holds a carriage return is read back
    as "A_x000D_B", not as the title; and the Builder fails on an input
    that is a list, on an object whose [slides] is [null] and on a title
    that holds U+FFFE. *)
Lemma title_escaped_or_refused :
  (exists prs ts title,
     json_to_ppt sample_runtime control_deck (py "out.pptx") sample_fs
     = (Ok (py "out.pptx"),
        write_file (py "out.pptx") (PptxData prs) sample_fs)
     /\ slides prs !! 0%nat = Some ts
     /\ shapes_title (shapes ts) = Some (0%nat, title)
     /\ sp_text title = py "A_x000D_B"
     /\ sp_text title <> py "A" ++ [13%N] ++ py "B")
  /\ json_to_ppt sample_runtime (JList []) (py "out.pptx") sample_fs
     = (Raise AttributeError, sample_fs)
  /\ json_to_ppt sample_runtime (JDict [(py "slides", JNull)])
       (py "out.pptx") sample_fs
     = (Raise TypeError, sample_fs)
  /\ json_to_ppt sample_runtime (JDict [(py "title", JStr unstorable_text)])
       (py "out.pptx") sample_fs
     = (Raise ValueError, sample_fs).
Proof.
  split; [|repeat split; vm_compute; reflexivity].
  eexists _, _, _.
  split; [apply json_to_ppt_accepted; vm_compute; reflexivity|].
  split; [reflexivity|]. split; [reflexivity|].
  split; [vm_compute; reflexivity|]. vm_compute. discriminate.
Qed.

Lemma title_slide_and_fallbacks_witness :
  deck_builds sample_runtime sample_deck = true
  /\ fs_writable sample_fs (py "out.pptx") = true
  /\ exists prs ts title,
       json_to_ppt sample_runtime sample_deck (py "out.pptx") sample_fs
       = (Ok (py "out.pptx"),
          write_file (py "out.pptx") (PptxData prs) sample_fs)
       /\ slides prs !! 0%nat = Some ts
       /\ shapes_title (shapes ts) = Some (0%nat, title)
       /\ sp_text title = py "Untitled Presentation".
Proof.
  split; [reflexivity|]. split; [reflexivity|].
  destruct (title_slide_and_fallbacks sample_runtime sample_deck
              (py "out.pptx") sample_fs) as (_ & _ & H).
  destruct (H eq_refl eq_refl)
    as (prs & ts & title & subtitle & Hrun & Hts & Htitle & Htext & _).
  exists prs, ts, title.
  split; [exact Hrun|]. split; [exact Hts|]. split; [exact Htitle|].
  rewrite Htext. reflexivity.
Defined.

Lemma bullet_box_paragraphs_witness :
  deck_builds sample_runtime control_deck = true
  /\ fs_writable sample_fs (py "out.pptx") = true
  /\ exists prs slide box,
       json_to_ppt sample_runtime control_deck (py "out.pptx") sample_fs
       = (Ok (py "out.pptx"),
          write_file (py "out.pptx") (PptxData prs) sample_fs)
       /\ slides prs !! 1%nat = Some slide
       /\ shapes slide !! 1%nat = Some (ShapeSp box)
       /\ map p_text (paragraphs (text_frame box))
          = [ []; py "_x001C_"; py "x_x000D_y" ].
Proof.
  split; [reflexivity|]. split; [reflexivity|].
  destruct (bullet_box_paragraphs sample_runtime control_deck
              (py "out.pptx") sample_fs) as [Hrun Hslides].
  destruct (Hslides _ _ (Hrun eq_refl eq_refl)) as (prs & Hfs & _ & Hrec).
  destruct (Hrec 0%nat _ eq_refl)
    as (slide & box & Hslide & Hbox & _ & Hparas & _).
  exists prs, slide, box.
  split; [rewrite (Hrun eq_refl eq_refl); f_equal; exact Hfs|].
  split; [exact Hslide|]. split; [exact Hbox|].
  rewrite Hparas. reflexivity.
Defined.
Lemma access_guard_witness :
  secrets_access_key (sample_request [] (Some sample_upload))
  = Some (py "s3cret")
  /\ main (sample_request [] (Some sample_upload)) (start sample_fs)
     = (Stop, {| trace := [StError access_denied_message];
                 files := sample_fs |}).
Proof.
  split; [reflexivity|].
  destruct (access_guard (sample_request [] (Some sample_upload)) sample_fs
              (py "s3cret") eq_refl) as [[Hdenied _] _].
  apply Hdenied. discriminate.
Defined.

Lemma missing_upload_reported_witness :
  let env := sample_request [(py "key", py "s3cret")] None in
  secrets_access_key env = Some (py "s3cret")
  /\ lookup_key (py "key") (query_params env) = Some (py "s3cret")
  /\ secrets_openai_api_key env = Some (py "sk-test")
  /\ form_submitted env = true
  /\ form_ppt_file env = None
  /\ exists a,
       main env (start sample_fs) = (Ok tt, a)
       /\ trace a = page_header ++ [StError missing_upload_message].
Proof.
  intros env. repeat (split; [reflexivity|]).
  destruct (missing_upload_reported env sample_fs (py "s3cret") (py "sk-test")
              eq_refl eq_refl eq_refl eq_refl eq_refl)
    as (a & Hrun & Htrace & _).
  exists a. split; [exact Hrun|exact Htrace].
Defined.

Lemma failures_caught_and_reported_witness :
  let env := sample_request [(py "key", py "s3cret")] (Some sample_upload) in
  secrets_access_key env = Some (py "s3cret")
  /\ lookup_key (py "key") (query_params env) = Some (py "s3cret")
  /\ secrets_openai_api_key env = Some (py "sk-test")
  /\ form_submitted env = true
  /\ form_ppt_file env = Some sample_upload
  /\ upload_parsed sample_upload = Returns sample_presentation
  /\ exists a,
       main env (start sample_fs) = (Ok tt, a)
       /\ count is_chat_completion (trace a) = 1%nat
       /\ last (trace a)
          = Some (StError (error_message sample_runtime ValueError)).
Proof.
  intros env. repeat (split; [reflexivity|]).
  destruct (failures_caught_and_reported env sample_fs (py "s3cret")
              (py "sk-test") sample_upload sample_presentation
              eq_refl eq_refl eq_refl eq_refl eq_refl eq_refl)
    as (a & Hrun & Hone & _ & _ & Hjson & _).
  exists a. split; [exact Hrun|]. split; [exact Hone|].
  exact (Hjson (py "Sorry, I cannot help with that.") [] ValueError
           eq_refl eq_refl).
Defined.

(** A run in which everything succeeds: no error is shown and the run
    ends with the download button for a presentation of two slides. *)
Example successful_run :
  let run := main lenient_request (start sample_fs) in
  fst run = Ok tt
  /\ count is_st_error (trace (snd run)) = 0%nat
  /\ count is_chat_completion (trace (snd run)) = 1%nat
  /\ match last (trace (snd run)) with
     | Some (StDownloadButton _ (PptxData prs) name) =>
       length (slides prs) = 2%nat /\ name = py "enhanced_presentation.pptx"
     | _ => False
     end.
Proof. vm_compute. repeat split. Qed.

(** * Further properties *)

(** ** Extractor: what every record satisfies *)

Lemma stripped_strip s : stripped (strip s).
Proof.
  destruct (strip_spec s) as (pre & post & _ & _ & _ & Hhd & Hlast).
  by split.
Qed.

Lemma stripped_nil : stripped [].
Proof. split; intros c rest H; [done|by destruct rest]. Qed.

Lemma trimmed_paragraphs_stripped tf :
  Forall (fun b => b <> [] /\ stripped b) (trimmed_paragraphs tf).
Proof.
  unfold trimmed_paragraphs.
  induction (paragraphs tf) as [|para paras IH]; [constructor|].
  cbn [map]. rewrite filter_cons. case_decide; [|done].
  constructor; [|done]. split; [done|apply stripped_strip].
Qed.

(** X6. Whatever the slides hold, a heading returned by the Extractor has
    no whitespace at either end, and a bullet point is never empty and has
    no whitespace at either end. *)
Theorem extracted_text_is_trimmed f recs :
  extract_ppt_text f = Returns recs ->
  Forall (fun r =>
            stripped (heading r)
            /\ Forall (fun b => b <> [] /\ stripped b) (bullet_points r))
         recs.
Proof.
  unfold extract_ppt_text. destruct (upload_parsed f) as [prs|e]; [|done].
  intros [= <-]. rewrite foldl_snoc_map. cbn [app].
  apply Forall_fmap, Forall_forall. intros slide _. cbn [compose].
  rewrite extract_slide_spec. cbn [heading bullet_points]. split.
  - unfold spec_heading.
    destruct (shapes_title (shapes slide)) as [[pos t]|];
      [apply stripped_strip|apply stripped_nil].
  - unfold spec_bullet_points. apply Forall_concat, Forall_fmap, Forall_forall.
    intros tf _. apply trimmed_paragraphs_stripped.
Qed.

Lemma find_placeholder_pos idx shs n pos sp :
  find_placeholder idx shs n = Some (pos, sp) -> (n <= pos)%nat.
Proof.
  revert n. induction shs as [|sh shs IH]; intros n; [done|].
  assert (find_placeholder idx shs (S n) = Some (pos, sp) -> (n <= pos)%nat)
    as Hrest by (intros H%IH; lia).
  destruct sh as [s| | | |]; simpl; try done.
  destruct (sp_kind s) as [| |i]; try done.
  destruct (i =? idx)%nat; [|done]. intros [= <- <-]. lia.
Qed.

Lemma frames_past_title (title : option nat) shs n :
  (forall pos, title = Some pos -> (pos < n)%nat) ->
  omap (fun '(pos, sh) =>
          match sh with
          | ShapeSp sp =>
            if decide (title = Some pos) then None else Some (text_frame sp)
          | _ => None
          end)
       (imap (fun i x => ((n + i)%nat, x)) shs)
  = all_text_frames shs.
Proof.
  revert n. induction shs as [|sh shs IH]; intros n Hlt; [done|].
  cbn [imap omap list_omap all_text_frames].
  rewrite (imap_ext _ (fun i x => ((S n + i)%nat, x)))
    by (intros; simpl; f_equal; lia).
  rewrite IH by (intros pos H%Hlt; lia).
  destruct sh as [s| | | |]; try done.
  case_decide as E; [|done]. apply Hlt in E. lia.
Qed.

Lemma frames_around_title shs n :
  omap (fun '(pos, sh) =>
          match sh with
          | ShapeSp sp =>
            if decide (fst <$> find_placeholder 0 shs n = Some pos)
            then None else Some (text_frame sp)
          | _ => None
          end)
       (imap (fun i x => ((n + i)%nat, x)) shs)
  = body_text_frames shs.
Proof.
  revert n. induction shs as [|sh shs IH]; intros n; [done|].
  cbn [imap omap list_omap body_text_frames].
  rewrite (imap_ext _ (fun i x => ((S n + i)%nat, x)))
    by (intros; simpl; f_equal; lia).
  assert (forall pos, fst <$> find_placeholder 0 shs (S n) = Some pos ->
                      pos <> (n + 0)%nat) as Hlater.
  { intros pos H.
    destruct (find_placeholder 0 shs (S n)) as [[pos' sp]|] eqn:E; [|done].
    apply find_placeholder_pos in E. injection H as <-. simpl. lia. }
  destruct sh as [s| | | |]; cbn [find_placeholder]; try apply IH.
  unfold is_title. destruct (sp_kind s) as [| |i].
  - case_decide as E; [by destruct (Hlater _ E)|]. by rewrite IH.
  - case_decide as E; [by destruct (Hlater _ E)|]. by rewrite IH.
  - destruct (i =? 0)%nat.
    + cbn [fmap option_fmap option_map fst].
      rewrite decide_True by (f_equal; lia).
      apply frames_past_title. intros pos [= <-]. lia.
    + case_decide as E; [by destruct (Hlater _ E)|]. by rewrite IH.
Qed.

(** The bullet points come from the shapes other than the first title
    placeholder; positions play no other part. *)
Lemma non_title_text_frames_body slide :
  non_title_text_frames slide = body_text_frames (shapes slide).
Proof. apply (frames_around_title (shapes slide) 0). Qed.

Lemma all_text_frames_text_shapes shs :
  all_text_frames (text_shapes shs) = all_text_frames shs.
Proof.
  induction shs as [|sh shs IH]; [done|].
  destruct sh; simpl; try done. by f_equal.
Qed.

Lemma body_text_frames_text_shapes shs :
  body_text_frames (text_shapes shs) = body_text_frames shs.
Proof.
  induction shs as [|sh shs IH]; [done|].
  destruct sh as [s| | | |]; simpl; try done.
  destruct (is_title s); [apply all_text_frames_text_shapes|by f_equal].
Qed.

Lemma find_placeholder_text_shapes idx shs n m :
  snd <$> find_placeholder idx (text_shapes shs) n
  = snd <$> find_placeholder idx shs m.
Proof.
  revert n m. induction shs as [|sh shs IH]; intros n m; [done|].
  destruct sh as [s| | | |]; simpl; try apply IH.
  destruct (sp_kind s) as [| |i]; try apply IH.
  destruct (i =? idx)%nat; [done|apply IH].
Qed.

(** X7. What is not a text shape (a picture, a table, a chart, a group, a
    connector) has no influence on the record of a slide: the record is
    that of the slide's text shapes alone. Text inside a group or a table
    is therefore never extracted. *)
Theorem non_text_shapes_ignored slide :
  extract_slide slide
  = extract_slide {| background := background slide;
                     shapes := List.filter has_text_frame (shapes slide) |}.
Proof.
  rewrite !extract_slide_spec. f_equal.
  - unfold spec_heading, shapes_title. cbn [shapes].
    pose proof (find_placeholder_text_shapes 0 (shapes slide) 0 0) as E.
    unfold text_shapes in E.
    destruct (find_placeholder 0 (shapes slide) 0) as [[pos t]|],
      (find_placeholder 0 (List.filter has_text_frame (shapes slide)) 0)
      as [[pos' t']|]; simplify_eq/=; done.
  - unfold spec_bullet_points. rewrite !non_title_text_frames_body.
    cbn [shapes]. by rewrite <- body_text_frames_text_shapes.
Qed.

(** ** Builder: the deck read back *)

Lemma trimmed_paragraphs_texts tf :
  trimmed_paragraphs tf = nonblank_trimmed (map p_text (paragraphs tf)).
Proof. unfold trimmed_paragraphs, nonblank_trimmed. by rewrite map_map. Qed.

Lemma extract_title_slide content :
  extract_slide (rendered_title_slide content)
  = {| heading := strip (frame_text (deck_title content));
       bullet_points := [py "Enhanced by GPT-4"] |}.
Proof.
  rewrite extract_slide_spec. f_equal.
  unfold spec_heading, rendered_title_slide, placeholder_with_text.
  cbn [shapes shapes_title find_placeholder placeholder_sp sp_kind Nat.eqb].
  unfold sp_text, placeholder_sp. cbn [text_frame]. by rewrite text_lines.
Qed.

Lemma extract_accepted_slide rt s :
  extract_slide (accepted_slide rt s)
  = {| heading := []; bullet_points := reextracted_bullets rt s |}.
Proof.
  rewrite extract_slide_spec. f_equal.
  - unfold spec_heading, accepted_slide, shapes_title, chart_shapes.
    cbn [shapes]. by destruct (chart_text rt s).
  - unfold spec_bullet_points. rewrite non_title_text_frames_body.
    unfold accepted_slide, reextracted_bullets, chart_shapes.
    cbn [shapes app body_text_frames title_box bullets_box text_box
         is_title title_sp text_sp sp_kind text_frame map concat].
    rewrite !trimmed_paragraphs_texts. cbn [paragraphs].
    rewrite map_p_text_first_formatted. f_equal.
    cbn [map empty_paragraph p_text]. rewrite map_map.
    change (map (fun x => p_text (bullet_paragraph x)))
      with (map line_text).
    f_equal.
    destruct (chart_text rt s) as [t|]; [|done].
    cbn [body_text_frames chart_box is_title chart_sp sp_kind text_frame
         map concat].
    rewrite trimmed_paragraphs_texts. cbn [paragraphs].
    rewrite map_p_text_first_formatted. by rewrite app_nil_r.
Qed.

(** ** Builder: further properties *)

(** X1. The inputs of which the Builder makes a deck, exactly. It
    succeeds, writing the deck to the output path and nothing else, when
    the input is a dict whose [title], if present, is a string and whose
    [slides], if present, can be iterated and yields dicts whose
    [heading], if present, is a string, whose [bullet_points], if present,
    can be iterated and yields strings, and whose [chart_type], if Python
    takes it for true, [str()] can format; when none of these texts holds
    a code point that XML cannot store; and when the path can be written.
    When only the path cannot be written it raises [OSError]. On every
    other input it raises [AttributeError], [TypeError], [ValueError] or
    what [str()] of a chart type raises. A failure leaves the files as
    they were. *)
Theorem builder_accepts_exactly rt content path fs :
  (deck_builds rt content = true ->
   fs_writable fs path = true ->
   json_to_ppt rt content path fs
   = (Ok path, write_file path (PptxData (accepted_deck rt content)) fs))
  /\ (deck_builds rt content = true ->
      fs_writable fs path = false ->
      json_to_ppt rt content path fs = (Raise OSError, fs))
  /\ (deck_builds rt content = false ->
      exists e,
        json_to_ppt rt content path fs = (Raise e, fs)
        /\ (e = AttributeError \/ e = TypeError \/ e = ValueError
            \/ exists v, py_str rt v = Raises e)).
Proof.
  split; [apply json_to_ppt_accepted|].
  split; [apply json_to_ppt_unwritable|apply json_to_ppt_refused].
Qed.

(** X2. Whenever the Builder returns, the saved deck has one slide more
    than the loop over [slides] visits records, and the text box of a
    record's slide has, after its blank first paragraph, one paragraph per
    item the loop over [bullet_points] visits: per element of a list, per
    character of a string, per key of a dict. The paragraph holds the
    item with a line break for every line feed and vertical tab and an
    escape for every other control character. *)
Theorem bullet_points_iterated rt content path fs out fs' :
  json_to_ppt rt content path fs = (Ok out, fs') ->
  exists prs,
    fs' = write_file path (PptxData prs) fs
    /\ length (slides prs) = (1 + length (deck_records content))%nat
    /\ forall i s, deck_records content !! i = Some s ->
         exists slide box,
           slides prs !! S i = Some slide
           /\ shapes slide !! 1%nat = Some (ShapeSp box)
           /\ (forall l,
                 field s (py "bullet_points") = Some (JList l) ->
                 map p_text (paragraphs (text_frame box))
                 = [] :: map (fun v => line_text (str_value v)) l)
           /\ (forall t,
                 field s (py "bullet_points") = Some (JStr t) ->
                 map p_text (paragraphs (text_frame box))
                 = [] :: map (fun c => line_text [c]) t)
           /\ (forall d,
                 field s (py "bullet_points") = Some (JDict d) ->
                 map p_text (paragraphs (text_frame box))
                 = [] :: map (fun kv => line_text (fst kv)) d).
Proof.
  intros (Hc & Hw & -> & ->)%json_to_ppt_ok_inv.
  exists (accepted_deck rt content). split; [done|].
  split; [apply accepted_deck_length|].
  intros i s Hs. eexists (accepted_slide rt s), _.
  split; [by rewrite accepted_deck_lookup, Hs|].
  split; [reflexivity|].
  cbn [text_sp text_frame paragraphs map empty_paragraph p_text].
  unfold record_bullet_texts, iterated_strings.
  repeat split; intros x ->; cbn [py_iter]; f_equal;
    rewrite !map_map; reflexivity.
Qed.

(** X3. Whenever the Builder returns, every slide after the title slide has
    the light-blue background; the first paragraph of its title box is
    28 pt, bold and white, while further lines of a heading keep the default
    font; its text box is set to have no fill (as [add_textbox] makes
    it, not the fill a shape inherits), wraps words and starts with the blank
    paragraph, every paragraph after it being 18 pt at level 0; the first
    paragraph of a chart placeholder is 14 pt and dark gray. *)
Theorem content_slide_styling rt content path fs out fs' :
  json_to_ppt rt content path fs = (Ok out, fs') ->
  exists prs,
    fs' = write_file path (PptxData prs) fs
    /\ forall i slide, slides prs !! S i = Some slide ->
         background slide = FillSolid (Some (RGBColor 240 248 255))
         /\ exists title box,
              shapes slide !! 0%nat = Some (ShapeSp title)
              /\ shapes slide !! 1%nat = Some (ShapeSp box)
              /\ (forall para,
                    paragraphs (text_frame title) !! 0%nat = Some para ->
                    p_font para
                    = {| font_size := Some (Pt 28); font_bold := Some true;
                         font_color := Some (RGBColor 255 255 255) |})
              /\ (forall k para,
                    paragraphs (text_frame title) !! S k = Some para ->
                    p_font para = default_font)
              /\ sp_fill box = FillBackground
              /\ sp_fill box <> FillInherit
              /\ word_wrap (text_frame box) = Some true
              /\ paragraphs (text_frame box) !! 0%nat = Some empty_paragraph
              /\ (forall k para,
                    paragraphs (text_frame box) !! S k = Some para ->
                    p_font para
                    = {| font_size := Some (Pt 18); font_bold := None;
                         font_color := None |}
                    /\ p_level para = 0)
              /\ forall chart para,
                   shapes slide !! 2%nat = Some (ShapeSp chart) ->
                   paragraphs (text_frame chart) !! 0%nat = Some para ->
                   p_font para
                   = {| font_size := Some (Pt 14); font_bold := None;
                        font_color := Some (RGBColor 80 80 80) |}.
Proof.
  intros (Hc & Hw & -> & ->)%json_to_ppt_ok_inv.
  exists (accepted_deck rt content). split; [done|].
  intros i slide (s & Hs & ->)%accepted_deck_slide.
  split; [reflexivity|].
  exists (title_sp (record_heading s)),
    (text_sp (empty_paragraph
              :: map bullet_paragraph (record_bullet_texts s))).
  split; [reflexivity|]. split; [reflexivity|].
  cbn [title_sp text_sp text_frame paragraphs sp_fill word_wrap].
  destruct (first_formatted_lookup title_font
              (map line_text (split_on LF (record_heading s))))
    as [Hfirst Hrest].
  split; [intros para H; by apply Hfirst|].
  split; [intros k para H; by apply (Hrest k)|].
  split; [reflexivity|]. split; [done|]. split; [reflexivity|].
  split; [reflexivity|].
  split.
  - intros k para.
    change ((empty_paragraph
             :: map bullet_paragraph (record_bullet_texts s)) !! S k)
      with ((bullet_paragraph <$> record_bullet_texts s) !! k).
    rewrite list_lookup_fmap.
    destruct (record_bullet_texts s !! k); [|done]. by intros [= <-].
  - intros chart para Hk.
    destruct (accepted_slide_shapes rt s 2 _ Hk)
      as [[? _]|[[? _]|(_ & v & t & _ & _ & _ & E)]]; [done..|].
    unfold chart_box in E. injection E as ->.
    cbn [chart_sp text_frame paragraphs]. intros H.
    destruct (first_formatted_lookup chart_font
                (map line_text (split_on LF (chart_label t))))
      as [Hchart _].
    by apply Hchart.
Qed.

(** X4. Whenever the Builder returns, every slide after the title slide has
    two or three shapes, each within the slide; the title box ends above
    the text box, and a chart placeholder lies within the frame of the text
    box. *)
Theorem content_slide_layout rt content path fs out fs' :
  json_to_ppt rt content path fs = (Ok out, fs') ->
  exists prs,
    fs' = write_file path (PptxData prs) fs
    /\ forall i slide, slides prs !! S i = Some slide ->
         (2 <= length (shapes slide) <= 3)%nat
         /\ (forall k sh, shapes slide !! k = Some sh ->
               exists sp, sh = ShapeSp sp /\ within_slide prs sp)
         /\ forall title box,
              shapes slide !! 0%nat = Some (ShapeSp title) ->
              shapes slide !! 1%nat = Some (ShapeSp box) ->
              sp_top title + sp_height title <= sp_top box
              /\ forall chart,
                   shapes slide !! 2%nat = Some (ShapeSp chart) ->
                   within_frame box chart.
Proof.
  intros (Hc & Hw & -> & ->)%json_to_ppt_ok_inv.
  exists (accepted_deck rt content). split; [done|].
  intros i slide (s & Hs & ->)%accepted_deck_slide.
  split; [|split].
  - unfold accepted_slide. cbn [shapes]. rewrite length_app.
    unfold chart_shapes. destruct (chart_text rt s); simpl; lia.
  - intros k sh Hk.
    destruct (accepted_slide_shapes rt s k _ Hk)
      as [[_ ->]|[[_ ->]|(_ & v & t & _ & _ & _ & ->)]];
      eexists; (split; [reflexivity|]); by repeat split.
  - intros title box [= <-] [= <-]. split; [done|].
    intros chart Hk.
    destruct (accepted_slide_shapes rt s 2 _ Hk)
      as [[? _]|[[? _]|(_ & v & t & _ & _ & _ & E)]]; [done..|].
    unfold chart_box in E. injection E as ->. by repeat split.
Qed.

(** X5. Feeding a deck the Builder has saved to the Extractor, the file
    being read back as the deck that was built, gives one record per
    slide. The record of the title slide has the title as heading, as
    it was stored (every control character written as an escape) and
    trimmed, and the subtitle as only bullet point. The record of every
    other slide has an empty heading, its slide having no title
    placeholder; the lines of the record's heading come back as the first
    bullet points, followed by the bullet points that are not blank and by
    the label of the chart placeholder, all as they were stored. *)
Theorem built_deck_extracted rt content path fs out fs' name :
  json_to_ppt rt content path fs = (Ok out, fs') ->
  exists prs recs,
    fs' = write_file path (PptxData prs) fs
    /\ extract_ppt_text {| upload_name := name; upload_parsed := Returns prs |}
       = Returns recs
    /\ length recs = (1 + length (deck_records content))%nat
    /\ recs !! 0%nat
       = Some {| heading := strip (frame_text (deck_title content));
                 bullet_points := [py "Enhanced by GPT-4"] |}
    /\ forall i s, deck_records content !! i = Some s ->
         recs !! S i
         = Some {| heading := [];
                   bullet_points := reextracted_bullets rt s |}.
Proof.
  intros (Hc & Hw & -> & ->)%json_to_ppt_ok_inv.
  exists (accepted_deck rt content),
    (map extract_slide (slides (accepted_deck rt content))).
  split; [done|]. split; [by apply extract_ppt_text_parsed|].
  split; [rewrite length_map; apply accepted_deck_length|].
  split.
  - unfold accepted_deck. cbn [slides prs_with_slides map lookup list_lookup].
    by rewrite extract_title_slide.
  - intros i s Hs.
    change (map extract_slide) with (fmap (M:=list) extract_slide).
    rewrite list_lookup_fmap, accepted_deck_lookup, Hs.
    cbn [fmap option_fmap option_map]. by rewrite extract_accepted_slide.
Qed.

(** ** Builder: a number as chart type *)










(** ** The script: how a run ends *)

Lemma main_no_access_secret env fs :
  secrets_access_key env = None ->
  main env (start fs) = (Raise KeyError, start fs).
Proof. intros Hk. unfold main. rewrite Hk. reflexivity. Qed.

Lemma main_no_api_key env fs k :
  secrets_access_key env = Some k ->
  lookup_key (py "key") (query_params env) = Some k ->
  secrets_openai_api_key env = None ->
  main env (start fs)
  = (Raise KeyError, {| trace := [LoadDotenv]; files := fs |}).
Proof.
  intros Hk He Ha. rewrite (main_granted env fs k Hk He).
  unfold page. rewrite Ha. reflexivity.
Qed.

Lemma main_idle env fs k api :
  secrets_access_key env = Some k ->
  lookup_key (py "key") (query_params env) = Some k ->
  secrets_openai_api_key env = Some api ->
  form_submitted env = false ->
  main env (start fs) = (Ok tt, {| trace := page_header; files := fs |}).
Proof.
  intros Hk He Ha Hs. rewrite (main_granted env fs k Hk He).
  unfold page. rewrite Ha, Hs. reflexivity.
Qed.

Lemma main_unreadable env fs k api f e :
  secrets_access_key env = Some k ->
  lookup_key (py "key") (query_params env) = Some k ->
  secrets_openai_api_key env = Some api ->
  form_submitted env = true ->
  form_ppt_file env = Some f ->
  upload_parsed f = Raises e ->
  main env (start fs)
  = (Raise e,
     {| trace := page_header
                 ++ [StSpinner (py "🔍 Extracting slides..."); Called Extractor];
        files := fs |}).
Proof.
  intros Hk He Ha Hs Hf Hp. rewrite (main_granted env fs k Hk He).
  unfold page, on_submit, extract_ppt_text. rewrite Ha, Hs, Hf, Hp.
  reflexivity.
Qed.

Lemma json_to_ppt_outcome rt content path fs :
  (exists prs,
     json_to_ppt rt content path fs
     = (Ok path, write_file path (PptxData prs) fs))
  \/ (exists e, json_to_ppt rt content path fs = (Raise e, fs)).
Proof.
  unfold json_to_ppt, with_local, bind at 1.
  destruct (safe_build_deck rt content default_template
              sp_only_default_template) as [Hne _].
  destruct (build_deck rt content default_template) as [[[]|e|] prs];
    simpl in *; [|by eauto|done].
  unfold save, bind, get_state, modify, ret, raise.
  destruct (fs_writable fs path); eauto.
Qed.

Lemma lookup_key_written path data fs :
  lookup_key path (fs_files (write_file path data fs)) = Some data.
Proof. simpl. by rewrite bool_decide_eq_true_2. Qed.

(** The ways in which the body of the [try] ends, after the handler: the
    request or the parsing of the reply fails; the temporary file cannot
    be created; the Builder fails; the download is offered. *)
Lemma enhance_and_build_cases env client extracted a0 :
  let rt := runtime env in
  let sent :=
    trace a0 ++ [Called Enhancer; ChatCompletion (request_of env extracted)] in
  let run :=
    try_except (enhance_and_build env client extracted)
      (fun e => emit (StError (error_message rt e))) a0 in
  fst run = Ok tt
  /\ ((exists e,
         snd run = {| trace := sent ++ [StError (error_message rt e)];
                      files := files a0 |})
      \/ (exists data e,
            snd run
            = {| trace := sent ++ json_shown data
                          ++ [StError (error_message rt e)];
                 files := files a0 |})
      \/ (exists data name e,
            named_temporary_file env = Returns name
            /\ snd run
               = {| trace := sent ++ json_shown data
                             ++ [Called Builder; StError (error_message rt e)];
                    files := write_file name (RawData []) (files a0) |})
      \/ (exists data name deck,
            named_temporary_file env = Returns name
            /\ snd run
               = {| trace := sent ++ json_shown data
                             ++ [Called Builder; download_button (PptxData deck)];
                    files := write_file name (PptxData deck)
                               (write_file name (RawData []) (files a0)) |})).
Proof.
  intros rt sent run. subst run sent.
  unfold enhance_and_build, generate_improved_json, temporary_file, on_files,
    zoom, emit, modify, get_state, lift, raise, ret, bind, try_except.
  fold rt. cbv zeta. change (chat_request _ _) with (request_of env extracted).
  destruct (client (request_of env extracted)) as [[|[c|] cs]|e]; run_app.
  2: destruct (json_loads rt (strip c)) as [data|e]; run_app.
  2: destruct (named_temporary_file env) as [name|e] eqn:Ht; run_app.
  2: destruct (json_to_ppt_outcome rt data name
                 (write_file name (RawData []) (files a0)))
       as [[deck ->]|[e ->]]; run_app.
  2: unfold open_rb, bind, get_state, ret; run_app;
     rewrite lookup_key_written; run_app.
  all: split; [reflexivity|].
  all: first
    [ left; eexists; rewrite <- ?app_assoc; reflexivity
    | right; left; eexists _, _; rewrite <- ?app_assoc; reflexivity
    | right; right; left; eexists _, _, _; split; [reflexivity|];
      rewrite <- ?app_assoc; reflexivity
    | right; right; right; eexists _, _, _; split; [reflexivity|];
      rewrite <- ?app_assoc; reflexivity ].
Qed.

Lemma plain_page_header : Forall plain_event page_header.
Proof. unfold page_header. by repeat constructor. Qed.

Lemma plain_extraction_shown extracted :
  Forall plain_event (extraction_shown extracted).
Proof.
  unfold extraction_shown. apply Forall_app.
  split; [apply plain_page_header|by repeat constructor].
Qed.

Lemma plain_json_shown data : Forall plain_event (json_shown data).
Proof. unfold json_shown. by repeat constructor. Qed.

Lemma plain_in t e : Forall plain_event t -> In e t -> plain_event e.
Proof.
  intros Ht Hin. rewrite Forall_forall in Ht. by apply Ht, list_elem_of_In.
Qed.

Lemma count_plain t :
  Forall plain_event t -> count is_chat_completion t = 0%nat.
Proof.
  unfold count. induction 1 as [|e t He _ IH]; [done|].
  simpl. by destruct e.
Qed.

(** A run either ends before the [try], leaving the files alone, showing
    plain events only and calling at most the Extractor, or reaches the
    [try] with the records of the upload. *)
Lemma main_cases env fs :
  (exists o t,
     main env (start fs) = (o, {| trace := t; files := fs |})
     /\ Forall plain_event t
     /\ exists n, (n <= 1)%nat
                  /\ List.filter is_called t = take n [Called Extractor])
  \/ (exists k api f prs,
        secrets_access_key env = Some k
        /\ lookup_key (py "key") (query_params env) = Some k
        /\ secrets_openai_api_key env = Some api
        /\ form_submitted env = true
        /\ form_ppt_file env = Some f
        /\ upload_parsed f = Returns prs).
Proof.
  destruct (secrets_access_key env) as [k|] eqn:Hk.
  2: { left. eexists _, _. split; [by apply main_no_access_secret|].
       split; [constructor|]. exists 0%nat. by split; [lia|]. }
  destruct (decide (lookup_key (py "key") (query_params env) = Some k))
    as [He|He].
  2: { left. eexists _, _. split; [by apply (main_denied env fs k)|].
       split; [by repeat constructor|]. exists 0%nat. by split; [lia|]. }
  destruct (secrets_openai_api_key env) as [api|] eqn:Ha.
  2: { left. eexists _, _. split; [by apply (main_no_api_key env fs k)|].
       split; [by repeat constructor|]. exists 0%nat. by split; [lia|]. }
  destruct (form_submitted env) eqn:Hs.
  2: { left. eexists _, _. split; [by apply (main_idle env fs k api)|].
       split; [apply plain_page_header|]. exists 0%nat. by split; [lia|]. }
  destruct (form_ppt_file env) as [f|] eqn:Hf.
  2: { left. eexists _, _.
       split; [by apply (main_missing_upload env fs k api)|].
       split; [|exists 0%nat; by split; [lia|]]. apply Forall_app.
       split; [apply plain_page_header|by repeat constructor]. }
  destruct (upload_parsed f) as [prs|e] eqn:Hp.
  2: { left. eexists _, _.
       split; [by apply (main_unreadable env fs k api f e)|].
       split; [|exists 1%nat; by split; [lia|]]. apply Forall_app.
       split; [apply plain_page_header|by repeat constructor]. }
  right. by exists k, api, f, prs.
Qed.

(** ** The script: further properties *)

(** X8. An upload that python-pptx cannot read ends the run with the
    exception of python-pptx: the extraction is outside the [try], so no
    error message is shown, nothing is sent to the model and no file is
    touched. *)
Theorem unreadable_upload_not_caught env fs k api f e :
  secrets_access_key env = Some k ->
  lookup_key (py "key") (query_params env) = Some k ->
  secrets_openai_api_key env = Some api ->
  form_submitted env = true ->
  form_ppt_file env = Some f ->
  upload_parsed f = Raises e ->
  exists a,
    main env (start fs) = (Raise e, a)
    /\ trace a
       = page_header
         ++ [StSpinner (py "🔍 Extracting slides..."); Called Extractor]
    /\ files a = fs
    /\ count is_st_error (trace a) = 0%nat
    /\ count is_chat_completion (trace a) = 0%nat.
Proof.
  intros Hk He Ha Hs Hf Hp. eexists. split.
  - by apply (main_unreadable env fs k api f e).
  - by repeat split.
Qed.

(** X9. A missing secret ends the run with [KeyError]: without the access
    key before anything is shown, whatever key the URL carries; without
    the API key once access is granted, before the page is shown. *)
Theorem missing_secret_raises env fs :
  (secrets_access_key env = None ->
   main env (start fs) = (Raise KeyError, start fs))
  /\ (forall k,
        secrets_access_key env = Some k ->
        lookup_key (py "key") (query_params env) = Some k ->
        secrets_openai_api_key env = None ->
        main env (start fs)
        = (Raise KeyError, {| trace := [LoadDotenv]; files := fs |})).
Proof.
  split; [apply main_no_access_secret|apply main_no_api_key].
Qed.

(** X10. Until the form is submitted the run shows the page and nothing
    else, also when a file has been chosen: no component is called and no
    file is touched. *)
Theorem idle_form_shows_page_only env fs k api :
  secrets_access_key env = Some k ->
  lookup_key (py "key") (query_params env) = Some k ->
  secrets_openai_api_key env = Some api ->
  form_submitted env = false ->
  exists a,
    main env (start fs) = (Ok tt, a)
    /\ trace a = page_header
    /\ files a = fs
    /\ count is_called (trace a) = 0%nat
    /\ count is_st_error (trace a) = 0%nat.
Proof.
  intros Hk He Ha Hs. eexists. split.
  - by apply (main_idle env fs k api).
  - by repeat split.
Qed.

(** X11. A response of the service without any choice is reported as
    [IndexError], a first choice without text as [AttributeError]; in both
    cases the error is the last thing shown, nothing is parsed or built
    and no file is touched. *)
Theorem empty_reply_reported env fs k api f prs :
  secrets_access_key env = Some k ->
  lookup_key (py "key") (query_params env) = Some k ->
  secrets_openai_api_key env = Some api ->
  form_submitted env = true ->
  form_ppt_file env = Some f ->
  upload_parsed f = Returns prs ->
  let extracted := map extract_slide (slides prs) in
  let reply := chat_completions_create env api (request_of env extracted) in
  let reported e :=
    (Ok tt,
     {| trace := extraction_shown extracted
                 ++ [ Called Enhancer;
                      ChatCompletion (request_of env extracted);
                      StError (error_message (runtime env) e) ];
        files := fs |}) in
  (reply = Returns [] -> main env (start fs) = reported IndexError)
  /\ (forall cs, reply = Returns (None :: cs) ->
        main env (start fs) = reported AttributeError).
Proof.
  intros Hk He Ha Hs Hf Hp extracted reply reported. subst reply reported.
  rewrite (main_extracted env fs k api f prs Hk He Ha Hs Hf Hp).
  fold extracted.
  unfold enhance_and_build, generate_improved_json, emit, modify, lift,
    raise, ret, bind, try_except.
  cbv zeta. change (chat_request _ _) with (request_of env extracted).
  split; [intros ->|intros cs ->]; run_app;
    rewrite <- !app_assoc; reflexivity.
Qed.

(** X12. A request goes to the model only in a run that was let through
    the guard, had the form submitted and a file uploaded that could be
    read; it is then the request made of the form's values and the
    extracted records: to gpt-4, at temperature 0.7, for at most 1200
    tokens, with a system and a user message. No run sends more than
    one. *)
Theorem request_only_for_parsed_upload env fs :
  (count is_chat_completion (trace (snd (main env (start fs)))) <= 1)%nat
  /\ forall req,
       In (ChatCompletion req) (trace (snd (main env (start fs)))) ->
       exists k api f prs,
         secrets_access_key env = Some k
         /\ lookup_key (py "key") (query_params env) = Some k
         /\ secrets_openai_api_key env = Some api
         /\ form_submitted env = true
         /\ form_ppt_file env = Some f
         /\ upload_parsed f = Returns prs
         /\ req = request_of env (map extract_slide (slides prs))
         /\ model req = py "gpt-4"
         /\ temperature req = 0.7%Q
         /\ max_tokens req = 1200
         /\ map fst (messages req) = [py "system"; py "user"].
Proof.
  destruct (main_cases env fs)
    as [(o & t & -> & Ht & _)
       |(k & api & f & prs & Hk & He & Ha & Hs & Hf & Hp)].
  { cbn [snd trace]. split; [rewrite count_plain by done; lia|].
    intros req Hin. destruct (plain_in t _ Ht Hin). }
  rewrite (main_extracted env fs k api f prs Hk He Ha Hs Hf Hp).
  pose proof (plain_extraction_shown (map extract_slide (slides prs))) as Hpl.
  destruct (enhance_and_build_cases env (chat_completions_create env api)
              (map extract_slide (slides prs))
              {| trace := extraction_shown (map extract_slide (slides prs));
                 files := fs |})
    as [_ [(e & ->)|[(data & e & ->)|[(data & name & e & _ & ->)
                                     |(data & name & deck & _ & ->)]]]];
    cbn [snd trace files].
  all: split;
    [ unfold count; rewrite !List.filter_app, !length_app;
      fold (count is_chat_completion
              (extraction_shown (map extract_slide (slides prs))));
      rewrite count_plain by done; simpl; lia |].
  all: intros req Hin; exists k, api, f, prs; repeat (split; [done|]).
  all: enough (req = request_of env (map extract_slide (slides prs))) as ->
         by (by repeat split).
  all: rewrite <- app_assoc in Hin; cbn [app] in Hin.
  all: apply in_app_or in Hin as [Hin|Hin];
    [destruct (plain_in _ _ Hpl Hin)|].
  all: cbn [In json_shown app] in Hin.
  all: repeat (destruct Hin as [Hin|Hin]; [by simplify_eq|]); done.
Qed.

(** X13. The only file a run writes is the temporary file, and it never
    removes it: at the end the files are those of the start plus what was
    written under the temporary name, and once the Builder has been called
    the temporary file is there, also when the Builder failed. *)
Theorem only_temporary_file_written env fs :
  exists written,
    fs_files (files (snd (main env (start fs)))) = written ++ fs_files fs
    /\ fs_writable (files (snd (main env (start fs)))) = fs_writable fs
    /\ (forall path data,
          In (path, data) written -> named_temporary_file env = Returns path)
    /\ (In (Called Builder) (trace (snd (main env (start fs)))) ->
        exists name data,
          named_temporary_file env = Returns name
          /\ lookup_key name (fs_files (files (snd (main env (start fs)))))
             = Some data).
Proof.
  destruct (main_cases env fs)
    as [(o & t & -> & Ht & _)
       |(k & api & f & prs & Hk & He & Ha & Hs & Hf & Hp)].
  { exists []. cbn [snd trace files]. repeat split; [by intros ? ? []|].
    intros Hin. destruct (plain_in t _ Ht Hin). }
  rewrite (main_extracted env fs k api f prs Hk He Ha Hs Hf Hp).
  pose proof (plain_extraction_shown (map extract_slide (slides prs))) as Hpl.
  destruct (enhance_and_build_cases env (chat_completions_create env api)
              (map extract_slide (slides prs))
              {| trace := extraction_shown (map extract_slide (slides prs));
                 files := fs |})
    as [_ [(e & ->)|[(data & e & ->)|[(data & name & e & Ht & ->)
                                     |(data & name & deck & Ht & ->)]]]];
    cbn [snd trace files].
  - exists []. repeat split; [by intros ? ? []|].
    intros Hin. rewrite <- app_assoc in Hin.
    apply in_app_or in Hin as [Hin|Hin]; [destruct (plain_in _ _ Hpl Hin)|].
    cbn [In app] in Hin.
    repeat (destruct Hin as [Hin|Hin]; [by simplify_eq|]); done.
  - exists []. repeat split; [by intros ? ? []|].
    intros Hin. rewrite <- app_assoc in Hin.
    apply in_app_or in Hin as [Hin|Hin]; [destruct (plain_in _ _ Hpl Hin)|].
    cbn [In app json_shown] in Hin.
    repeat (destruct Hin as [Hin|Hin]; [by simplify_eq|]); done.
  - exists [(name, RawData [])]. repeat split.
    + intros path data' [[= <- <-]|[]]. exact Ht.
    + intros _. exists name, (RawData []).
      split; [exact Ht|apply lookup_key_written].
  - exists [(name, PptxData deck); (name, RawData [])]. repeat split.
    + intros path data' [[= <- <-]|[[= <- <-]|[]]]; exact Ht.
    + intros _. exists name, (PptxData deck).
      split; [exact Ht|apply lookup_key_written].
Qed.

(** X14. When every step succeeds, the reply of the model being an input
    of which the Builder makes a deck, the run ends with the download
    button for the deck built from the reply; that deck is in the
    temporary file and has one slide more than the reply has records,
    whatever slide count was asked for. *)
Theorem enhanced_deck_offered env fs k api f prs c cs data name :
  secrets_access_key env = Some k ->
  lookup_key (py "key") (query_params env) = Some k ->
  secrets_openai_api_key env = Some api ->
  form_submitted env = true ->
  form_ppt_file env = Some f ->
  upload_parsed f = Returns prs ->
  let extracted := map extract_slide (slides prs) in
  chat_completions_create env api (request_of env extracted)
  = Returns (Some c :: cs) ->
  json_loads (runtime env) (strip c) = Returns data ->
  deck_builds (runtime env) data = true ->
  named_temporary_file env = Returns name ->
  fs_writable fs name = true ->
  exists deck,
    main env (start fs)
    = (Ok tt,
       {| trace :=
            extraction_shown extracted
            ++ [Called Enhancer; ChatCompletion (request_of env extracted)]
            ++ json_shown data
            ++ [Called Builder; download_button (PptxData deck)];
          files := write_file name (PptxData deck)
                     (write_file name (RawData []) fs) |})
    /\ length (slides deck) = (1 + length (deck_records data))%nat.
Proof.
  intros Hk He Ha Hs Hf Hp extracted Hc Hj Hd Ht Hw.
  exists (accepted_deck (runtime env) data).
  split; [|apply accepted_deck_length].
  rewrite (main_extracted env fs k api f prs Hk He Ha Hs Hf Hp).
  fold extracted.
  unfold enhance_and_build, generate_improved_json, temporary_file, on_files,
    zoom, emit, modify, get_state, lift, raise, ret, bind, try_except.
  cbv zeta. change (chat_request _ _) with (request_of env extracted).
  rewrite Hc. run_app. rewrite Hj. run_app. rewrite Ht. run_app.
  rewrite json_to_ppt_accepted by done. run_app.
  unfold open_rb, bind, get_state, ret. run_app.
  rewrite lookup_key_written. run_app.
  rewrite <- !app_assoc. reflexivity.
Qed.

(** X16. An exception leaves the script only when a secret is missing, as
    [KeyError], or when the submitted upload cannot be read, as the
    exception of python-pptx; whatever is raised later is caught. *)
Theorem escaping_exceptions env fs e :
  fst (main env (start fs)) = Raise e ->
  (e = KeyError
   /\ (secrets_access_key env = None \/ secrets_openai_api_key env = None))
  \/ (exists f,
        form_submitted env = true
        /\ form_ppt_file env = Some f
        /\ upload_parsed f = Raises e).
Proof.
  destruct (secrets_access_key env) as [k|] eqn:Hk.
  2: { rewrite (main_no_access_secret env fs Hk). intros [= <-].
       left. by split; [|left]. }
  destruct (decide (lookup_key (py "key") (query_params env) = Some k))
    as [He|He].
  2: { by rewrite (main_denied env fs k Hk He). }
  destruct (secrets_openai_api_key env) as [api|] eqn:Ha.
  2: { rewrite (main_no_api_key env fs k Hk He Ha). intros [= <-].
       left. by split; [|right]. }
  destruct (form_submitted env) eqn:Hs.
  2: { by rewrite (main_idle env fs k api Hk He Ha Hs). }
  destruct (form_ppt_file env) as [f|] eqn:Hf.
  2: { by rewrite (main_missing_upload env fs k api Hk He Ha Hs Hf). }
  destruct (upload_parsed f) as [prs|e'] eqn:Hp.
  - rewrite (main_extracted env fs k api f prs Hk He Ha Hs Hf Hp).
    destruct (enhance_and_build_cases env (chat_completions_create env api)
                (map extract_slide (slides prs))
                {| trace := extraction_shown (map extract_slide (slides prs));
                   files := fs |}) as [-> _].
    done.
  - rewrite (main_unreadable env fs k api f e' Hk He Ha Hs Hf Hp).
    intros [= <-]. right. by exists f.
Qed.

(** X17. The components are called in the order of the pipeline, each at
    most once, and none without the ones before it: the calls of a run
    are the Extractor, the Enhancer and the Builder, cut off at the point
    where the run ends or fails. *)
Theorem components_called_in_order env fs :
  exists n,
    (n <= 3)%nat
    /\ List.filter is_called (trace (snd (main env (start fs))))
       = take n [Called Extractor; Called Enhancer; Called Builder].
Proof.
  destruct (main_cases env fs)
    as [(o & t & -> & _ & n & Hn & Hcalled)
       |(k & api & f & prs & Hk & He & Ha & Hs & Hf & Hp)].
  { exists n. split; [lia|]. cbn [snd trace]. rewrite Hcalled.
    by destruct n as [|[|n]]; [| |lia]. }
  rewrite (main_extracted env fs k api f prs Hk He Ha Hs Hf Hp).
  destruct (enhance_and_build_cases env (chat_completions_create env api)
              (map extract_slide (slides prs))
              {| trace := extraction_shown (map extract_slide (slides prs));
                 files := fs |})
    as [_ [(e & ->)|[(data & e & ->)|[(data & name & e & _ & ->)
                                     |(data & name & deck & _ & ->)]]]];
    cbn [snd trace files].
  - exists 2%nat. split; [lia|reflexivity].
  - exists 2%nat. split; [lia|reflexivity].
  - exists 3%nat. split; [lia|reflexivity].
  - exists 3%nat. split; [lia|reflexivity].
Qed.

(** ** More instances *)

Lemma unreadable_upload_not_caught_witness :
  let env := request_with (Some (py "s3cret")) (Some (py "sk-test")) true
               (Some unreadable_upload) (Returns []) in
  upload_parsed unreadable_upload
  = Raises (OtherException (py "PackageNotFoundError"))
  /\ fst (main env (start sample_fs))
     = Raise (OtherException (py "PackageNotFoundError"))
  /\ count is_st_error (trace (snd (main env (start sample_fs)))) = 0%nat.
Proof.
  intros env. split; [reflexivity|].
  destruct (unreadable_upload_not_caught env sample_fs (py "s3cret")
              (py "sk-test") unreadable_upload _
              eq_refl eq_refl eq_refl eq_refl eq_refl eq_refl)
    as (a & -> & _ & _ & Herr & _).
  split; [reflexivity|exact Herr].
Defined.

Lemma missing_secret_raises_witness :
  let env := request_with None (Some (py "sk-test")) true
               (Some sample_upload) (Returns []) in
  secrets_access_key env = None
  /\ main env (start sample_fs) = (Raise KeyError, start sample_fs).
Proof.
  intros env. split; [reflexivity|].
  apply (proj1 (missing_secret_raises env sample_fs)). reflexivity.
Defined.

Lemma idle_form_shows_page_only_witness :
  let env := request_with (Some (py "s3cret")) (Some (py "sk-test")) false
               (Some sample_upload) (Returns []) in
  form_submitted env = false
  /\ form_ppt_file env = Some sample_upload
  /\ exists a,
       main env (start sample_fs) = (Ok tt, a) /\ trace a = page_header.
Proof.
  intros env. split; [reflexivity|]. split; [reflexivity|].
  destruct (idle_form_shows_page_only env sample_fs (py "s3cret")
              (py "sk-test") eq_refl eq_refl eq_refl eq_refl)
    as (a & Hrun & Htrace & _).
  exists a. split; [exact Hrun|exact Htrace].
Defined.

Lemma empty_reply_reported_witness :
  let env := request_with (Some (py "s3cret")) (Some (py "sk-test")) true
               (Some sample_upload) (Returns []) in
  chat_completions_create env (py "sk-test")
    (request_of env (map extract_slide (slides sample_presentation)))
  = Returns []
  /\ last (trace (snd (main env (start sample_fs))))
     = Some (StError (error_message lenient_runtime IndexError)).
Proof.
  intros env. split; [reflexivity|].
  destruct (empty_reply_reported env sample_fs (py "s3cret") (py "sk-test")
              sample_upload sample_presentation
              eq_refl eq_refl eq_refl eq_refl eq_refl eq_refl) as [Hrun _].
  rewrite (Hrun eq_refl). reflexivity.
Defined.

Lemma request_only_for_parsed_upload_witness :
  let req :=
    request_of lenient_request
      (map extract_slide (slides sample_presentation)) in
  In (ChatCompletion req) (trace (snd (main lenient_request (start sample_fs))))
  /\ exists prs,
       upload_parsed sample_upload = Returns prs
       /\ req = request_of lenient_request (map extract_slide (slides prs)).
Proof.
  intros req.
  assert (In (ChatCompletion req)
            (trace (snd (main lenient_request (start sample_fs))))) as Hin.
  { vm_compute. do 16 right. left. reflexivity. }
  split; [exact Hin|].
  destruct (proj2 (request_only_for_parsed_upload lenient_request sample_fs)
              req Hin)
    as (k & api & f & prs & _ & _ & _ & _ & Hf & Hp & Hreq & _).
  injection Hf as <-. exists prs. split; [exact Hp|exact Hreq].
Defined.

Lemma only_temporary_file_written_witness :
  In (Called Builder) (trace (snd (main lenient_request (start sample_fs))))
  /\ exists data,
       lookup_key (py "/tmp/tmpab12.pptx")
         (fs_files (files (snd (main lenient_request (start sample_fs)))))
       = Some data.
Proof.
  assert (In (Called Builder)
            (trace (snd (main lenient_request (start sample_fs))))) as Hin.
  { vm_compute. do 20 right. left. reflexivity. }
  split; [exact Hin|].
  destruct (only_temporary_file_written lenient_request sample_fs)
    as (written & _ & _ & _ & Hleft).
  destruct (Hleft Hin) as (name & data & Hname & Hdata).
  injection Hname as <-. exists data. exact Hdata.
Defined.

Lemma enhanced_deck_offered_witness :
  json_loads lenient_runtime (strip (py "{}")) = Returns example_deck
  /\ deck_builds lenient_runtime example_deck = true
  /\ named_temporary_file lenient_request = Returns (py "/tmp/tmpab12.pptx")
  /\ fs_writable sample_fs (py "/tmp/tmpab12.pptx") = true
  /\ exists a deck,
       main lenient_request (start sample_fs) = (Ok tt, a)
       /\ last (trace a) = Some (download_button (PptxData deck))
       /\ length (slides deck) = 2%nat.
Proof.
  repeat (split; [reflexivity|]).
  destruct (enhanced_deck_offered lenient_request sample_fs (py "s3cret")
              (py "sk-test") sample_upload sample_presentation (py "{}") []
              example_deck (py "/tmp/tmpab12.pptx")
              eq_refl eq_refl eq_refl eq_refl eq_refl eq_refl
              eq_refl eq_refl eq_refl eq_refl eq_refl)
    as (deck & Hrun & Hlen).
  eexists _, deck. split; [exact Hrun|]. split; [reflexivity|exact Hlen].
Defined.

Lemma extracted_text_is_trimmed_witness :
  extract_ppt_text sample_upload
  = Returns [ {| heading := py "Roadmap";
                 bullet_points :=
                   [py "Q1: pilot"; py "Q2: rollout"; py "Confidential"] |} ]
  /\ stripped (py "Roadmap")
  /\ Forall (fun b => b <> [] /\ stripped b)
            [py "Q1: pilot"; py "Q2: rollout"; py "Confidential"].
Proof.
  split; [reflexivity|].
  pose proof (extracted_text_is_trimmed sample_upload _ eq_refl) as H.
  apply Forall_cons in H as [[Hh Hb] _]. split; [exact Hh|exact Hb].
Defined.

Lemma builder_accepts_exactly_witness :
  deck_builds sample_runtime string_bullets_deck = true
  /\ deck_shaped string_bullets_deck = false
  /\ fs_writable sample_fs (py "out.pptx") = true
  /\ fst (json_to_ppt sample_runtime string_bullets_deck (py "out.pptx")
            sample_fs)
     = Ok (py "out.pptx").
Proof.
  repeat (split; [reflexivity|]).
  rewrite (proj1 (builder_accepts_exactly sample_runtime string_bullets_deck
                    (py "out.pptx") sample_fs) eq_refl eq_refl).
  reflexivity.
Defined.

Lemma bullet_points_iterated_witness :
  json_to_ppt sample_runtime string_bullets_deck (py "out.pptx") sample_fs
  = (Ok (py "out.pptx"),
     write_file (py "out.pptx")
       (PptxData (accepted_deck sample_runtime string_bullets_deck))
       sample_fs)
  /\ exists slide box,
       slides (accepted_deck sample_runtime string_bullets_deck) !! 1%nat
       = Some slide
       /\ shapes slide !! 1%nat = Some (ShapeSp box)
       /\ map p_text (paragraphs (text_frame box)) = [ []; py "a"; py "b" ].
Proof.
  assert (json_to_ppt sample_runtime string_bullets_deck (py "out.pptx")
            sample_fs
          = (Ok (py "out.pptx"),
             write_file (py "out.pptx")
               (PptxData (accepted_deck sample_runtime string_bullets_deck))
               sample_fs)) as Hrun
    by (apply json_to_ppt_accepted; reflexivity).
  split; [exact Hrun|].
  destruct (bullet_points_iterated sample_runtime string_bullets_deck
              (py "out.pptx") sample_fs _ _ Hrun)
    as (prs & Hfs & _ & Hslides).
  unfold write_file in Hfs. injection Hfs as <-.
  destruct (Hslides 0%nat _ eq_refl) as (slide & box & Hs & Hb & _ & Hstr & _).
  exists slide, box. split; [exact Hs|]. split; [exact Hb|].
  rewrite (Hstr (py "ab") eq_refl). reflexivity.
Defined.

Lemma content_slide_styling_witness :
  json_to_ppt sample_runtime sample_deck (py "out.pptx") sample_fs
  = (Ok (py "out.pptx"),
     write_file (py "out.pptx")
       (PptxData (accepted_deck sample_runtime sample_deck)) sample_fs)
  /\ exists slide,
       slides (accepted_deck sample_runtime sample_deck) !! 2%nat = Some slide
       /\ background slide = FillSolid (Some (RGBColor 240 248 255)).
Proof.
  assert (json_to_ppt sample_runtime sample_deck (py "out.pptx") sample_fs
          = (Ok (py "out.pptx"),
             write_file (py "out.pptx")
               (PptxData (accepted_deck sample_runtime sample_deck))
               sample_fs)) as Hrun
    by (apply json_to_ppt_accepted; reflexivity).
  split; [exact Hrun|].
  destruct (content_slide_styling sample_runtime sample_deck
              (py "out.pptx") sample_fs _ _ Hrun)
    as (prs & Hfs & Hslides).
  unfold write_file in Hfs. injection Hfs as <-.
  eexists. split; [reflexivity|].
  destruct (Hslides 1%nat _ eq_refl) as [Hbg _]. exact Hbg.
Defined.

Lemma content_slide_layout_witness :
  json_to_ppt sample_runtime sample_deck (py "out.pptx") sample_fs
  = (Ok (py "out.pptx"),
     write_file (py "out.pptx")
       (PptxData (accepted_deck sample_runtime sample_deck)) sample_fs)
  /\ exists slide,
       slides (accepted_deck sample_runtime sample_deck) !! 1%nat = Some slide
       /\ (2 <= length (shapes slide) <= 3)%nat.
Proof.
  assert (json_to_ppt sample_runtime sample_deck (py "out.pptx") sample_fs
          = (Ok (py "out.pptx"),
             write_file (py "out.pptx")
               (PptxData (accepted_deck sample_runtime sample_deck))
               sample_fs)) as Hrun
    by (apply json_to_ppt_accepted; reflexivity).
  split; [exact Hrun|].
  destruct (content_slide_layout sample_runtime sample_deck
              (py "out.pptx") sample_fs _ _ Hrun)
    as (prs & Hfs & Hslides).
  unfold write_file in Hfs. injection Hfs as <-.
  eexists. split; [reflexivity|].
  destruct (Hslides 0%nat _ eq_refl) as [Hlen _]. exact Hlen.
Defined.

Lemma built_deck_extracted_witness :
  json_to_ppt sample_runtime control_deck (py "out.pptx") sample_fs
  = (Ok (py "out.pptx"),
     write_file (py "out.pptx")
       (PptxData (accepted_deck sample_runtime control_deck)) sample_fs)
  /\ exists recs,
       extract_ppt_text
         {| upload_name := py "out.pptx";
            upload_parsed :=
              Returns (accepted_deck sample_runtime control_deck) |}
       = Returns recs
       /\ recs !! 0%nat
          = Some {| heading := py "A_x000D_B";
                    bullet_points := [py "Enhanced by GPT-4"] |}
       /\ recs !! 1%nat
          = Some {| heading := [];
                    bullet_points :=
                      [ py "a_x001C_b"; py "_x001C_"; py "x_x000D_y";
                        py "[p_x000D_ie chart placeholder]" ] |}.
Proof.
  assert (json_to_ppt sample_runtime control_deck (py "out.pptx") sample_fs
          = (Ok (py "out.pptx"),
             write_file (py "out.pptx")
               (PptxData (accepted_deck sample_runtime control_deck))
               sample_fs)) as Hrun
    by (apply json_to_ppt_accepted; reflexivity).
  split; [exact Hrun|].
  destruct (built_deck_extracted sample_runtime control_deck
              (py "out.pptx") sample_fs _ _ (py "out.pptx") Hrun)
    as (prs & recs & Hfs & Hext & _ & Htitle & Hrecs).
  unfold write_file in Hfs. injection Hfs as <-.
  exists recs. split; [exact Hext|].
  split; [rewrite Htitle; reflexivity|].
  rewrite (Hrecs 0%nat _ eq_refl). reflexivity.
Defined.

Lemma escaping_exceptions_witness :
  let env := request_with (Some (py "s3cret")) None true
               (Some sample_upload) (Returns []) in
  fst (main env (start sample_fs)) = Raise KeyError
  /\ secrets_openai_api_key env = None.
Proof.
  intros env.
  assert (fst (main env (start sample_fs)) = Raise KeyError) as Hrun
    by reflexivity.
  split; [exact Hrun|].
  destruct (escaping_exceptions env sample_fs KeyError Hrun)
    as [[_ [Hk|Ha]]|(f & _ & _ & Hp)]; [discriminate Hk|exact Ha|].
  reflexivity.
Defined.

Example builder_rejects_long_number :
  json_to_ppt sample_runtime
    (one_field_deck (py "chart_type") (JInt (10 ^ 4300)))
    (py "out.pptx") sample_fs
  = (Raise ValueError, sample_fs).
Proof. vm_compute. reflexivity. Qed.

